(** * pi-rl-bot: the breakout baseline and its backtest

    A shallow embedding of [baseline_rules.py] (the per-day breakout state
    machine [make_signals]), of [backtest.py] (the cost model
    [apply_costs] and the summary [metrics]) and of [data_feed.py] (the
    batched [fetch_history], the broker being a parameter), followed by the
    properties the specification states about them and by further
    properties read off the code.

    Prices are Python floats, that is IEEE-754 binary64 numbers: they are
    modelled by Rocq's primitive floats, whose operations are the same
    correctly rounded ones.  A pandas [Timestamp] is an instant, modelled
    by its number of nanoseconds since the epoch, in UTC.  A raised Python
    exception is the result [None]. *)

From Stdlib Require Import ZArith List String Ascii Bool Lia.
From Stdlib Require Import Sorted Permutation.
From Stdlib Require Import Floats.
Import ListNotations.

Set Warnings "-inexact-float".

Open Scope Z_scope.

(** ** Exceptions as [option] *)

Notation "'let?' x ':=' e 'in' k" :=
  (match e with Some x => k | None => None end)
  (at level 10, x pattern, e at level 100, k at level 200).

(** * Python built-ins *)

Module Py.

(** [max(a, b)]: the first argument unless the second compares greater. *)
Definition max (a b : float) : float := if (a <? b)%float then b else a.

(** [min(a, b)]: the first argument unless the second compares smaller. *)
Definition min (a b : float) : float := if (b <? a)%float then b else a.

(** [s.endswith(suffix)]: some tail of [s] is [suffix]. *)
Fixpoint endswith (s suffix : string) : bool :=
  String.eqb s suffix ||
  match s with
  | EmptyString => false
  | String _ s' => endswith s' suffix
  end.

(** [s[:n]] and [s[n:]] on strings (both truncate silently). *)
Fixpoint take (n : nat) (s : string) : string :=
  match n, s with
  | S n', String c s' => String c (take n' s')
  | _, _ => EmptyString
  end.

Fixpoint drop (n : nat) (s : string) : string :=
  match n, s with
  | S n', String _ s' => drop n' s'
  | _, _ => s
  end.

Definition digit (c : ascii) : option Z :=
  let n := Z.of_nat (nat_of_ascii c) in
  if (48 <=? n) && (n <=? 57) then Some (n - 48) else None.

Fixpoint digits (acc : Z) (s : string) : option Z :=
  match s with
  | EmptyString => Some acc
  | String c s' => let? d := digit c in digits (10 * acc + d) s'
  end.

(** [int(s)] on a string of decimal digits; [None] is the [ValueError]
    raised on the empty string and on any other character.  ([int] also
    reads a sign, surrounding blanks and underscores between digits; those
    spellings are not modelled and count as errors here.) *)
Definition int (s : string) : option Z :=
  match s with
  | EmptyString => None
  | _ => digits 0 s
  end.

End Py.

(** * The pandas operations the program uses *)

Module Pandas.

(** Nanoseconds since 1970-01-01T00:00:00 UTC. *)
Definition Timestamp := Z.

Definition ns_per_minute : Z := 60 * 1000000000.
Definition ns_per_hour : Z := 60 * ns_per_minute.
Definition ns_per_day : Z := 24 * ns_per_hour.

(** [ts.hour] and [ts.minute] of a UTC timestamp. *)
Definition hour (ts : Timestamp) : Z := (ts mod ns_per_day) / ns_per_hour.
Definition minute (ts : Timestamp) : Z := (ts mod ns_per_hour) / ns_per_minute.

(** [ts.strftime("%Y-%m-%d")] names the UTC calendar day of [ts]; the day is
    represented by its number since the epoch, which determines the
    string and is determined by it. *)
Definition strftime_ymd (ts : Timestamp) : Z := ts / ns_per_day.

(** Timestamps and time spans are 64-bit counts of nanoseconds.  The
    smallest 64-bit value is kept for NaT, "not a time", which compares
    false with every instant. *)
Definition int64_max : Z := 9223372036854775807.
Definition int64_min : Z := - int64_max - 1.

(** [pd.Timedelta(minutes=m)]; [None] is the [OutOfBoundsTimedelta] raised
    when the span does not fit 64 bits of nanoseconds. *)
Definition Timedelta_minutes (m : Z) : option Z :=
  let ns := m * ns_per_minute in
  if (- int64_max <=? ns) && (ns <=? int64_max) then Some ns else None.

(** [ts + delta]; [None] is the [OutOfBoundsDatetime] raised when the sum
    does not fit 64 bits.  The sum [int64_min] is NaT: as a count it is
    below every instant, and so compares with the instants as NaT does
    under [<]. *)
Definition Timestamp_add (ts : Timestamp) (delta : Z) : option Timestamp :=
  let ns := ts + delta in
  if (int64_min <=? ns) && (ns <=? int64_max) then Some ns else None.

(** [pd.unique]: the distinct values, in order of first appearance. *)
Fixpoint unique_from (seen : list Z) (l : list Z) : list Z :=
  match l with
  | [] => []
  | x :: l' =>
      if existsb (Z.eqb x) seen then unique_from seen l'
      else x :: unique_from (x :: seen) l'
  end.

Definition unique (l : list Z) : list Z := unique_from [] l.

(** [frame[mask]]: the rows whose mask entry is [True]. *)
Fixpoint bool_index {A : Type} (rows : list A) (mask : list bool) : list A :=
  match rows, mask with
  | r :: rows', m :: mask' =>
      if m then r :: bool_index rows' mask' else bool_index rows' mask'
  | _, _ => []
  end.

(** [series.loc[label]] for a series kept as its (label, value) pairs;
    [None] is the [KeyError] of an absent label.  This is the lookup in a
    series of distinct labels, where the first match is the only one.  On
    a repeated label pandas returns every match; that case is not
    followed here, and the properties below that go through this lookup
    are stated for frames whose stamps are distinct. *)
Fixpoint loc {V : Type} (series : list (Timestamp * V)) (label : Timestamp) : option V :=
  match series with
  | [] => None
  | (t, v) :: series' => if t =? label then Some v else loc series' label
  end.

(** [series.loc[labels]]. *)
Fixpoint loc_all {V : Type} (series : list (Timestamp * V)) (labels : list Timestamp)
  : option (list V) :=
  match labels with
  | [] => Some []
  | t :: labels' =>
      let? v := loc series t in
      let? vs := loc_all series labels' in
      Some (v :: vs)
  end.

Definition isnan (x : float) : bool := negb (x =? x)%float.

(** The values a reduction sees: pandas skips NaN by default. *)
Definition dropna (l : list float) : list float := filter (fun x => negb (isnan x)) l.

(** [series.fillna(v)]. *)
Definition fillna (v : float) (l : list float) : list float :=
  map (fun x => if isnan x then v else x) l.

(** The sum numpy takes of a float64 array is not a left-to-right fold but
    a pairwise summation, whose roundings differ from eight values on.
    Fewer than 8 values are added in order.  Up to 128 values are added
    in eight lanes, value [i] going to lane [i mod 8] while whole groups
    of eight last; the lanes are then added two by two, and the values
    left over are added in order.  More than 128 values are cut in two
    parts, the first of a multiple of 8 values, each summed this way. *)
Fixpoint lanes_add (r chunk : list float) : list float :=
  match r, chunk with
  | x :: r', y :: chunk' => (x + y)%float :: lanes_add r' chunk'
  | _, _ => []
  end.

Fixpoint unrolled (groups : nat) (r rest : list float) : list float * list float :=
  match groups with
  | O => (r, rest)
  | S groups' => unrolled groups' (lanes_add r (firstn 8 rest)) (skipn 8 rest)
  end.

(** A block of 8 to 128 values (with fewer than 8 there are no lanes; that
    case is never asked for). *)
Definition block_sum (a : list float) : float :=
  let (r, rest) := unrolled (List.length a / 8 - 1) (firstn 8 a) (skipn 8 a) in
  match r with
  | [r0; r1; r2; r3; r4; r5; r6; r7] =>
      fold_left PrimFloat.add rest
                (((r0 + r1) + (r2 + r3)) + ((r4 + r5) + (r6 + r7)))%float
  | _ => nan
  end.

(** [depth] bounds the number of cuts; the number of values is enough. *)
Fixpoint pairwise_sum (depth : nat) (a : list float) : float :=
  let n := List.length a in
  if (n <? 8)%nat then fold_left PrimFloat.add a 0%float
  else if (n <=? 128)%nat then block_sum a
  else
    match depth with
    | O => block_sum a
    | S depth' =>
        let n2 := (n / 2 - (n / 2) mod 8)%nat in
        (pairwise_sum depth' (firstn n2 a) + pairwise_sum depth' (skipn n2 a))%float
    end.

(** [np.add.reduce] over the values: the reduction starts from [0.0]. *)
Definition np_sum (a : list float) : float :=
  (0 + pairwise_sum (List.length a) a)%float.

(** [series.sum()]: the NaN entries count for [0.0], in their places, and
    the sum of nothing is [0.0]. *)
Definition sum (l : list float) : float := np_sum (fillna 0%float l).

(** [series.max()], [series.min()]: reductions over the values that are
    not NaN; the extremum of nothing is NaN. *)
Definition max (l : list float) : float :=
  match dropna l with
  | [] => nan
  | x :: xs => fold_left Py.max xs x
  end.

Definition min (l : list float) : float :=
  match dropna l with
  | [] => nan
  | x :: xs => fold_left Py.min xs x
  end.

(** The number of rows as a float (exact below 2^53). *)
Definition count (l : list float) : float :=
  PrimFloat.of_uint63 (Uint63.of_Z (Z.of_nat (List.length l))).

(** [series.mean()] and [series.std()] (sample deviation, [ddof=1]; NaN
    when fewer than two values remain). *)
Definition mean (l : list float) : float :=
  (sum l / count (dropna l))%float.

Definition std (l : list float) : float :=
  let xs := dropna l in
  let avg := mean l in
  let sqr := np_sum (map (fun x => if isnan x then 0%float
                                   else ((avg - x) * (avg - x))%float) l) in
  if (List.length xs <=? 1)%nat then nan
  else PrimFloat.sqrt (sqr / (count xs - 1))%float.

(** [series.cumsum()] and [series.cummax()]: a NaN entry stays NaN and
    leaves the running value untouched. *)
Fixpoint cumsum_from (acc : float) (l : list float) : list float :=
  match l with
  | [] => []
  | x :: l' =>
      if isnan x then nan :: cumsum_from acc l'
      else (acc + x)%float :: cumsum_from (acc + x)%float l'
  end.

Definition cumsum (l : list float) : list float := cumsum_from 0%float l.

Fixpoint cummax_from (acc : option float) (l : list float) : list float :=
  match l with
  | [] => []
  | x :: l' =>
      if isnan x then nan :: cummax_from acc l'
      else
        let m := match acc with Some a => Py.max a x | None => x end in
        m :: cummax_from (Some m) l'
  end.

Definition cummax (l : list float) : list float := cummax_from None l.

(** Element-wise difference of two series of the same index. *)
Fixpoint sub (a b : list float) : list float :=
  match a, b with
  | x :: a', y :: b' => (x - y)%float :: sub a' b'
  | _, _ => []
  end.

End Pandas.

(** * baseline_rules.py *)

Module BaselineRules.

Import Pandas.

(** The module-level parameters, read from the environment at import. *)
Record Config := mkConfig {
  BUFFER_PIPS : float;        (* buffer above/below range *)
  SL_PIPS : float;            (* initial stop loss *)
  TP_PIPS : float;            (* take profit *)
  SESSION_START : string;     (* HHMM, UTC *)
  SESSION_END : string;       (* HHMM, UTC *)
  FIRST_WINDOW_MIN : Z;       (* minutes for initial range *)
  INSTRUMENT : string;
  BE_TRIGGER_PIPS : float;    (* move SL to BE after this many pips in profit *)
  LOCK_PROFIT_PIPS : float    (* lock +X pips beyond BE *)
}.

(** The values used when the environment sets nothing. *)
Definition default_config : Config := {|
  BUFFER_PIPS := 1.0;
  SL_PIPS := 8.0;
  TP_PIPS := 12.0;
  SESSION_START := "0700";
  SESSION_END := "1700";
  FIRST_WINDOW_MIN := 30;
  INSTRUMENT := "EUR_USD";
  BE_TRIGGER_PIPS := 6.0;
  LOCK_PROFIT_PIPS := 0.0
|}.

Definition pips_to_price (pips : float) (instrument : string) : float :=
  if Py.endswith instrument "_JPY" then (pips * 0.01)%float
  else (pips * 0.0001)%float.

Record Trade := mkTrade {
  time : Timestamp;
  side : string;               (* 'long' or 'short' *)
  entry : float;
  sl : float;
  tp : float;
  exit : option float;
  exit_time : option Timestamp;
  exit_reason : option string
}.

(** The two ways the program mutates a trade: [trade.sl = v], and the
    three assignments that close it. *)
Definition set_sl (trade : Trade) (v : float) : Trade :=
  mkTrade (time trade) (side trade) (entry trade) v (tp trade)
          (exit trade) (exit_time trade) (exit_reason trade).

Definition set_exit (trade : Trade) (price : float) (t : Timestamp) (reason : string)
  : Trade :=
  mkTrade (time trade) (side trade) (entry trade) (sl trade) (tp trade)
          (Some price) (Some t) (Some reason).

(** One row of the price frame: its index label and its columns. *)
Record Candle := mkCandle {
  stamp : Timestamp;
  open : float;
  high : float;
  low : float;
  close : float
}.

Definition DataFrame := list Candle.

Definition index (df : DataFrame) : list Timestamp := map stamp df.

Definition _hhmm_to_minutes (hhmm : string) : option Z :=
  let? h := Py.int (Py.take 2 hhmm) in
  let? m := Py.int (Py.drop 2 hhmm) in
  Some (h * 60 + m).

(** The chained comparison reads [SESSION_END] only when the first
    comparison holds. *)
Definition _in_session (cfg : Config) (ts : Timestamp) : option bool :=
  let minutes := hour ts * 60 + minute ts in
  let? a := _hhmm_to_minutes (SESSION_START cfg) in
  if a <=? minutes then
    let? b := _hhmm_to_minutes (SESSION_END cfg) in
    Some (minutes <=? b)
  else Some false.

Definition _session_day_key (ts : Timestamp) : Z := strftime_ymd ts.

(** [index.map(f)] for an [f] that may raise. *)
Fixpoint map_opt {A B : Type} (f : A -> option B) (l : list A) : option (list B) :=
  match l with
  | [] => Some []
  | x :: l' =>
      let? y := f x in
      let? ys := map_opt f l' in
      Some (y :: ys)
  end.

(** A [for] loop without [break], over a body that may raise. *)
Fixpoint for_each {A S : Type} (body : A -> S -> option S) (l : list A) (s : S)
  : option S :=
  match l with
  | [] => Some s
  | x :: l' => let? s' := body x s in for_each body l' s'
  end.

Definition and_mask (a b : list bool) : list bool :=
  map (fun p => fst p && snd p) (combine a b).

(** The body of the loop of [_first_window_mask]: the rows whose label
    lies in the first window of [day] are added to the mask. *)
Definition first_window_day (cfg : Config) (df : DataFrame) (keys : list Z)
    (day : Z) (first_mask : list (Timestamp * bool))
  : option (list (Timestamp * bool)) :=
  let? sess := map_opt (_in_session cfg) (index df) in
  let day_idx := and_mask (map (fun k => k =? day) keys) sess in
  let day_times := bool_index (index df) day_idx in
  match day_times with
  | [] => Some first_mask
  | start_time :: _ =>
      let? delta := Timedelta_minutes (FIRST_WINDOW_MIN cfg) in
      let? cutoff := Timestamp_add start_time delta in
      Some (map (fun p => (fst p, snd p || ((start_time <=? fst p) && (fst p <? cutoff))))
                first_mask)
  end.

Definition _first_window_mask (cfg : Config) (df : DataFrame)
  : option (list (Timestamp * bool)) :=
  let keys := map _session_day_key (index df) in
  let first_mask := map (fun t => (t, false)) (index df) in
  for_each (first_window_day cfg df keys) (unique keys) first_mask.

(** The local variables of [make_signals] that live across iterations.
    [trade = None] is the name not bound yet; reading it then raises.  The
    flags and the water marks are assigned when a day starts, before any
    read, so the values they hold before the first day are never seen. *)
Record Locals := mkLocals {
  trades : list Trade;
  trade : option Trade;
  entered : bool;
  moved_be : bool;
  high_water : option float;
  low_water : option float
}.

(** How the body of the inner loop ends: by falling through (or
    [continue]), or by [break]. *)
Inductive Flow := Next | Break.

Section Day.

Variable cfg : Config.
Variable instrument : string.

(** Lines 99-114: no position yet. *)
Definition try_entry (long_trig short_trig : float) (row : Candle) (st : Locals)
  : Locals :=
  let t := stamp row in
  if (long_trig <? close row)%float then
    let entry := close row in
    let sl := (entry - pips_to_price (SL_PIPS cfg) instrument)%float in
    let tp := (entry + pips_to_price (TP_PIPS cfg) instrument)%float in
    let trade := mkTrade t "long" entry sl tp None None None in
    mkLocals (trades st) (Some trade) true (moved_be st)
             (Some (high row)) (low_water st)
  else if (close row <? short_trig)%float then
    let entry := close row in
    let sl := (entry + pips_to_price (SL_PIPS cfg) instrument)%float in
    let tp := (entry - pips_to_price (TP_PIPS cfg) instrument)%float in
    let trade := mkTrade t "short" entry sl tp None None None in
    mkLocals (trades st) (Some trade) true (moved_be st)
             (high_water st) (Some (low row))
  else st.

(** Line 117 and line 136: the water marks. *)
Definition water_long (st : Locals) (row : Candle) : float :=
  match high_water st with
  | Some hw => Py.max hw (high row)
  | None => high row
  end.

Definition water_short (st : Locals) (row : Candle) : float :=
  match low_water st with
  | Some lw => Py.min lw (low row)
  | None => low row
  end.

(** Lines 118-119 and 137-138: does the breakeven move fire on this row? *)
Definition be_fires_long (st : Locals) (row : Candle) (trade : Trade) : bool :=
  let be_trigger_price :=
    (entry trade + pips_to_price (BE_TRIGGER_PIPS cfg) instrument)%float in
  negb (moved_be st) && (be_trigger_price <=? water_long st row)%float.

Definition be_fires_short (st : Locals) (row : Candle) (trade : Trade) : bool :=
  let be_trigger_price :=
    (entry trade - pips_to_price (BE_TRIGGER_PIPS cfg) instrument)%float in
  negb (moved_be st) && (water_short st row <=? be_trigger_price)%float.

(** Lines 120-121 and 139-140: the trade once the breakeven step is done. *)
Definition ratchet_long (st : Locals) (row : Candle) (trade : Trade) : Trade :=
  if be_fires_long st row trade then
    let new_sl :=
      (entry trade + pips_to_price (LOCK_PROFIT_PIPS cfg) instrument)%float in
    set_sl trade (Py.max (sl trade) new_sl)
  else trade.

Definition ratchet_short (st : Locals) (row : Candle) (trade : Trade) : Trade :=
  if be_fires_short st row trade then
    let new_sl :=
      (entry trade - pips_to_price (LOCK_PROFIT_PIPS cfg) instrument)%float in
    set_sl trade (Py.min (sl trade) new_sl)
  else trade.

(** Lines 116-134: an open long meets a row. *)
Definition manage_long (row : Candle) (st : Locals) (trade0 : Trade)
  : Locals * Flow :=
  let t := stamp row in
  let high_water := water_long st row in
  let moved_be := if be_fires_long st row trade0 then true else moved_be st in
  let trade := ratchet_long st row trade0 in
  if (low row <=? sl trade)%float then
    let trade := set_exit trade (sl trade) t "SL" in
    (mkLocals (trades st ++ [trade]) (Some trade) (entered st) moved_be
              (Some high_water) (low_water st), Break)
  else if (tp trade <=? high row)%float then
    let trade := set_exit trade (tp trade) t "TP" in
    (mkLocals (trades st ++ [trade]) (Some trade) (entered st) moved_be
              (Some high_water) (low_water st), Break)
  else
    (mkLocals (trades st) (Some trade) (entered st) moved_be
              (Some high_water) (low_water st), Next).

(** Lines 135-153: an open short meets a row. *)
Definition manage_short (row : Candle) (st : Locals) (trade0 : Trade)
  : Locals * Flow :=
  let t := stamp row in
  let low_water := water_short st row in
  let moved_be := if be_fires_short st row trade0 then true else moved_be st in
  let trade := ratchet_short st row trade0 in
  if (sl trade <=? high row)%float then
    let trade := set_exit trade (sl trade) t "SL" in
    (mkLocals (trades st ++ [trade]) (Some trade) (entered st) moved_be
              (high_water st) (Some low_water), Break)
  else if (low row <=? tp trade)%float then
    let trade := set_exit trade (tp trade) t "TP" in
    (mkLocals (trades st ++ [trade]) (Some trade) (entered st) moved_be
              (high_water st) (Some low_water), Break)
  else
    (mkLocals (trades st) (Some trade) (entered st) moved_be
              (high_water st) (Some low_water), Next).

(** Lines 98-153: the body of [for t, row in day_df.iterrows()]. *)
Definition on_row (long_trig short_trig : float) (row : Candle) (st : Locals)
  : option (Locals * Flow) :=
  if negb (entered st) then Some (try_entry long_trig short_trig row st, Next)
  else
    let? trade := trade st in
    if String.eqb (side trade) "long" then Some (manage_long row st trade)
    else Some (manage_short row st trade).

(** The inner loop: rows in order until one breaks. *)
Fixpoint for_rows (long_trig short_trig : float) (rows : list Candle) (st : Locals)
  : option (Locals * Flow) :=
  match rows with
  | [] => Some (st, Next)
  | row :: rows' =>
      let? r := on_row long_trig short_trig row st in
      match snd r with
      | Break => Some (fst r, Break)
      | Next => for_rows long_trig short_trig rows' (fst r)
      end
  end.

(** The locals after each row the inner loop runs, in order. *)
Fixpoint rows_trace (long_trig short_trig : float) (rows : list Candle) (st : Locals)
  : list Locals :=
  match rows with
  | [] => []
  | row :: rows' =>
      match on_row long_trig short_trig row st with
      | None => []
      | Some (st', Break) => [st']
      | Some (st', Next) => st' :: rows_trace long_trig short_trig rows' st'
      end
  end.

(** [frame.iloc[-1]]; [None] is the [IndexError] of an empty frame. *)
Definition last_row (rows : list Candle) : option Candle :=
  match rev rows with
  | [] => None
  | row :: _ => Some row
  end.

(** Lines 155-160: the forced close once the rows of the day are done. *)
Definition eod_close (day_df : DataFrame) (st : Locals) : option Locals :=
  if entered st then
    let? trade := trade st in
    match exit trade with
    | None =>
        let? last := last_row day_df in
        let trade := set_exit trade (close last) (stamp last) "EOD" in
        Some (mkLocals (trades st ++ [trade]) (Some trade) (entered st)
                       (moved_be st) (high_water st) (low_water st))
    | Some _ => Some st
    end
  else Some st.

(** Lines 86-90: the two trigger levels from the rows of the first window. *)
Definition triggers (fw : DataFrame) : float * float :=
  let rng_high := Pandas.max (map high fw) in
  let rng_low := Pandas.min (map low fw) in
  let buf := pips_to_price (BUFFER_PIPS cfg) instrument in
  let long_trig := (rng_high + buf)%float in
  let short_trig := (rng_low - buf)%float in
  (long_trig, short_trig).

(** Lines 92-95: the flags and water marks a day starts with. *)
Definition new_day (st : Locals) : Locals :=
  mkLocals (trades st) (trade st) false false None None.

(** Lines 86-160: a day that has rows in its first window. *)
Definition run_day (fw day_df : DataFrame) (st : Locals) : option Locals :=
  let (long_trig, short_trig) := triggers fw in
  let? r := for_rows long_trig short_trig day_df (new_day st) in
  eod_close day_df (fst r).

(** Line 80: [df[day_keys == day]]. *)
Definition day_rows (df : DataFrame) (day_keys : list Z) (day : Z) : DataFrame :=
  bool_index df (map (fun k => k =? day) day_keys).

(** Lines 80-160: the body of [for day in pd.unique(day_keys)]. *)
Definition on_day (df : DataFrame) (first_mask : list (Timestamp * bool))
    (day_keys : list Z) (day : Z) (st : Locals) : option Locals :=
  let day_df := day_rows df day_keys day in
  match day_df with
  | [] => Some st
  | _ :: _ =>
      let? fw_mask := loc_all first_mask (index day_df) in
      let fw := bool_index day_df fw_mask in
      match fw with
      | [] => Some st
      | _ :: _ => run_day fw day_df st
      end
  end.

Definition make_signals (df : DataFrame) : option (list Trade) :=
  let? in_sess := map_opt (_in_session cfg) (index df) in
  let df := bool_index df in_sess in
  match df with
  | [] => Some []
  | _ :: _ =>
      let? first_mask := _first_window_mask cfg df in
      let day_keys := map _session_day_key (index df) in
      let? st := for_each (on_day df first_mask day_keys) (unique day_keys)
                          (mkLocals [] None false false None None) in
      Some (trades st)
  end.

End Day.

End BaselineRules.

(** * backtest.py *)

Module Backtest.

Import BaselineRules.

(** The module-level parameters of the backtest. *)
Record Costs := mkCosts {
  LOOKBACK : Z;
  SPREAD_PIPS : float;
  SLIPPAGE_PIPS : float
}.

Definition default_costs : Costs := {|
  LOOKBACK := 1000;
  SPREAD_PIPS := 0.8;
  SLIPPAGE_PIPS := 0.2
|}.

(** The sign logic of the cost model over any arithmetic: the buy fill
    pays the two distances, every other fill gives them up. *)
Section SignLogic.

Variable num : Type.
Variables plus minus : num -> num -> num.

Definition costed (spread slip : num) (price : num) (side : string) : num :=
  if String.eqb side "long" then plus (plus price spread) slip
  else minus (minus price spread) slip.

End SignLogic.

(** Apply spread + slippage to a fill price (very simple cost model). *)
Definition apply_costs (c : Costs) (price : float) (side : string)
    (instrument : string) : float :=
  let spread := pips_to_price (SPREAD_PIPS c) instrument in
  let slip := pips_to_price (SLIPPAGE_PIPS c) instrument in
  costed float PrimFloat.add PrimFloat.sub spread slip price side.

(** One row of the trade table that [baseline_bt] builds. *)
Record TradeRow := mkTradeRow {
  row_time : Pandas.Timestamp;
  row_exit_time : option Pandas.Timestamp;
  row_side : string;
  row_entry : float;
  row_exit : float;
  row_exit_reason : option string;
  row_pnl : float
}.

(** The body of the loop of [baseline_bt]; a trade without an exit price
    makes the arithmetic raise. *)
Definition trade_row (c : Costs) (inst : string) (tr : Trade) : option TradeRow :=
  let entry_costed := apply_costs c (entry tr) (side tr) inst in
  (* exiting a long is a short fill (and vice versa) for the simple cost model *)
  let exit_side := if String.eqb (side tr) "long" then "short"%string
                   else "long"%string in
  let? exit_price := exit tr in
  let exit_costed := apply_costs c exit_price exit_side inst in
  let pnl := if String.eqb (side tr) "long"
             then (exit_costed - entry_costed)%float
             else (entry_costed - exit_costed)%float in
  Some (mkTradeRow (time tr) (exit_time tr) (side tr) (entry tr) exit_price
                   (exit_reason tr) pnl).

(** Run the baseline breakout strategy over recent history and return
    trade rows.  The frame [fetch_history] returned is the argument [df];
    [None] is also the [SystemExit] raised when nothing was fetched. *)
Definition baseline_bt (cfg : Config) (c : Costs) (inst : string) (df : DataFrame)
  : option (list TradeRow) :=
  match df with
  | [] => None
  | _ :: _ =>
      let? trades := make_signals cfg inst df in
      map_opt (trade_row c inst) trades
  end.

(** The dictionary [metrics] returns. *)
Record Metrics := mkMetrics {
  m_trades : Z;
  m_pnl : float;
  m_sharpe : float;
  m_max_dd : float;
  m_hit : float;
  m_pf : float
}.

(** Python's [int / int] on two counts (exact below 2^53). *)
Definition int_div (a b : Z) : float :=
  (PrimFloat.of_uint63 (Uint63.of_Z a) / PrimFloat.of_uint63 (Uint63.of_Z b))%float.

(** [(series > 0).sum()] and [(series < 0).sum()]. *)
Definition count_where (p : float -> bool) (l : list float) : Z :=
  Z.of_nat (List.length (filter p l)).

Definition metrics (df_tr : list TradeRow) : Metrics :=
  match df_tr with
  | [] => mkMetrics 0 0.0 0.0 0.0 0.0 0.0
  | _ :: _ =>
      let col_pnl := map row_pnl df_tr in
      let pnl_curve := Pandas.cumsum col_pnl in
      let ret := Pandas.fillna 0.0 col_pnl in
      let sharpe :=
        ((Pandas.mean ret / (Pandas.std ret + 1e-9)) * PrimFloat.sqrt 252)%float in
      let peak := Pandas.cummax pnl_curve in
      let dd := Pandas.sub pnl_curve peak in
      let max_dd := Pandas.min dd in
      let wins := count_where (fun x => (0 <? x)%float) col_pnl in
      let losses := count_where (fun x => (x <? 0)%float) col_pnl in
      let pf :=
        if 0 <? losses then
          (Pandas.sum (filter (fun x => (0 <? x)%float) col_pnl) /
           PrimFloat.abs (Pandas.sum (filter (fun x => (x <? 0)%float) col_pnl)))%float
        else infinity in
      mkMetrics (Z.of_nat (List.length df_tr)) (Pandas.sum col_pnl) sharpe max_dd
                (int_div wins (Z.max 1 (wins + losses))) pf
  end.

End Backtest.

(** * data_feed.py *)

Module DataFeed.

Import BaselineRules.

(** One candle of the broker's answer, once [float] and [pd.to_datetime]
    have read its strings. *)
Record ApiCandle := mkApiCandle {
  complete : bool;
  c_time : Pandas.Timestamp;
  mid_o : float;
  mid_h : float;
  mid_l : float;
  mid_c : float
}.

(** [frame.dropna()]: the rows without a NaN. *)
Definition has_nan (row : Candle) : bool :=
  Pandas.isnan (open row) || Pandas.isnan (high row)
  || Pandas.isnan (low row) || Pandas.isnan (close row).

Definition dropna (df : DataFrame) : DataFrame :=
  filter (fun row => negb (has_nan row)) df.

(** [frame.sort_index()]: the rows by label.  The default sort of pandas
    is not stable: it promises no order among rows of equal label.  The
    insertion sort below is one sort by label (it happens to keep such
    rows in the order they came in); what is proved of its result is what
    holds of every sort by label: the rows are the same, and the labels
    are in order. *)
Fixpoint insert_row (row : Candle) (df : DataFrame) : DataFrame :=
  match df with
  | [] => [row]
  | r :: df' => if stamp row <=? stamp r then row :: df
                else r :: insert_row row df'
  end.

Fixpoint sort_index (df : DataFrame) : DataFrame :=
  match df with
  | [] => []
  | row :: df' => insert_row row (sort_index df')
  end.

(** [frame.tail(n)]: the last [n] rows, or all but the first [-n]. *)
Definition tail (n : Z) (df : DataFrame) : DataFrame :=
  if 0 <=? n then skipn (List.length df - Z.to_nat n) df
  else skipn (Z.to_nat (- n)) df.

Definition len (df : DataFrame) : Z := Z.of_nat (List.length df).

Section Feed.

(** The key read from the environment; without one there is no client. *)
Variable API_KEY : string.

(** The broker: its answer to the request number [n] of the run, for an
    instrument, a granularity and a count, or [None] when the request
    raises. *)
Variable api_request : nat -> string -> string -> Z -> option (list ApiCandle).

(** Fetch up to 500 recent, completed candles for an instrument. *)
Definition fetch_candles (n : nat) (instrument : string) (count : Z)
    (granularity : string) : option DataFrame :=
  if String.eqb API_KEY "" then None
  else
    let? candles := api_request n instrument granularity (Z.min count 500) in
    let rows := map (fun c => mkCandle (c_time c) (mid_o c) (mid_h c) (mid_l c) (mid_c c))
                    (filter complete candles) in
    Some (dropna rows).

(** The loop of [fetch_history]: [n] requests made, [remaining] rows
    still wanted, [out] the batches so far.  Every turn that goes on has
    taken at least one row off [remaining], so [fuel] turns are enough
    for [remaining <= fuel]. *)
Fixpoint fetch_loop (fuel : nat) (instrument granularity : string) (n : nat)
    (remaining : Z) (out : list DataFrame) : option (list DataFrame) :=
  match fuel with
  | O => Some out
  | S fuel' =>
      if 0 <? remaining then
        let cnt := Z.min remaining 500 in
        let? df := fetch_candles n instrument cnt granularity in
        match df with
        | [] => Some out
        | _ :: _ =>
            let out := out ++ [df] in
            let remaining := remaining - len df in
            if len df <? cnt then Some out
            else fetch_loop fuel' instrument granularity (S n) remaining out
        end
      else Some out
  end.

(** Fetch up to [lookback] candles, in 500-sized batches. *)
Definition fetch_history (instrument : string) (lookback : Z) (granularity : string)
  : option DataFrame :=
  let? out := fetch_loop (Z.to_nat lookback) instrument granularity 0 lookback [] in
  match out with
  | [] => Some []
  | _ :: _ => Some (tail lookback (sort_index (List.concat out)))
  end.

End Feed.

End DataFeed.

(** * Properties *)

(** ** The order of binary64 numbers *)

Module FloatOrder.

Open Scope float_scope.

Lemma SFcompare_Lt_Gt (x y : spec_float) :
  SFcompare x y = Some Lt -> SFcompare y x = Some Gt.
Proof.
  destruct x as [sx | sx | | sx mx ex], y as [sy | sy | | sy my ey];
    simpl; try discriminate;
    try (destruct sx; discriminate || reflexivity);
    try (destruct sy; discriminate || reflexivity);
    try (destruct sx, sy; discriminate || reflexivity).
  assert (Hm : Pos.compare_cont Eq my mx = CompOpp (Pos.compare_cont Eq mx my))
    by (now rewrite (Pos.compare_cont_antisym mx my Eq)).
  destruct sx, sy; try discriminate; try reflexivity;
    rewrite (Z.compare_antisym ex ey), Hm;
    destruct (ex ?= ey)%Z; simpl; try discriminate; try reflexivity;
    destruct (Pos.compare_cont Eq mx my); simpl; discriminate || reflexivity.
Qed.

Lemma SFcompare_diag (x : spec_float) : SFcompare x x <> Some Lt.
Proof.
  intro H. pose proof (SFcompare_Lt_Gt _ _ H) as H'. congruence.
Qed.

Lemma ltb_irrefl (x : float) : (x <? x) = false.
Proof.
  rewrite ltb_spec. unfold SFltb.
  destruct (SFcompare (Prim2SF x) (Prim2SF x)) as [[ | | ] | ] eqn:E;
    try reflexivity.
  now apply SFcompare_diag in E.
Qed.

Lemma ltb_asym (x y : float) : (x <? y) = true -> (y <? x) = false.
Proof.
  rewrite !ltb_spec. unfold SFltb.
  destruct (SFcompare (Prim2SF x) (Prim2SF y)) as [[ | | ] | ] eqn:E;
    try discriminate.
  intros _. now rewrite (SFcompare_Lt_Gt _ _ E).
Qed.

Lemma ltb_leb (x y : float) : (x <? y) = true -> (x <=? y) = true.
Proof.
  rewrite ltb_spec, leb_spec. unfold SFltb, SFleb.
  now destruct (SFcompare (Prim2SF x) (Prim2SF y)) as [[ | | ] | ].
Qed.

Lemma leb_refl (x : float) : (x =? x) = true -> (x <=? x) = true.
Proof.
  rewrite eqb_spec, leb_spec. unfold SFeqb, SFleb.
  now destruct (SFcompare (Prim2SF x) (Prim2SF x)) as [[ | | ] | ].
Qed.


(** NaN stays NaN under addition and subtraction, and is below and above
    nothing. *)
Lemma ltb_nan_add (x y : float) : (nan + x <? y) = false.
Proof.
  rewrite ltb_spec, add_spec. change (Prim2SF nan) with S754_nan. reflexivity.
Qed.

Lemma ltb_nan_sub (x y : float) : (y <? nan - x) = false.
Proof.
  rewrite ltb_spec, sub_spec. change (Prim2SF nan) with S754_nan.
  unfold SF64sub, SFsub, SFltb. now destruct (Prim2SF y).
Qed.

End FloatOrder.

(** ** Pip size *)

Module PipSize.

Import BaselineRules.
Open Scope string_scope.

Lemma endswith_nil (suffix : string) :
  Py.endswith "" suffix = String.eqb "" suffix.
Proof. cbn [Py.endswith]. apply orb_false_r. Qed.

Lemma endswith_cons (c : ascii) (s suffix : string) :
  Py.endswith (String c s) suffix =
  String.eqb (String c s) suffix || Py.endswith s suffix.
Proof. reflexivity. Qed.

Lemma eqb_length (s1 s2 : string) :
  String.length s1 <> String.length s2 -> String.eqb s1 s2 = false.
Proof.
  intros Hlen. destruct (String.eqb_spec s1 s2) as [E | E]; [ | reflexivity].
  subst s2. now elim Hlen.
Qed.

Lemma length_app (s1 s2 : string) :
  String.length (s1 ++ s2) = (String.length s1 + String.length s2)%nat.
Proof. induction s1 as [ | c s1 IH]; simpl; [reflexivity | now rewrite IH]. Qed.

Lemma endswith_shorter (s suffix : string) :
  (String.length s < String.length suffix)%nat -> Py.endswith s suffix = false.
Proof.
  induction s as [ | c s IH]; intros Hlen.
  - rewrite endswith_nil. apply eqb_length. lia.
  - rewrite endswith_cons, IH by (simpl in Hlen; lia).
    rewrite eqb_length by lia. reflexivity.
Qed.

Lemma endswith_tail (s1 s2 suffix : string) :
  String.length s2 = String.length suffix ->
  Py.endswith (s1 ++ s2) suffix = String.eqb s2 suffix.
Proof.
  intros Hlen. induction s1 as [ | c s1 IH].
  - change ("" ++ s2) with s2. destruct s2 as [ | c2 s2].
    + apply endswith_nil.
    + rewrite endswith_cons, endswith_shorter by (simpl in Hlen; lia).
      apply orb_false_r.
  - change (String c s1 ++ s2) with (String c (s1 ++ s2)).
    rewrite endswith_cons, IH, eqb_length; [reflexivity | ].
    simpl. rewrite length_app. lia.
Qed.

Lemma endswith_split (s suffix : string) :
  Py.endswith s suffix = true -> exists s1, s = s1 ++ suffix.
Proof.
  induction s as [ | c s IH]; intros H.
  - rewrite endswith_nil in H. apply String.eqb_eq in H. now exists "".
  - rewrite endswith_cons in H. apply orb_true_iff in H. destruct H as [H | H].
    + apply String.eqb_eq in H. now exists "".
    + destruct (IH H) as [s1 ->]. now exists (String c s1).
Qed.

(** An identifier of the form BASE_QUOTE with a three-letter quote
    currency. *)
Definition recognized (instrument : string) : Prop :=
  exists base quote,
    instrument = base ++ "_" ++ quote /\ String.length quote = 3%nat.

(** C9. Pip size: for an identifier BASE_QUOTE with a three-letter quote
    currency, [pips_to_price] returns pips x 0.01 when the quote currency
    ends in JPY and pips x 0.0001 otherwise; an identifier that is not of
    that form falls back to pips x 0.0001. *)
Theorem pips_to_price_pip_size (pips : float) (base quote other : string) :
  String.length quote = 3%nat ->
  ~ recognized other ->
  pips_to_price pips (base ++ "_" ++ quote) =
    (if Py.endswith quote "JPY" then pips * 0.01 else pips * 0.0001)%float
  /\ pips_to_price pips other = (pips * 0.0001)%float.
Proof.
  intros Hq Hother. unfold pips_to_price. split.
  - rewrite (endswith_tail base ("_" ++ quote) "_JPY") by (simpl; now rewrite Hq).
    pose proof (endswith_tail "" quote "JPY" Hq) as H.
    change ("" ++ quote) with quote in H. rewrite H. reflexivity.
  - destruct (Py.endswith other "_JPY") eqn:E; [ | reflexivity].
    exfalso. apply Hother. apply endswith_split in E. destruct E as [s1 ->].
    exists s1, "JPY". split; reflexivity.
Qed.

Lemma not_recognized_usdjpy : ~ recognized "USDJPY".
Proof.
  intros (base & quote & E & Hq).
  destruct quote as [ | a [ | b [ | c [ | ? ?]]]]; try discriminate Hq.
  do 6 (destruct base as [ | ? base]; cbn in E; [discriminate E | ];
        injection E as _ E).
  destruct base; discriminate E.
Qed.

Lemma pips_to_price_pip_size_witness :
  pips_to_price 8 "USD_JPY" = (8 * 0.01)%float
  /\ pips_to_price 8 "USDJPY" = (8 * 0.0001)%float.
Proof.
  exact (pips_to_price_pip_size 8 "USD" "JPY" "USDJPY" eq_refl not_recognized_usdjpy).
Defined.

End PipSize.

(** ** The cost model *)

Module CostModel.

Import BaselineRules Backtest.
Open Scope string_scope.

(** C10. [apply_costs] adds spread and then slippage to the price when the
    side is exactly "long", and subtracts spread and then slippage for
    every other side, recognised or not. *)
Theorem apply_costs_by_side (c : Costs) (price : float) (side instrument : string) :
  side <> "long" ->
  let spread := pips_to_price (SPREAD_PIPS c) instrument in
  let slip := pips_to_price (SLIPPAGE_PIPS c) instrument in
  apply_costs c price "long" instrument = (price + spread + slip)%float
  /\ apply_costs c price side instrument = (price - spread - slip)%float
  /\ apply_costs c price side instrument = apply_costs c price "short" instrument.
Proof.
  intros Hside spread slip. unfold apply_costs, costed.
  apply String.eqb_neq in Hside. rewrite Hside. repeat split.
Qed.

Lemma apply_costs_by_side_witness :
  apply_costs default_costs 1.1062 "long" "EUR_USD"
    = (1.1062 + pips_to_price 0.8 "EUR_USD" + pips_to_price 0.2 "EUR_USD")%float
  /\ apply_costs default_costs 1.1062 "sell" "EUR_USD"
    = (1.1062 - pips_to_price 0.8 "EUR_USD" - pips_to_price 0.2 "EUR_USD")%float
  /\ apply_costs default_costs 1.1062 "sell" "EUR_USD"
    = apply_costs default_costs 1.1062 "short" "EUR_USD".
Proof.
  apply (apply_costs_by_side default_costs 1.1062 "sell" "EUR_USD").
  discriminate.
Defined.


(** On other prices the four roundings do cancel. *)
Example apply_costs_round_trip_1062 :
  apply_costs default_costs (apply_costs default_costs 1.1062 "long" "EUR_USD")
              "short" "EUR_USD" = 1.1062%float.
Proof. vm_compute. reflexivity. Qed.

(** The sign logic itself is an exact inverse: over an arithmetic whose
    addition and subtraction undo each other and commute (scaled integers,
    decimals), costing a price with one side and the result with the
    opposite side gives the price back.  Binary64 is not such an
    arithmetic: each of the four operations rounds. *)
Lemma costed_round_trip (num : Type) (plus minus : num -> num -> num)
    (spread slip price : num) :
  (forall x c, minus (plus x c) c = x) ->
  (forall x c, plus (minus x c) c = x) ->
  (forall x a b, minus (plus x a) b = plus (minus x b) a) ->
  costed num plus minus spread slip
         (costed num plus minus spread slip price "long") "short" = price
  /\ costed num plus minus spread slip
         (costed num plus minus spread slip price "short") "long" = price.
Proof.
  intros Hpm Hmp Hcomm. unfold costed. simpl. split.
  - now rewrite Hcomm, Hpm, Hpm.
  - now rewrite <- Hcomm, Hmp, Hmp.
Qed.

(** Prices in millionths, as integers: 1.106200 with 0.8 and 0.2 pips. *)
Example costed_round_trip_millionths :
  costed Z Z.add Z.sub 80 20 (costed Z Z.add Z.sub 80 20 1106200 "long") "short"
    = 1106200.
Proof. reflexivity. Qed.

(** *** The round trip in binary64 *)

(** A quoted price: [k] ticks, [scale] ticks to the unit.  The division
    is correctly rounded, so this is the number [float] reads from the
    decimal quote: 110620 ticks of a hundred-thousandth is 1.10620. *)
Definition quote (k scale : Z) : float :=
  (PrimFloat.of_uint63 (Uint63.of_Z k) / PrimFloat.of_uint63 (Uint63.of_Z scale))%float.










End CostModel.

(** ** The metrics *)

Module MetricsFacts.

Import Backtest.

Definition is_win (x : float) : bool := (0 <? x)%float.
Definition is_loss (x : float) : bool := (x <? 0)%float.

Lemma count_where_pos (p : float -> bool) (l : list float) :
  (0 <? count_where p l) = existsb p l.
Proof.
  unfold count_where. induction l as [ | x l IH]; [reflexivity | ].
  simpl. destruct (p x); simpl; [ | exact IH].
  apply Z.ltb_lt. lia.
Qed.

(** C7. On a ledger that is not empty, the profit factor is the sum of the
    strictly positive P&Ls over the absolute value of the sum of the
    strictly negative ones when some P&L is strictly negative, and
    positive infinity when none is. *)
Theorem metrics_profit_factor (df_tr : list TradeRow) :
  df_tr <> [] ->
  let pnls := map row_pnl df_tr in
  m_pf (metrics df_tr) =
    if existsb is_loss pnls
    then (Pandas.sum (filter is_win pnls) /
          PrimFloat.abs (Pandas.sum (filter is_loss pnls)))%float
    else infinity.
Proof.
  intros Hne pnls. destruct df_tr as [ | r df_tr]; [now elim Hne | ].
  unfold metrics. cbn [m_pf]. fold pnls.
  change (fun x : float => (x <? 0)%float) with is_loss.
  change (fun x : float => (0 <? x)%float) with is_win.
  now rewrite count_where_pos.
Qed.

Definition ledger_of (pnls : list float) : list TradeRow :=
  map (fun x => mkTradeRow 0 None "long" 0 0 None x) pnls.

(** Eight wins and a loss: the wins add up, two by two, to 3.6, where
    adding them in order gives 3.5999999999999996; a ledger with three
    trades; and one without a loss. *)
Lemma metrics_profit_factor_witness :
  m_pf (metrics (ledger_of [0.1; 0.2; 0.3; 0.4; 0.5; 0.6; 0.7; 0.8; -0.9]%float))
    = 4.0%float
  /\ m_pf (metrics (ledger_of [3; -1; 0; -1]%float)) = 1.5%float
  /\ m_pf (metrics (ledger_of [3; 0; 2]%float)) = infinity.
Proof.
  split; [ | split].
  - exact (metrics_profit_factor
             (ledger_of [0.1; 0.2; 0.3; 0.4; 0.5; 0.6; 0.7; 0.8; -0.9]%float)
             ltac:(discriminate)).
  - exact (metrics_profit_factor (ledger_of [3; -1; 0; -1]%float)
             ltac:(discriminate)).
  - exact (metrics_profit_factor (ledger_of [3; 0; 2]%float)
             ltac:(discriminate)).
Defined.

(** The sums of that ledger: in pairs, and in order. *)
Example sum_in_pairs :
  Pandas.sum [0.1; 0.2; 0.3; 0.4; 0.5; 0.6; 0.7; 0.8]%float = 3.6%float
  /\ fold_left PrimFloat.add [0.1; 0.2; 0.3; 0.4; 0.5; 0.6; 0.7; 0.8]%float 0%float
     = 3.5999999999999996%float.
Proof. split; vm_compute; reflexivity. Qed.

(** A ledger of wins only: every decisive trade is a hit, and there is no
    loss to divide by. *)
Example metrics_all_wins :
  m_hit (metrics (ledger_of [3; 0.5; 2]%float)) = 1%float
  /\ m_pf (metrics (ledger_of [3; 0.5; 2]%float)) = infinity.
Proof. split; vm_compute; reflexivity. Qed.

(** C8. On the empty ledger [metrics] returns the record of zeros: no
    trade, and [0.0] for the P&L, the Sharpe ratio, the drawdown, the hit
    rate and the profit factor. *)
Theorem metrics_empty :
  metrics [] = mkMetrics 0 0%float 0%float 0%float 0%float 0%float.
Proof. reflexivity. Qed.

End MetricsFacts.

(** ** The position, row by row *)

Module PositionFacts.

Import Pandas BaselineRules.
Open Scope string_scope.

Section Position.

Variable cfg : Config.
Variable instrument : string.


Lemma ratchet_long_tp st row tr : tp (ratchet_long cfg instrument st row tr) = tp tr.
Proof. unfold ratchet_long. now destruct be_fires_long. Qed.

Lemma ratchet_short_tp st row tr : tp (ratchet_short cfg instrument st row tr) = tp tr.
Proof. unfold ratchet_short. now destruct be_fires_short. Qed.


(** *** The stop over the life of a trade *)

(** Consecutive elements of a sequence. *)
Fixpoint pairs {A : Type} (l : list A) : list (A * A) :=
  match l with
  | a :: (b :: _) as l' => (a, b) :: pairs l'
  | _ => []
  end.

(** The breakeven move happened between the two states. *)
Definition fired (p : Locals * Locals) : bool :=
  negb (moved_be (fst p)) && moved_be (snd p).

(** The stop the breakeven move asks for, and the one it installs. *)
Definition be_stop (tr : Trade) : float :=
  if String.eqb (side tr) "long"
  then (entry tr + pips_to_price (LOCK_PROFIT_PIPS cfg) instrument)%float
  else (entry tr - pips_to_price (LOCK_PROFIT_PIPS cfg) instrument)%float.

Definition tighter (tr : Trade) : float :=
  if String.eqb (side tr) "long" then Py.max (sl tr) (be_stop tr)
  else Py.min (sl tr) (be_stop tr).

(** [new] is not on the losing side of [old]: not below it for a long,
    not above it for a short; and when [old] is a number, [new] is
    ordered after it (long) or before it (short). *)
Definition not_loosened (side : string) (old new : float) : Prop :=
  if String.eqb side "long"
  then (new <? old)%float = false
       /\ ((old =? old)%float = true -> (old <=? new)%float = true)
  else (old <? new)%float = false
       /\ ((old =? old)%float = true -> (new <=? old)%float = true).

(** What one row may do to an open trade: the trade keeps its identity and
    its take-profit; its stop is left alone, or replaced by [tighter] in
    the one step that marks the breakeven move as done; and the stop is
    never loosened. *)
Definition stop_step (s1 s2 : Locals) : Prop :=
  exists t1 t2,
    trade s1 = Some t1 /\ trade s2 = Some t2
    /\ time t2 = time t1 /\ side t2 = side t1
    /\ entry t2 = entry t1 /\ tp t2 = tp t1
    /\ (sl t2 = sl t1
        \/ (moved_be s1 = false /\ moved_be s2 = true /\ sl t2 = tighter t1))
    /\ not_loosened (side t1) (sl t1) (sl t2).

Lemma not_loosened_refl side x : not_loosened side x x.
Proof.
  unfold not_loosened.
  destruct (String.eqb side "long"); split;
    auto using FloatOrder.ltb_irrefl, FloatOrder.leb_refl.
Qed.

Lemma not_loosened_max x y : not_loosened "long" x (Py.max x y).
Proof.
  unfold Py.max. destruct (x <? y)%float eqn:E; [ | apply not_loosened_refl].
  split; auto using FloatOrder.ltb_asym, FloatOrder.ltb_leb.
Qed.

Lemma not_loosened_min side x y :
  String.eqb side "long" = false -> not_loosened side x (Py.min x y).
Proof.
  intros Hs. unfold Py.min.
  destruct (y <? x)%float eqn:E; [ | apply not_loosened_refl].
  unfold not_loosened. rewrite Hs.
  split; auto using FloatOrder.ltb_asym, FloatOrder.ltb_leb.
Qed.

(** What the breakeven step of one row makes of the trade [tr]. *)
Definition ratchet_ok (tr : Trade) (fires : bool) (cur : Trade) : Prop :=
  time cur = time tr /\ side cur = side tr
  /\ entry cur = entry tr /\ tp cur = tp tr
  /\ (sl cur = sl tr \/ (fires = true /\ sl cur = tighter tr))
  /\ not_loosened (side tr) (sl tr) (sl cur).

Lemma ratchet_long_ok st row tr :
  String.eqb (side tr) "long" = true ->
  ratchet_ok tr (be_fires_long cfg instrument st row tr)
             (ratchet_long cfg instrument st row tr).
Proof.
  intros Hside. unfold ratchet_ok, ratchet_long, tighter, be_stop.
  rewrite Hside. unfold not_loosened. rewrite Hside.
  destruct (be_fires_long cfg instrument st row tr); cbn [time side entry tp sl set_sl].
  - repeat split; auto; apply (not_loosened_max (sl tr)).
  - repeat split; auto; apply (not_loosened_refl "long").
Qed.

Lemma ratchet_short_ok st row tr :
  String.eqb (side tr) "long" = false ->
  ratchet_ok tr (be_fires_short cfg instrument st row tr)
             (ratchet_short cfg instrument st row tr).
Proof.
  intros Hside. unfold ratchet_ok, ratchet_short, tighter, be_stop.
  rewrite Hside.
  destruct (be_fires_short cfg instrument st row tr); cbn [time side entry tp sl set_sl].
  - repeat split; auto. now apply not_loosened_min.
  - repeat split; auto. apply not_loosened_refl.
Qed.

(** The state a row leaves holds the trade after its breakeven step, closed
    or not, and the flag that step sets. *)
Lemma stop_step_intro st tr fires cur s2 :
  trade st = Some tr ->
  ratchet_ok tr fires cur ->
  (fires = true -> moved_be st = false) ->
  (trade s2 = Some cur
   \/ exists price t reason, trade s2 = Some (set_exit cur price t reason)) ->
  moved_be s2 = (if fires then true else moved_be st) ->
  stop_step st s2.
Proof.
  intros Htr (H1 & H2 & H3 & H4 & H5 & H6) Hfires Hs2 Hmb.
  assert (Hsl : sl cur = sl tr
                \/ (moved_be st = false /\ moved_be s2 = true /\ sl cur = tighter tr)).
  { destruct H5 as [H5 | [Hf H5]]; [now left | right].
    rewrite Hmb, Hf. auto. }
  exists tr. destruct Hs2 as [Hs2 | (price & t & reason & Hs2)];
    [exists cur | exists (set_exit cur price t reason)];
    repeat split; assumption.
Qed.

Lemma be_fires_long_once st row tr :
  be_fires_long cfg instrument st row tr = true -> moved_be st = false.
Proof.
  unfold be_fires_long. intros H. apply andb_true_iff in H.
  now apply negb_true_iff.
Qed.

Lemma be_fires_short_once st row tr :
  be_fires_short cfg instrument st row tr = true -> moved_be st = false.
Proof.
  unfold be_fires_short. intros H. apply andb_true_iff in H.
  now apply negb_true_iff.
Qed.

(** One managed row: a stop step that keeps [entered] and never clears
    [moved_be]. *)
Definition managed (st st' : Locals) : Prop :=
  stop_step st st'
  /\ entered st' = entered st
  /\ (moved_be st = true -> moved_be st' = true).

Lemma manage_long_step row st tr :
  trade st = Some tr -> String.eqb (side tr) "long" = true ->
  managed st (fst (manage_long cfg instrument row st tr)).
Proof.
  intros Htr Hside. unfold manage_long.
  pose proof (ratchet_long_ok st row tr Hside) as Hok.
  pose proof (be_fires_long_once st row tr) as Honce.
  destruct (low row <=? sl (ratchet_long cfg instrument st row tr))%float;
    [ | destruct (tp (ratchet_long cfg instrument st row tr) <=? high row)%float];
    cbn [fst]; (split; [ | split; [reflexivity | ]]);
    try (cbn [moved_be]; intros ->; now destruct be_fires_long);
    (eapply stop_step_intro; [exact Htr | exact Hok | exact Honce | | reflexivity]);
    cbn [trade]; eauto.
Qed.

Lemma manage_short_step row st tr :
  trade st = Some tr -> String.eqb (side tr) "long" = false ->
  managed st (fst (manage_short cfg instrument row st tr)).
Proof.
  intros Htr Hside. unfold manage_short.
  pose proof (ratchet_short_ok st row tr Hside) as Hok.
  pose proof (be_fires_short_once st row tr) as Honce.
  destruct (sl (ratchet_short cfg instrument st row tr) <=? high row)%float;
    [ | destruct (low row <=? tp (ratchet_short cfg instrument st row tr))%float];
    cbn [fst]; (split; [ | split; [reflexivity | ]]);
    try (cbn [moved_be]; intros ->; now destruct be_fires_short);
    (eapply stop_step_intro; [exact Htr | exact Hok | exact Honce | | reflexivity]);
    cbn [trade]; eauto.
Qed.

(** A row met with a position open is a managed row. *)
Lemma on_row_managed long_trig short_trig row st st' flow :
  entered st = true ->
  on_row cfg instrument long_trig short_trig row st = Some (st', flow) ->
  managed st st'.
Proof.
  unfold on_row. intros -> H. cbn [negb] in H.
  destruct (trade st) as [tr | ] eqn:Htr; [ | discriminate].
  destruct (String.eqb (side tr) "long") eqn:Hside; injection H as H;
    apply (f_equal fst) in H; cbn [fst] in H; rewrite <- H.
  - now apply manage_long_step.
  - now apply manage_short_step.
Qed.

(** A row met with no position leaves [moved_be] as it was. *)
Lemma try_entry_moved_be long_trig short_trig row st :
  moved_be (try_entry cfg instrument long_trig short_trig row st) = moved_be st.
Proof.
  unfold try_entry.
  destruct (long_trig <? close row)%float; [reflexivity | ].
  now destruct (close row <? short_trig)%float.
Qed.

Lemma on_row_moved_be long_trig short_trig row st st' flow :
  on_row cfg instrument long_trig short_trig row st = Some (st', flow) ->
  moved_be st = true -> moved_be st' = true.
Proof.
  intros H Hmb. destruct (entered st) eqn:Hin.
  - now apply (on_row_managed _ _ _ _ _ _ Hin H).
  - unfold on_row in H. rewrite Hin in H. injection H as H _.
    rewrite <- H, try_entry_moved_be. exact Hmb.
Qed.

Lemma pairs_trace long_trig short_trig row rows st :
  pairs (st :: rows_trace cfg instrument long_trig short_trig (row :: rows) st) =
  match on_row cfg instrument long_trig short_trig row st with
  | None => []
  | Some (st', Break) => [(st, st')]
  | Some (st', Next) =>
      (st, st') :: pairs (st' :: rows_trace cfg instrument long_trig short_trig rows st')
  end.
Proof.
  cbn [rows_trace].
  destruct (on_row cfg instrument long_trig short_trig row st) as [[st' [ | ]] | ];
    reflexivity.
Qed.

Lemma last_cons_default {A : Type} (l : list A) : forall x d d',
  last (x :: l) d = last (x :: l) d'.
Proof.
  induction l as [ | y l IH]; intros x d d'; [reflexivity | ].
  change (last (x :: y :: l) d) with (last (y :: l) d).
  change (last (x :: y :: l) d') with (last (y :: l) d'). apply IH.
Qed.

(** The trace ends in the locals the loop returns. *)
Lemma rows_trace_last long_trig short_trig rows : forall st r,
  for_rows cfg instrument long_trig short_trig rows st = Some r ->
  last (st :: rows_trace cfg instrument long_trig short_trig rows st) st = fst r.
Proof.
  induction rows as [ | row rows IH]; intros st r; cbn [for_rows rows_trace].
  - now intros [= <-].
  - destruct (on_row cfg instrument long_trig short_trig row st) as [[st' flow] | ];
      [ | discriminate].
    cbn [fst snd]. destruct flow.
    + intros H. apply IH in H. rewrite <- H.
      change (last (st :: st' :: ?l) st) with (last (st' :: l) st).
      apply last_cons_default.
    + now intros [= <-].
Qed.

Lemma no_fire_after long_trig short_trig rows : forall st,
  moved_be st = true ->
  filter fired (pairs (st :: rows_trace cfg instrument long_trig short_trig rows st)) = [].
Proof.
  induction rows as [ | row rows IH]; intros st Hmb; [reflexivity | ].
  rewrite pairs_trace.
  destruct (on_row cfg instrument long_trig short_trig row st) as [[st' flow] | ] eqn:E;
    [ | reflexivity].
  pose proof (on_row_moved_be _ _ _ _ _ _ E Hmb) as Hmb'.
  destruct flow; cbn [filter]; unfold fired at 1; cbn [fst snd];
    rewrite Hmb; cbn [negb andb]; auto.
Qed.

(** C2. Along the rows a day runs, every step taken with a position open
    is a [stop_step]: the stop of a long is never lowered and the stop of
    a short never raised, and it changes only in the breakeven step, to
    the max (long) or min (short) of the old stop and the breakeven
    stop.  The breakeven step happens at most once. *)
Theorem stop_never_loosens (long_trig short_trig : float)
    (rows : list Candle) (st : Locals) :
  let trace := st :: rows_trace cfg instrument long_trig short_trig rows st in
  Forall (fun p => entered (fst p) = true -> stop_step (fst p) (snd p))
         (pairs trace)
  /\ (List.length (filter fired (pairs trace)) <= 1)%nat.
Proof.
  cbv zeta. revert st.
  induction rows as [ | row rows IH]; intros st; [split; [constructor | cbn; lia] | ].
  rewrite pairs_trace.
  destruct (on_row cfg instrument long_trig short_trig row st) as [[st' flow] | ] eqn:E;
    [ | split; [constructor | cbn; lia]].
  assert (Hhd : entered st = true -> stop_step st st')
    by (intros Hin; now apply (on_row_managed _ _ _ _ _ _ Hin E)).
  destruct flow.
  - destruct (IH st') as [IH1 IH2]. split; [now constructor | ].
    cbn [filter]. destruct (fired (st, st')) eqn:Hf; [ | exact IH2].
    unfold fired in Hf. cbn [fst snd] in Hf. apply andb_true_iff in Hf.
    rewrite no_fire_after by tauto. cbn. lia.
  - split; [now repeat constructor | ].
    cbn [filter]. destruct (fired (st, st')); cbn; lia.
Qed.

End Position.

End PositionFacts.

(** ** Frames, masks and loops *)

Module FrameFacts.

Import Pandas BaselineRules.

Lemma bool_index_map {A : Type} (f : A -> bool) (l : list A) :
  bool_index l (map f l) = filter f l.
Proof.
  induction l as [ | x l IH]; [reflexivity | ].
  cbn [map bool_index filter]. rewrite IH. reflexivity.
Qed.

Lemma bool_index_incl {A : Type} (l : list A) : forall mask,
  incl (bool_index l mask) l.
Proof.
  induction l as [ | x l IH]; intros [ | m mask]; cbn [bool_index];
    try apply incl_nil_l.
  destruct m.
  - apply incl_cons; [now left | ]. apply incl_tl, IH.
  - apply incl_tl, IH.
Qed.

Lemma bool_index_all_false {A : Type} (l : list A) (mask : list bool) :
  Forall (fun m => m = false) mask -> bool_index l mask = [].
Proof.
  intros H. revert l. induction H as [ | m mask -> _ IH]; intros [ | x l];
    cbn [bool_index]; auto.
Qed.

Lemma day_rows_filter (df : DataFrame) (day : Z) :
  day_rows df (map _session_day_key (index df)) day =
  filter (fun row => _session_day_key (stamp row) =? day) df.
Proof.
  unfold day_rows, index. rewrite !map_map. apply bool_index_map.
Qed.

Lemma map_opt_Forall2 {A B : Type} (f : A -> option B) (l : list A) : forall ys,
  map_opt f l = Some ys -> Forall2 (fun x y => f x = Some y) l ys.
Proof.
  induction l as [ | x l IH]; cbn [map_opt]; intros ys H.
  - injection H as <-. constructor.
  - destruct (f x) as [y | ] eqn:E; [ | discriminate].
    destruct (map_opt f l) as [ys' | ]; [ | discriminate].
    injection H as <-. constructor; auto.
Qed.

Lemma map_opt_total {A B : Type} (f : A -> option B) (l : list A) :
  Forall (fun x => exists y, f x = Some y) l -> exists ys, map_opt f l = Some ys.
Proof.
  induction 1 as [ | x l [y Hy] _ [ys IH]]; cbn [map_opt].
  - now exists [].
  - rewrite Hy, IH. now exists (y :: ys).
Qed.

(** [pd.unique] lists every value once. *)
Lemma unique_from_spec (l : list Z) : forall seen,
  NoDup (unique_from seen l)
  /\ forall x, In x (unique_from seen l) -> In x l /\ ~ In x seen.
Proof.
  induction l as [ | x l IH]; intros seen; cbn [unique_from].
  - split; [constructor | intros x []].
  - destruct (existsb (Z.eqb x) seen) eqn:E.
    + destruct (IH seen) as [H1 H2]. split; [exact H1 | ].
      intros y Hy. destruct (H2 y Hy). split; [now right | assumption].
    + destruct (IH (x :: seen)) as [H1 H2]. split.
      * constructor; [ | exact H1]. intros Hx. apply (H2 x) in Hx.
        apply (proj2 Hx). now left.
      * intros y [<- | Hy].
        -- split; [now left | ]. intros Hin.
           assert (existsb (Z.eqb x) seen = true); [ | congruence].
           apply existsb_exists. exists x. split; [exact Hin | apply Z.eqb_refl].
        -- destruct (H2 y Hy) as [Ha Hb]. split; [now right | ].
           intros Hin. apply Hb. now right.
Qed.

Lemma unique_NoDup (l : list Z) : NoDup (unique l).
Proof. apply unique_from_spec. Qed.

Lemma unique_from_complete (l : list Z) : forall seen x,
  In x l -> In x (unique_from seen l) \/ In x seen.
Proof.
  induction l as [ | y l IH]; intros seen x; [intros [] | ].
  cbn [unique_from]. intros [<- | Hx].
  - destruct (existsb (Z.eqb y) seen) eqn:E.
    + right. apply existsb_exists in E. destruct E as (z & Hz & E).
      apply Z.eqb_eq in E. now subst z.
    + left. now left.
  - destruct (existsb (Z.eqb y) seen).
    + now apply IH.
    + destruct (IH (y :: seen) x Hx) as [H | [<- | H]]; auto.
      * left. now right.
      * left. now left.
Qed.

Lemma unique_In (l : list Z) (x : Z) : In x (unique l) <-> In x l.
Proof.
  split.
  - intros H. now apply (unique_from_spec l []).
  - intros H. destruct (unique_from_complete l [] x H) as [H' | []]. exact H'.
Qed.

(** What a time span and a sum are when they do not raise. *)
Lemma Timedelta_minutes_Some (m delta : Z) :
  Timedelta_minutes m = Some delta -> delta = m * ns_per_minute.
Proof.
  unfold Timedelta_minutes. destruct (_ && _); [ | discriminate]. now intros [= <-].
Qed.

Lemma Timestamp_add_Some (t delta cutoff : Z) :
  Timestamp_add t delta = Some cutoff -> cutoff = t + delta.
Proof.
  unfold Timestamp_add. destruct (_ && _); [ | discriminate]. now intros [= <-].
Qed.

(** A value looked up is a value of the series. *)
Lemma loc_In {V : Type} (series : list (Timestamp * V)) (t : Timestamp) (v : V) :
  loc series t = Some v -> In (t, v) series.
Proof.
  induction series as [ | [t0 v0] series IH]; cbn [loc]; [discriminate | ].
  destruct (Z.eqb_spec t0 t) as [-> | _].
  - intros [= <-]. now left.
  - intros H. right. now apply IH.
Qed.

Lemma loc_all_In {V : Type} (series : list (Timestamp * V)) (labels : list Timestamp) :
  forall vs, loc_all series labels = Some vs ->
             Forall (fun v => exists t, In (t, v) series) vs.
Proof.
  induction labels as [ | t labels IH]; intros vs; cbn [loc_all].
  - intros [= <-]. constructor.
  - destruct (loc series t) as [v | ] eqn:Hv; [ | discriminate].
    destruct (loc_all series labels) as [vs' | ]; [ | discriminate].
    intros [= <-]. constructor; [ | now apply IH].
    exists t. now apply loc_In.
Qed.

(** An invariant indexed by the part of the list already run. *)
Lemma for_each_invariant {A S : Type} (body : A -> S -> option S)
    (I : list A -> S -> Prop) (l : list A) :
  (forall pre x post s s',
     l = pre ++ x :: post -> I pre s -> body x s = Some s' -> I (pre ++ [x]) s') ->
  forall s s', I [] s -> for_each body l s = Some s' -> I l s'.
Proof.
  intros Hstep.
  assert (H : forall post pre s s',
             l = pre ++ post -> I pre s -> for_each body post s = Some s' -> I l s').
  { induction post as [ | x post IH]; cbn [for_each]; intros pre s s' Hl Hpre Hrun.
    - injection Hrun as <-. rewrite app_nil_r in Hl. now subst l.
    - destruct (body x s) as [s1 | ] eqn:E; [ | discriminate].
      apply (IH (pre ++ [x]) s1 s'); [ | | exact Hrun].
      + now rewrite <- app_assoc.
      + now apply (Hstep pre x post s s1). }
  intros s s'. now apply (H l []).
Qed.

Lemma for_each_total {A S : Type} (body : A -> S -> option S)
    (I : S -> Prop) (l : list A) :
  (forall x s, In x l -> I s -> exists s', body x s = Some s' /\ I s') ->
  forall s, I s -> exists s', for_each body l s = Some s' /\ I s'.
Proof.
  induction l as [ | x l IH]; intros Hstep s Hs; cbn [for_each].
  - now exists s.
  - destruct (Hstep x s (or_introl eq_refl) Hs) as (s1 & -> & Hs1).
    apply IH; [ | exact Hs1]. intros y t Hy. apply Hstep. now right.
Qed.

End FrameFacts.

(** ** The ledger, day by day *)

Module LedgerFacts.

Import Pandas BaselineRules FrameFacts.
Open Scope string_scope.
Open Scope list_scope.

(** A trade closed for one of the given reasons. *)
Definition closed_with (reasons : list string) (tr : Trade) : Prop :=
  exists price t reason,
    exit tr = Some price /\ exit_time tr = Some t
    /\ exit_reason tr = Some reason /\ In reason reasons.

Definition closed : Trade -> Prop := closed_with ["SL"; "TP"; "EOD"].

Lemma closed_with_incl (r1 r2 : list string) (tr : Trade) :
  incl r1 r2 -> closed_with r1 tr -> closed_with r2 tr.
Proof.
  intros Hincl (price & t & reason & H1 & H2 & H3 & H4).
  exists price, t, reason. auto.
Qed.

(** The trades of a ledger entered on a given day. *)
Definition trades_on (day : Z) (ledger : list Trade) : list Trade :=
  filter (fun tr => (_session_day_key (time tr) =? day)%Z) ledger.

Section Ledger.

Variable cfg : Config.
Variable instrument : string.

(** Where the inner loop can be, for a day that started with ledger [T]
    and whose rows carry the stamps [S]. *)
Definition waiting (T : list Trade) (st : Locals) : Prop :=
  entered st = false /\ trades st = T.

Definition holding (T : list Trade) (S : list Timestamp) (st : Locals) : Prop :=
  entered st = true /\ trades st = T
  /\ exists tr, trade st = Some tr /\ exit tr = None /\ In (time tr) S.

Definition exited (T : list Trade) (S : list Timestamp) (st : Locals) : Prop :=
  entered st = true
  /\ exists tr, trade st = Some tr /\ trades st = T ++ [tr]
                /\ closed_with ["SL"; "TP"] tr /\ In (time tr) S.

Definition in_day (T : list Trade) (S : list Timestamp) (r : Locals * Flow) : Prop :=
  match snd r with
  | Next => waiting T (fst r) \/ holding T S (fst r)
  | Break => exited T S (fst r)
  end.

Lemma try_entry_day long_trig short_trig row st T S :
  In (stamp row) S -> waiting T st ->
  in_day T S (try_entry cfg instrument long_trig short_trig row st, Next).
Proof.
  intros Hrow [Hin HT]. unfold in_day, try_entry. cbn [fst snd].
  destruct (long_trig <? close row)%float;
    [ | destruct (close row <? short_trig)%float].
  - right. repeat split; [exact HT | ]. eexists. repeat split. exact Hrow.
  - right. repeat split; [exact HT | ]. eexists. repeat split. exact Hrow.
  - left. now split.
Qed.

Lemma ratchet_long_open st row tr :
  exit (ratchet_long cfg instrument st row tr) = exit tr
  /\ time (ratchet_long cfg instrument st row tr) = time tr.
Proof. unfold ratchet_long. now destruct be_fires_long. Qed.

Lemma ratchet_short_open st row tr :
  exit (ratchet_short cfg instrument st row tr) = exit tr
  /\ time (ratchet_short cfg instrument st row tr) = time tr.
Proof. unfold ratchet_short. now destruct be_fires_short. Qed.

Lemma set_exit_closed tr price t reason reasons :
  In reason reasons -> closed_with reasons (set_exit tr price t reason).
Proof. intros H. exists price, t, reason. repeat split. exact H. Qed.

Lemma manage_long_day row st tr T S :
  entered st = true -> trades st = T -> exit tr = None -> In (time tr) S ->
  in_day T S (manage_long cfg instrument row st tr).
Proof.
  intros Hin HT Hopen Htime. unfold in_day, manage_long.
  destruct (ratchet_long_open st row tr) as [He Ht].
  destruct (low row <=? sl (ratchet_long cfg instrument st row tr))%float;
    [ | destruct (tp (ratchet_long cfg instrument st row tr) <=? high row)%float];
    cbn [fst snd].
  - split; [exact Hin | ]. eexists. repeat split.
    + cbn [trades]. now rewrite HT.
    + apply set_exit_closed. now left.
    + cbn [set_exit time]. now rewrite Ht.
  - split; [exact Hin | ]. eexists. repeat split.
    + cbn [trades]. now rewrite HT.
    + apply set_exit_closed. right. now left.
    + cbn [set_exit time]. now rewrite Ht.
  - right. repeat split; [exact Hin | exact HT | ].
    eexists. repeat split; [now rewrite He | now rewrite Ht].
Qed.

Lemma manage_short_day row st tr T S :
  entered st = true -> trades st = T -> exit tr = None -> In (time tr) S ->
  in_day T S (manage_short cfg instrument row st tr).
Proof.
  intros Hin HT Hopen Htime. unfold in_day, manage_short.
  destruct (ratchet_short_open st row tr) as [He Ht].
  destruct (sl (ratchet_short cfg instrument st row tr) <=? high row)%float;
    [ | destruct (low row <=? tp (ratchet_short cfg instrument st row tr))%float];
    cbn [fst snd].
  - split; [exact Hin | ]. eexists. repeat split.
    + cbn [trades]. now rewrite HT.
    + apply set_exit_closed. now left.
    + cbn [set_exit time]. now rewrite Ht.
  - split; [exact Hin | ]. eexists. repeat split.
    + cbn [trades]. now rewrite HT.
    + apply set_exit_closed. right. now left.
    + cbn [set_exit time]. now rewrite Ht.
  - right. repeat split; [exact Hin | exact HT | ].
    eexists. repeat split; [now rewrite He | now rewrite Ht].
Qed.

(** A row never raises, and keeps the loop within its three states. *)
Lemma on_row_day long_trig short_trig row st T S :
  In (stamp row) S -> waiting T st \/ holding T S st ->
  exists r, on_row cfg instrument long_trig short_trig row st = Some r
            /\ in_day T S r.
Proof.
  intros Hrow [Hw | (Hin & HT & tr & Htr & Hopen & Htime)]; unfold on_row.
  - destruct Hw as [Hin HT]. rewrite Hin. cbn [negb].
    eexists. split; [reflexivity | ]. now apply try_entry_day.
  - rewrite Hin, Htr. cbn [negb].
    destruct (String.eqb (side tr) "long"); eexists; (split; [reflexivity | ]).
    + now apply manage_long_day.
    + now apply manage_short_day.
Qed.

Lemma for_rows_day long_trig short_trig rows T S : forall st,
  incl (map stamp rows) S -> waiting T st \/ holding T S st ->
  exists r, for_rows cfg instrument long_trig short_trig rows st = Some r
            /\ in_day T S r.
Proof.
  induction rows as [ | row rows IH]; intros st Hincl Hst; cbn [for_rows].
  - exists (st, Next). split; [reflexivity | exact Hst].
  - destruct (on_row_day long_trig short_trig row st T S) as ([st' flow] & -> & Hr);
      [apply Hincl; now left | exact Hst | ].
    cbn [fst snd]. destruct flow.
    + apply IH; [ | exact Hr]. intros t Ht. apply Hincl. now right.
    + exists (st', Break). split; [reflexivity | exact Hr].
Qed.

Lemma new_day_waiting st : waiting (trades st) (new_day st).
Proof. now split. Qed.

Lemma last_row_app (rows : list Candle) (row : Candle) :
  last_row (rows ++ [row]) = Some row.
Proof. unfold last_row. now rewrite rev_app_distr. Qed.

(** What a day adds to the ledger [T]: nothing, or one closed trade
    entered on a row of the day. *)
Definition day_result (T : list Trade) (S : list Timestamp) (st : Locals) : Prop :=
  trades st = T
  \/ exists tr, trades st = T ++ [tr] /\ closed tr /\ In (time tr) S.

Lemma eod_close_result day_df r T :
  in_day T (index day_df) r ->
  exists st, eod_close day_df (fst r) = Some st /\ day_result T (index day_df) st.
Proof.
  destruct r as [st' flow]. unfold in_day, eod_close. cbn [fst snd].
  destruct flow.
  - intros [[Hin HT] | (Hin & HT & tr & Htr & Hopen & Htime)].
    + rewrite Hin. exists st'. split; [reflexivity | now left].
    + rewrite Hin, Htr, Hopen.
      destruct (exists_last (l := day_df)) as (rows & row & ->).
      { intros ->. destruct Htime. }
      rewrite last_row_app. eexists. split; [reflexivity | ].
      right. eexists. cbn [trades]. rewrite HT. repeat split.
      * apply set_exit_closed. right. right. now left.
      * exact Htime.
  - intros (Hin & tr & Htr & HT & Hcl & Htime). rewrite Hin, Htr.
    assert (Hc : closed tr).
    { revert Hcl. apply closed_with_incl. intros x [<- | [<- | []]]; cbn; auto. }
    destruct Hcl as (price & _ & _ & -> & _).
    exists st'. split; [reflexivity | ]. right. now exists tr.
Qed.

(** A day with a first window never raises and adds at most one trade. *)
Lemma run_day_result fw day_df st :
  exists st', run_day cfg instrument fw day_df st = Some st'
              /\ day_result (trades st) (index day_df) st'.
Proof.
  unfold run_day. destruct (triggers cfg instrument fw) as [long_trig short_trig].
  destruct (for_rows_day long_trig short_trig day_df (trades st) (index day_df)
                         (new_day st)) as (r & -> & Hr).
  - apply incl_refl.
  - left. apply new_day_waiting.
  - now apply eod_close_result.
Qed.

(** *** Days *)

Lemma on_day_result df first_mask day_keys day st st' :
  on_day cfg instrument df first_mask day_keys day st = Some st' ->
  day_result (trades st) (index (day_rows df day_keys day)) st'.
Proof.
  unfold on_day. destruct (day_rows df day_keys day) as [ | row rows] eqn:Hd.
  - intros [= <-]. now left.
  - destruct (loc_all first_mask (index (row :: rows))) as [fw_mask | ];
      [ | discriminate].
    destruct (bool_index (row :: rows) fw_mask) as [ | w fw].
    + intros [= <-]. now left.
    + intros H. destruct (run_day_result (w :: fw) (row :: rows) st) as (st1 & H1 & Hres).
      rewrite H1 in H. now injection H as <-.
Qed.

Lemma loc_total {V : Type} (series : list (Timestamp * V)) (t : Timestamp) :
  In t (map fst series) -> exists v, loc series t = Some v.
Proof.
  induction series as [ | [t0 v0] series IH]; cbn [map fst loc In]; [intros [] | ].
  intros H. destruct (Z.eqb_spec t0 t) as [E | E]; [now exists v0 | ].
  apply IH. now destruct H.
Qed.

Lemma loc_all_total {V : Type} (series : list (Timestamp * V)) (labels : list Timestamp) :
  incl labels (map fst series) -> exists vs, loc_all series labels = Some vs.
Proof.
  induction labels as [ | t labels IH]; intros Hincl; cbn [loc_all].
  - now exists [].
  - destruct (loc_total series t) as [v ->]; [apply Hincl; now left | ].
    destruct IH as [vs ->]; [intros x Hx; apply Hincl; now right | ].
    now exists (v :: vs).
Qed.

Lemma on_day_total df first_mask day_keys day st :
  map fst first_mask = index df ->
  exists st', on_day cfg instrument df first_mask day_keys day st = Some st'.
Proof.
  intros Hlabels. unfold on_day.
  pose proof (bool_index_incl df (map (fun k => (k =? day)%Z) day_keys)) as Hincl.
  fold (day_rows df day_keys day) in Hincl.
  destruct (day_rows df day_keys day) as [ | row rows]; [now exists st | ].
  destruct (loc_all_total first_mask (index (row :: rows))) as [fw_mask ->].
  { rewrite Hlabels. unfold index. now apply incl_map. }
  destruct (bool_index (row :: rows) fw_mask) as [ | w fw]; [now exists st | ].
  destruct (run_day_result (w :: fw) (row :: rows) st) as (st1 & H1 & _).
  now exists st1.
Qed.

(** *** The session window *)

Definition session_ok : Prop :=
  exists a b, _hhmm_to_minutes (SESSION_START cfg) = Some a
              /\ _hhmm_to_minutes (SESSION_END cfg) = Some b.

Lemma in_session_total : session_ok -> forall ts, exists b, _in_session cfg ts = Some b.
Proof.
  intros (a & b & Ha & Hb) ts. unfold _in_session. rewrite Ha, Hb.
  destruct (a <=? hour ts * 60 + minute ts)%Z; eauto.
Qed.

Lemma in_session_all : session_ok ->
  forall l, exists mask, map_opt (_in_session cfg) l = Some mask.
Proof.
  intros Hok l. apply map_opt_total. apply Forall_forall.
  intros ts _. now apply in_session_total.
Qed.

Lemma first_window_day_labels df keys day first_mask first_mask' :
  first_window_day cfg df keys day first_mask = Some first_mask' ->
  map fst first_mask' = map fst first_mask.
Proof.
  unfold first_window_day.
  destruct (map_opt (_in_session cfg) (index df)) as [sess | ]; [ | discriminate].
  destruct (bool_index (index df) _) as [ | start_time day_times].
  - now intros [= <-].
  - destruct (Timedelta_minutes (FIRST_WINDOW_MIN cfg)) as [delta | ]; [ | discriminate].
    destruct (Timestamp_add start_time delta) as [cutoff | ]; [ | discriminate].
    intros [= <-]. rewrite map_map. reflexivity.
Qed.

Lemma first_window_mask_labels df first_mask :
  _first_window_mask cfg df = Some first_mask -> map fst first_mask = index df.
Proof.
  unfold _first_window_mask.
  apply (for_each_invariant _ (fun _ m => map fst m = index df)).
  - intros pre day post m m' _ Hm Hstep.
    apply first_window_day_labels in Hstep. congruence.
  - rewrite map_map. apply map_id.
Qed.

(** The first window fits the 64-bit clock: its length is a time span,
    and that span after any stamp of the frame is still an instant. *)
Definition window_ok (df : DataFrame) : Prop :=
  exists delta,
    Timedelta_minutes (FIRST_WINDOW_MIN cfg) = Some delta
    /\ forall t, In t (index df) -> exists cutoff, Timestamp_add t delta = Some cutoff.

Lemma window_ok_incl df df' : incl df' df -> window_ok df -> window_ok df'.
Proof.
  intros Hincl (delta & Hd & Hadd). exists delta. split; [exact Hd | ].
  intros t Ht. apply Hadd. unfold index in *. apply in_map_iff in Ht.
  destruct Ht as (row & <- & Hrow). apply in_map. now apply Hincl.
Qed.

Lemma first_window_mask_total df :
  session_ok -> window_ok df ->
  exists first_mask, _first_window_mask cfg df = Some first_mask.
Proof.
  intros Hok (delta & Hd & Hadd). unfold _first_window_mask.
  destruct (for_each_total
              (first_window_day cfg df (map _session_day_key (index df)))
              (fun _ => True)
              (unique (map _session_day_key (index df))))
    with (s := map (fun t : Timestamp => (t, false)) (index df))
    as (m & Hm & _); [ | exact I | now exists m].
  intros day m _ _. unfold first_window_day.
  destruct (in_session_all Hok (index df)) as [sess ->].
  pose proof (bool_index_incl (index df)
                (and_mask (map (fun k => (k =? day)%Z)
                               (map _session_day_key (index df))) sess)) as Hincl.
  destruct (bool_index (index df) _) as [ | start_time day_times]; [eauto | ].
  rewrite Hd. destruct (Hadd start_time) as [cutoff ->]; [apply Hincl; now left | ].
  eauto.
Qed.

(** *** The whole run *)

Lemma trades_on_app day l1 l2 :
  trades_on day (l1 ++ l2) = trades_on day l1 ++ trades_on day l2.
Proof. apply filter_app. Qed.

Lemma trades_on_other day ledger :
  (forall tr, In tr ledger -> _session_day_key (time tr) <> day) ->
  trades_on day ledger = [].
Proof.
  intros H. unfold trades_on. induction ledger as [ | tr ledger IH]; [reflexivity | ].
  cbn [filter]. destruct (Z.eqb_spec (_session_day_key (time tr)) day) as [E | _].
  - elim (H tr); [now left | exact E].
  - apply IH. intros x Hx. apply H. now right.
Qed.

(** What holds of the ledger once the days [seen] have run. *)
Definition ledger_ok (seen : list Z) (st : Locals) : Prop :=
  Forall closed (trades st)
  /\ (forall tr, In tr (trades st) -> In (_session_day_key (time tr)) seen)
  /\ (forall day, (List.length (trades_on day (trades st)) <= 1)%nat).

Lemma on_day_ledger_ok df first_mask seen day st st' :
  ~ In day seen ->
  ledger_ok seen st ->
  on_day cfg instrument df first_mask (map _session_day_key (index df)) day st
    = Some st' ->
  ledger_ok (seen ++ [day]) st'.
Proof.
  intros Hnew (Hcl & Hdays & Hone) Hrun.
  apply on_day_result in Hrun. rewrite day_rows_filter in Hrun.
  unfold ledger_ok.
  destruct Hrun as [HT | (tr & HT & Hc & Htime)]; rewrite HT.
  - repeat split; auto. intros tr Htr. apply in_or_app. left. now apply Hdays.
  - assert (Hday : _session_day_key (time tr) = day).
    { unfold index in Htime. apply in_map_iff in Htime.
      destruct Htime as (row & <- & Hrow). apply filter_In in Hrow.
      now apply Z.eqb_eq. }
    repeat split.
    + apply Forall_app. split; [exact Hcl | now constructor].
    + intros x Hx. apply in_app_or in Hx. apply in_or_app.
      destruct Hx as [Hx | [<- | []]]; [left; now apply Hdays | right; now left].
    + intros d. rewrite trades_on_app, length_app.
      destruct (Z.eq_dec d day) as [-> | Hd].
      * rewrite (trades_on_other day (trades st)).
        -- unfold trades_on. cbn [filter]. destruct (_ =? _)%Z; cbn; lia.
        -- intros x Hx E. apply Hnew. rewrite <- E. now apply Hdays.
      * rewrite (trades_on_other d [tr]).
        -- specialize (Hone d). cbn. lia.
        -- intros x [<- | []]. congruence.
Qed.

Lemma make_signals_ledger df ledger :
  make_signals cfg instrument df = Some ledger ->
  (forall day, (List.length (trades_on day ledger) <= 1)%nat)
  /\ Forall closed ledger.
Proof.
  unfold make_signals.
  destruct (map_opt (_in_session cfg) (index df)) as [in_sess | ]; [ | discriminate].
  destruct (bool_index df in_sess) as [ | row rows].
  { intros [= <-]. split; [intros day; cbn; lia | constructor]. }
  set (df' := row :: rows).
  destruct (_first_window_mask cfg df') as [first_mask | ]; [ | discriminate].
  destruct (for_each _ _ _) as [st | ] eqn:Hrun; [ | discriminate].
  intros [= <-].
  pose proof (unique_NoDup (map _session_day_key (index df'))) as Hnd.
  apply (for_each_invariant _ ledger_ok) in Hrun.
  - destruct Hrun as (Hcl & _ & Hone). now split.
  - intros pre day post s s' Hl Hs Hstep.
    apply (on_day_ledger_ok df' first_mask pre day s s'); try assumption.
    rewrite Hl in Hnd. apply NoDup_remove_2 in Hnd.
    intros Hin. apply Hnd. apply in_or_app. now left.
  - repeat split; [constructor | intros tr [] | intros day; cbn; lia].
Qed.

Lemma make_signals_total df :
  session_ok -> window_ok df ->
  exists ledger, make_signals cfg instrument df = Some ledger.
Proof.
  intros Hok Hwin. unfold make_signals.
  destruct (in_session_all Hok (index df)) as [in_sess ->].
  pose proof (bool_index_incl df in_sess) as Hincl.
  destruct (bool_index df in_sess) as [ | row rows]; [now exists [] | ].
  set (df' := row :: rows) in *.
  destruct (first_window_mask_total df' Hok (window_ok_incl df df' Hincl Hwin))
    as [first_mask Hfm].
  rewrite Hfm. apply first_window_mask_labels in Hfm.
  destruct (for_each_total
              (on_day cfg instrument df' first_mask (map _session_day_key (index df')))
              (fun _ => True) (unique (map _session_day_key (index df'))))
    with (s := mkLocals [] None false false None None)
    as (st & -> & _); [ | exact I | now exists (trades st)].
  intros day st _ _.
  destruct (on_day_total df' first_mask (map _session_day_key (index df')) day st Hfm)
    as [st' ->].
  now exists st'.
Qed.

(** C3. On a price series, that is a frame whose stamps are distinct:
    whenever the session times are well formed and the first window fits
    the clock, [make_signals] returns a ledger; and any ledger it returns
    holds at most one trade entered on each UTC day, every one of them
    closed: with an exit price, an exit time, and one exit reason among
    SL, TP and EOD. *)
Theorem one_closed_trade_per_day (df : DataFrame) :
  NoDup (index df) ->
  (session_ok -> window_ok df ->
   exists ledger, make_signals cfg instrument df = Some ledger)
  /\ (forall ledger,
        make_signals cfg instrument df = Some ledger ->
        (forall day, (List.length (trades_on day ledger) <= 1)%nat)
        /\ Forall closed ledger).
Proof.
  intros _. split; [apply make_signals_total | apply make_signals_ledger].
Qed.

(** *** The forced close *)

(** What [make_signals] computes on its way.  Line 70: the rows of the
    frame that are in session. *)
Definition session_rows (df : DataFrame) : option DataFrame :=
  let? in_sess := map_opt (_in_session cfg) (index df) in
  Some (bool_index df in_sess).

(** Line 80: the rows of a day, in the frame of in-session rows. *)
Definition day_of (df' : DataFrame) (day : Z) : DataFrame :=
  day_rows df' (map _session_day_key (index df')) day.

(** Line 83: the rows of the day that the mask of line 74 marks (none
    when the mask or the lookup raises). *)
Definition first_window (df' : DataFrame) (day : Z) : DataFrame :=
  match _first_window_mask cfg df' with
  | Some first_mask =>
      match loc_all first_mask (index (day_of df' day)) with
      | Some fw_mask => bool_index (day_of df' day) fw_mask
      | None => []
      end
  | None => []
  end.

(** Lines 86-90: the two triggers of the day. *)
Definition day_triggers (df' : DataFrame) (day : Z) : float * float :=
  triggers cfg instrument (first_window df' day).

Lemma day_of_In (df' : DataFrame) (day : Z) (row : Candle) :
  In row (day_of df' day) <-> In row df' /\ _session_day_key (stamp row) = day.
Proof.
  unfold day_of. rewrite day_rows_filter, filter_In.
  now rewrite Z.eqb_eq.
Qed.

(** The body of the day loop, through these values: the day is skipped
    when it has no first window, and run otherwise. *)
Lemma on_day_cases (df' : DataFrame) (first_mask : list (Timestamp * bool))
    (day : Z) (st st' : Locals) :
  _first_window_mask cfg df' = Some first_mask ->
  on_day cfg instrument df' first_mask (map _session_day_key (index df')) day st
    = Some st' ->
  (first_window df' day = [] /\ st' = st)
  \/ (first_window df' day <> []
      /\ run_day cfg instrument (first_window df' day) (day_of df' day) st = Some st').
Proof.
  intros Hmask. unfold on_day, first_window. rewrite Hmask.
  fold (day_of df' day). destruct (day_of df' day) as [ | row rows].
  { intros [= <-]. left. now split. }
  destruct (loc_all first_mask (index (row :: rows))) as [fw_mask | ]; [ | discriminate].
  destruct (bool_index (row :: rows) fw_mask) as [ | w fw].
  - intros [= <-]. left. now split.
  - intros H. right. split; [discriminate | exact H].
Qed.

(** Two states of the inner loop that hold the same position.  They may
    differ by the ledger, and by the trade while none is entered: the
    trade of an earlier day, which is never read. *)
Definition same_position (a b : Locals) : Prop :=
  entered a = entered b /\ moved_be a = moved_be b
  /\ high_water a = high_water b /\ low_water a = low_water b
  /\ (entered a = true -> trade a = trade b).

Lemma on_row_same lt sht row a b ra :
  same_position a b ->
  on_row cfg instrument lt sht row a = Some ra ->
  exists rb, on_row cfg instrument lt sht row b = Some rb
             /\ snd rb = snd ra /\ same_position (fst ra) (fst rb).
Proof.
  destruct a as [Ta ta ea ma ha la], b as [Tb tb eb mb hb lb].
  unfold same_position. cbn [entered moved_be high_water low_water trade].
  intros (<- & <- & <- & <- & Htr). unfold on_row. cbn [entered trade].
  destruct ea; cbn [negb].
  - rewrite <- (Htr eq_refl). destruct ta as [tr | ]; [ | discriminate].
    destruct (String.eqb (side tr) "long"); intros [= <-];
      (eexists; split; [reflexivity | ]).
    + unfold manage_long, ratchet_long, be_fires_long, water_long.
      cbn [entered moved_be high_water low_water trade trades].
      repeat match goal with
             | |- context [if ?c then _ else _] => destruct c
             end;
        cbn [fst snd entered moved_be high_water low_water trade]; now repeat split.
    + unfold manage_short, ratchet_short, be_fires_short, water_short.
      cbn [entered moved_be high_water low_water trade trades].
      repeat match goal with
             | |- context [if ?c then _ else _] => destruct c
             end;
        cbn [fst snd entered moved_be high_water low_water trade]; now repeat split.
  - intros [= <-]. eexists. split; [reflexivity | ].
    unfold try_entry. cbn [entered moved_be high_water low_water trade trades].
    destruct (lt <? close row)%float; [ | destruct (close row <? sht)%float];
      cbn [fst snd entered moved_be high_water low_water trade];
      repeat split; intros; discriminate.
Qed.

Lemma for_rows_same lt sht rows : forall a b ra,
  same_position a b ->
  for_rows cfg instrument lt sht rows a = Some ra ->
  exists rb, for_rows cfg instrument lt sht rows b = Some rb
             /\ snd rb = snd ra /\ same_position (fst ra) (fst rb).
Proof.
  induction rows as [ | row rows IH]; intros a b ra Hab; cbn [for_rows].
  - intros [= <-]. exists (b, Next). cbn [fst snd].
    split; [reflexivity | split; [reflexivity | exact Hab]].
  - destruct (on_row cfg instrument lt sht row a) as [[a1 fa] | ] eqn:Ha; [ | discriminate].
    destruct (on_row_same lt sht row a b _ Hab Ha) as ([b1 fb] & -> & Hf & H1).
    cbn [fst snd] in *. subst fb. destruct fa.
    + now apply IH.
    + intros [= <-]. exists (b1, Break). cbn [fst snd].
      split; [reflexivity | split; [reflexivity | exact H1]].
Qed.

(** With triggers that no close is beyond, the loop never enters. *)
Lemma for_rows_never lt sht rows : forall st,
  (forall x, (lt <? x)%float = false) -> (forall x, (x <? sht)%float = false) ->
  entered st = false ->
  for_rows cfg instrument lt sht rows st = Some (st, Next).
Proof.
  induction rows as [ | row rows IH]; intros st Hl Hs Hin; cbn [for_rows];
    [reflexivity | ].
  unfold on_row, try_entry. rewrite Hin, Hl, Hs. cbn [negb fst snd].
  now apply IH.
Qed.

(** The triggers taken from no row are NaN. *)
Lemma triggers_nil_never :
  (forall x, (fst (triggers cfg instrument []) <? x)%float = false)
  /\ (forall x, (x <? snd (triggers cfg instrument []))%float = false).
Proof.
  unfold triggers. cbn [map Pandas.max Pandas.min dropna filter fst snd].
  split; intros x; [apply FloatOrder.ltb_nan_add | apply FloatOrder.ltb_nan_sub].
Qed.

(** C4. On a price series (a frame whose stamps are distinct): take a day
    whose in-session rows, run by the inner loop against the triggers of
    the day, are all consumed (no row closes the position: the loop is
    not broken out of) with a position entered.  Then the one trade the
    ledger of [make_signals] holds for that day is that position, closed
    with exit price the close of the day's last in-session row, exit time
    the stamp of that row, and exit reason EOD. *)
Theorem eod_forced_close (df df' : DataFrame) (ledger : list Trade) (day : Z)
    (st0 st' : Locals) :
  NoDup (index df) ->
  session_rows df = Some df' ->
  make_signals cfg instrument df = Some ledger ->
  for_rows cfg instrument (fst (day_triggers df' day)) (snd (day_triggers df' day))
           (day_of df' day) (new_day st0) = Some (st', Next) ->
  entered st' = true ->
  exists last tr tr',
    last_row (day_of df' day) = Some last
    /\ trade st' = Some tr
    /\ trades_on day ledger = [tr']
    /\ time tr' = time tr /\ side tr' = side tr /\ entry tr' = entry tr
    /\ sl tr' = sl tr /\ tp tr' = tp tr
    /\ exit tr' = Some (close last)
    /\ exit_time tr' = Some (stamp last)
    /\ exit_reason tr' = Some "EOD".
Proof.
  intros _ Hsess Hrun Hloop Hin.
  (* the position the loop ends with, and the last row of the day *)
  destruct (for_rows_day (fst (day_triggers df' day)) (snd (day_triggers df' day))
              (day_of df' day) (trades st0) (index (day_of df' day)) (new_day st0))
    as (r & Hr & Hday); [apply incl_refl | left; apply new_day_waiting | ].
  rewrite Hloop in Hr. injection Hr as <-. unfold in_day in Hday.
  cbn [fst snd] in Hday.
  destruct Hday as [[Hw _] | (_ & _ & tr & Htr & Hopen & Htime)]; [congruence | ].
  destruct (exists_last (l := day_of df' day)) as (rows & last & Hrows).
  { intros E. rewrite E in Htime. destruct Htime. }
  assert (Hlast : last_row (day_of df' day) = Some last)
    by (rewrite Hrows; apply last_row_app).
  unfold index in Htime. apply in_map_iff in Htime.
  destruct Htime as (erow & Htime & Herow). apply day_of_In in Herow.
  destruct Herow as [Herow Hkey]. rewrite Htime in Hkey.
  assert (Hday : In day (map _session_day_key (index df'))).
  { rewrite <- Hkey, <- Htime. apply in_map. unfold index. now apply in_map. }
  exists last, tr, (set_exit tr (close last) (stamp last) "EOD").
  split; [exact Hlast | ]. split; [exact Htr | ].
  split; [ | now repeat split].
  (* the run of [make_signals] *)
  revert Hrun. unfold make_signals. unfold session_rows in Hsess.
  destruct (map_opt (_in_session cfg) (index df)) as [in_sess | ]; [ | discriminate].
  injection Hsess as ->.
  destruct df' as [ | row0 rows0]; [destruct Herow | ].
  set (d := row0 :: rows0) in *.
  destruct (_first_window_mask cfg d) as [first_mask | ] eqn:Hmask; [ | discriminate].
  destruct (for_each _ _ _) as [st | ] eqn:Heach; [ | discriminate].
  intros [= <-].
  pose proof (unique_NoDup (map _session_day_key (index d))) as Hnd.
  apply (for_each_invariant _
           (fun pre s =>
              (forall x, In x (trades s) -> In (_session_day_key (time x)) pre)
              /\ (In day pre ->
                  trades_on day (trades s)
                  = [set_exit tr (close last) (stamp last) "EOD"]))) in Heach.
  - apply Heach. now apply unique_In.
  - intros pre d0 post s s' Hl [Hseen Hthere] Hstep.
    assert (Hfresh : ~ In d0 pre).
    { rewrite Hl in Hnd. apply NoDup_remove_2 in Hnd.
      intros H. apply Hnd. apply in_or_app. now left. }
    pose proof (on_day_result _ _ _ _ _ _ Hstep) as Hres.
    rewrite day_rows_filter in Hres.
    assert (Hadd : forall t,
              In (time t)
                 (index (filter (fun r => (_session_day_key (stamp r) =? d0)%Z) d)) ->
              _session_day_key (time t) = d0).
    { intros t Ht. unfold index in Ht. apply in_map_iff in Ht.
      destruct Ht as (r & <- & Hr). apply filter_In in Hr. now apply Z.eqb_eq. }
    split.
    + destruct Hres as [-> | (t & -> & _ & Ht)]; intros x Hx.
      * apply in_or_app. left. now apply Hseen.
      * apply in_app_or in Hx. apply in_or_app.
        destruct Hx as [Hx | [<- | []]]; [left; now apply Hseen | ].
        right. left. symmetry. now apply Hadd.
    + intros Hd. destruct (Z.eq_dec d0 day) as [-> | Hne].
      * assert (Hnone : trades_on day (trades s) = []).
        { apply trades_on_other. intros x Hx E. apply Hfresh.
          rewrite <- E. now apply Hseen. }
        assert (Hs' : trades s'
                      = trades s ++ [set_exit tr (close last) (stamp last) "EOD"]).
        { destruct (on_day_cases d first_mask day s s' Hmask Hstep)
            as [[Hfw _] | [_ Hrd]].
          - exfalso. unfold day_triggers in Hloop. rewrite Hfw in Hloop.
            destruct triggers_nil_never as [Hl0 Hs0].
            rewrite (for_rows_never _ _ _ (new_day st0) Hl0 Hs0 eq_refl) in Hloop.
            injection Hloop as <-. discriminate Hin.
          - unfold run_day in Hrd. unfold day_triggers in Hloop.
            destruct (triggers cfg instrument (first_window d day)) as [lt sht].
            cbn [fst snd] in Hloop.
            destruct (for_rows_same lt sht (day_of d day) (new_day st0) (new_day s)
                        (st', Next)) as ([s1 f1] & Hrun1 & Hf & Hpos);
              [unfold same_position; cbn; repeat split; intros; discriminate
              | exact Hloop | ].
            cbn [fst snd] in Hf, Hpos. subst f1.
            destruct (for_rows_day lt sht (day_of d day) (trades s)
                        (index (day_of d day)) (new_day s))
              as (r & Hr & Hd2); [apply incl_refl | left; apply new_day_waiting | ].
            rewrite Hrun1 in Hr. injection Hr as <-. unfold in_day in Hd2.
            cbn [fst snd] in Hd2.
            destruct Hpos as (He & _ & _ & _ & Hsame).
            destruct Hd2 as [[Hw _] | (He1 & HT & tr1 & Htr1 & Hopen1 & _)];
              [congruence | ].
            rewrite Hrun1 in Hrd. cbn [fst] in Hrd. unfold eod_close in Hrd.
            rewrite He1, Htr1, Hopen1, Hlast in Hrd. injection Hrd as <-.
            cbn [trades]. rewrite HT.
            specialize (Hsame Hin). rewrite Htr, Htr1 in Hsame.
            now injection Hsame as ->. }
        rewrite Hs', trades_on_app, Hnone. unfold trades_on.
        cbn [filter set_exit time app]. now rewrite Hkey, Z.eqb_refl.
      * assert (Hpre : In day pre).
        { apply in_app_or in Hd. destruct Hd as [Hd | [Hd | []]]; [exact Hd | ].
          now elim Hne. }
        destruct Hres as [-> | (t & -> & _ & Ht)]; [now apply Hthere | ].
        rewrite trades_on_app, (Hthere Hpre), (trades_on_other day [t]);
          [reflexivity | ].
        intros x [<- | []] E. apply Hne. rewrite <- E. symmetry. now apply Hadd.
  - split; [intros x [] | intros []].
Qed.

(** C5. The empty frame gives the empty ledger whatever the
    configuration, and so does a frame none of whose rows is in the
    session; neither raises. *)
Theorem no_session_rows_no_trades (df : DataFrame) :
  Forall (fun row => _in_session cfg (stamp row) = Some false) df ->
  make_signals cfg instrument [] = Some []
  /\ make_signals cfg instrument df = Some [].
Proof.
  intros Hout. split; [reflexivity | ].
  unfold make_signals.
  assert (H : exists mask, map_opt (_in_session cfg) (index df) = Some mask
                           /\ Forall (fun m => m = false) mask).
  { induction Hout as [ | row df Hrow _ (mask & IH & Hmask)]; cbn [index map map_opt].
    - exists []. now split.
    - rewrite Hrow. unfold index in IH. rewrite IH.
      exists (false :: mask). split; [reflexivity | now constructor]. }
  destruct H as (mask & -> & Hmask).
  now rewrite (bool_index_all_false df mask Hmask).
Qed.

End Ledger.

End LedgerFacts.

(** ** Worked days *)

Module Scenarios.

Import Pandas BaselineRules PositionFacts LedgerFacts.
Open Scope string_scope.
Open Scope list_scope.

(** The instant [h]:[m] UTC of day number [d]. *)
Definition at_hm (d h m : Z) : Timestamp :=
  d * ns_per_day + h * ns_per_hour + m * ns_per_minute.

(** A candle from its stamp, high, low and close (opening at its low). *)
Definition candle (t : Timestamp) (h l c : float) : Candle := mkCandle t l h l c.

(** A long from the scenario of the specification: entered at 1.1062 with
    the stop 8 pips below and the target 12 pips above. *)
Definition long_1062 : Trade :=
  mkTrade (at_hm 20000 9 30) "long" 1.1062 1.1054 1.1074 None None None.


(** A wide row: it reaches the breakeven trigger, the stop and the target. *)
Definition wide_row : Candle := candle (at_hm 20000 9 35) 1.1080 1.1050 1.1070.


(** A day that opens its range at 09:00, breaks out upwards at 09:30 and
    then stays between stop and target until its last row at 09:40. *)
Definition range_rows : DataFrame :=
  [candle (at_hm 20000 9 0) 1.1050 1.1000 1.1020;
   candle (at_hm 20000 9 25) 1.1040 1.1010 1.1030].

Definition quiet_day : DataFrame :=
  range_rows ++
  [candle (at_hm 20000 9 30) 1.1063 1.1040 1.1062;
   candle (at_hm 20000 9 35) 1.1066 1.1058 1.1060;
   candle (at_hm 20000 9 40) 1.1067 1.1057 1.1064].

Definition fresh : Locals := mkLocals [] None false false None None.

(** The same day seen by [make_signals]: one long, closed at the last
    close, at the last stamp, with reason EOD. *)
Example quiet_day_ledger :
  make_signals default_config "EUR_USD" quiet_day =
  Some [mkTrade (at_hm 20000 9 30) "long" 1.1062
                (1.1062 - 8.0 * 0.0001) (1.1062 + 12.0 * 0.0001)
                (Some 1.1064%float) (Some (at_hm 20000 9 40)) (Some "EOD")].
Proof. vm_compute. reflexivity. Qed.

(** The first scenario of the specification: the row after the entry has
    its low under the stop, and the trade leaves at the stop. *)
Example stopped_day_ledger :
  make_signals default_config "EUR_USD"
    (range_rows ++
     [candle (at_hm 20000 9 30) 1.1063 1.1040 1.1062;
      candle (at_hm 20000 9 35) 1.1065 1.1050 1.1060;
      candle (at_hm 20000 9 40) 1.1090 1.1050 1.1080]) =
  Some [mkTrade (at_hm 20000 9 30) "long" 1.1062
                (1.1062 - 8.0 * 0.0001) (1.1062 + 12.0 * 0.0001)
                (Some (1.1062 - 8.0 * 0.0001)%float) (Some (at_hm 20000 9 35))
                (Some "SL")].
Proof. vm_compute. reflexivity. Qed.

(** A row after the entry that spans the stop and the target: the trade
    leaves with reason SL, at the stop the breakeven step of that row has
    just raised to the entry. *)
Example both_touched_ledger :
  make_signals default_config "EUR_USD"
    (range_rows ++
     [candle (at_hm 20000 9 30) 1.1063 1.1040 1.1062; wide_row]) =
  Some [mkTrade (at_hm 20000 9 30) "long" 1.1062
                1.1062 (1.1062 + 12.0 * 0.0001)
                (Some 1.1062%float) (Some (at_hm 20000 9 35)) (Some "SL")].
Proof. vm_compute. reflexivity. Qed.

(** The breakeven scenario: the stops of the long, row after row, once a
    row has reached the trigger 6 pips above the entry. *)
Example breakeven_stops :
  map (fun st => option_map sl (trade st))
      (rows_trace default_config "EUR_USD" 1.1051 1.0999
         [candle (at_hm 20000 9 30) 1.1063 1.1040 1.1062;
          candle (at_hm 20000 9 35) 1.1066 1.1058 1.1060;
          candle (at_hm 20000 9 40) 1.1069 1.1063 1.1065;
          candle (at_hm 20000 9 45) 1.1070 1.1064 1.1066]
         (new_day fresh)) =
  [Some (1.1062 - 8.0 * 0.0001)%float; Some (1.1062 - 8.0 * 0.0001)%float;
   Some 1.1062%float; Some 1.1062%float].
Proof. vm_compute. reflexivity. Qed.

(** Rows before 07:00 and after 17:00 only. *)
Definition night_rows : DataFrame :=
  [candle (at_hm 20000 6 55) 1.1050 1.1000 1.1020;
   candle (at_hm 20000 17 5) 1.1200 1.1010 1.1190].

Lemma no_session_rows_no_trades_witness :
  make_signals default_config "EUR_USD" [] = Some []
  /\ make_signals default_config "EUR_USD" night_rows = Some [].
Proof.
  apply (no_session_rows_no_trades default_config "EUR_USD" night_rows).
  repeat constructor.
Defined.

Lemma default_session_ok : session_ok default_config.
Proof. exists 420, 1020. split; reflexivity. Qed.

(** Two days, each with a breakout: one trade a day. *)
Definition two_days : DataFrame :=
  quiet_day ++
  [candle (at_hm 20001 9 0) 1.1050 1.1000 1.1020;
   candle (at_hm 20001 9 30) 1.1050 1.0980 1.0990;
   candle (at_hm 20001 9 35) 1.1050 1.0970 1.0975].

Example two_days_ledger :
  option_map (map (fun tr => (_session_day_key (time tr), side tr, exit_reason tr)))
             (make_signals default_config "EUR_USD" two_days) =
  Some [(20000, "long", Some "EOD"); (20001, "short", Some "SL")].
Proof. vm_compute. reflexivity. Qed.

(** The two days through the backtest: two rows, neither of them a win
    once the costs are paid. *)
Example two_days_metrics :
  option_map (fun rows => (Backtest.m_trades (Backtest.metrics rows),
                           Backtest.m_hit (Backtest.metrics rows),
                           Backtest.m_pf (Backtest.metrics rows)))
             (Backtest.baseline_bt default_config Backtest.default_costs
                                   "EUR_USD" two_days) =
  Some (2, 0%float, 0%float).
Proof. vm_compute. reflexivity. Qed.

Definition two_days_trades : list Trade :=
  match make_signals default_config "EUR_USD" two_days with
  | Some ledger => ledger
  | None => []
  end.

(** The stamps of the two days are distinct, and half an hour after any
    of them is an instant. *)
Ltac distinct_stamps :=
  vm_compute;
  repeat (apply NoDup_cons;
          [ let H := fresh in
            intros H; cbn in H;
            repeat (destruct H as [H | H]; [discriminate H | ]); exact H
          | ]);
  apply NoDup_nil.

Lemma two_days_distinct : NoDup (index two_days).
Proof. distinct_stamps. Qed.

Lemma two_days_window_ok : window_ok default_config two_days.
Proof.
  exists (30 * ns_per_minute)%Z. split; [reflexivity | ].
  intros t Ht. vm_compute in Ht.
  repeat (destruct Ht as [<- | Ht]; [eexists; vm_compute; reflexivity | ]).
  destruct Ht.
Qed.

Lemma one_closed_trade_per_day_witness :
  (exists ledger, make_signals default_config "EUR_USD" two_days = Some ledger)
  /\ (forall day, (List.length (trades_on day two_days_trades) <= 1)%nat)
  /\ Forall closed two_days_trades.
Proof.
  destruct (one_closed_trade_per_day default_config "EUR_USD" two_days
              two_days_distinct) as [H1 H2].
  split; [exact (H1 default_session_ok two_days_window_ok) | ].
  apply H2. vm_compute. reflexivity.
Defined.

(** The first of the two days, run by the inner loop against its own
    triggers: the long entered at 09:30 is still open after the last row. *)
Definition quiet_day_end : Locals :=
  match for_rows default_config "EUR_USD"
          (fst (day_triggers default_config "EUR_USD" two_days 20000))
          (snd (day_triggers default_config "EUR_USD" two_days 20000))
          (day_of two_days 20000) (new_day fresh) with
  | Some r => fst r
  | None => fresh
  end.

Lemma eod_forced_close_witness :
  exists last tr tr',
    last_row (day_of two_days 20000) = Some last
    /\ trade quiet_day_end = Some tr
    /\ trades_on 20000 two_days_trades = [tr']
    /\ time tr' = time tr /\ side tr' = side tr /\ entry tr' = entry tr
    /\ sl tr' = sl tr /\ tp tr' = tp tr
    /\ exit tr' = Some (close last)
    /\ exit_time tr' = Some (stamp last)
    /\ exit_reason tr' = Some "EOD".
Proof.
  apply (eod_forced_close default_config "EUR_USD" two_days two_days two_days_trades
           20000 fresh quiet_day_end two_days_distinct);
    vm_compute; reflexivity.
Defined.

(** The trade of that day, field by field. *)
Example eod_forced_close_trade :
  trades_on 20000 two_days_trades =
  [mkTrade (at_hm 20000 9 30) "long" 1.1062
           (1.1062 - 8.0 * 0.0001) (1.1062 + 12.0 * 0.0001)
           (Some 1.1064%float) (Some (at_hm 20000 9 40)) (Some "EOD")].
Proof. vm_compute. reflexivity. Qed.

End Scenarios.

(** * Further properties of baseline_rules.py *)

(** ** Session times *)

Module SessionFacts.

Import Pandas BaselineRules FrameFacts.
Open Scope string_scope.
Open Scope Z_scope.

(** The character of a decimal digit. *)
Definition digit_char (d : Z) : ascii := ascii_of_nat (Z.to_nat (48 + d)).

(** The four characters HHMM. *)
Definition hhmm_string (h1 h2 m1 m2 : Z) : string :=
  String (digit_char h1) (String (digit_char h2)
    (String (digit_char m1) (String (digit_char m2) ""))).

Lemma digit_digit_char (d : Z) : 0 <= d <= 9 -> Py.digit (digit_char d) = Some d.
Proof.
  intros H.
  assert (E : d = 0 \/ d = 1 \/ d = 2 \/ d = 3 \/ d = 4 \/ d = 5 \/ d = 6
              \/ d = 7 \/ d = 8 \/ d = 9) by lia.
  repeat (destruct E as [-> | E]; [reflexivity | ]). now subst d.
Qed.

Lemma drop_short (s : string) :
  (String.length s <= 2)%nat -> Py.drop 2 s = "".
Proof.
  destruct s as [ | a [ | b [ | c s]]]; cbn; intros H; try reflexivity; lia.
Qed.

(** X1. Four decimal digits HHMM read as 60 * HH + MM, whatever the two
    numbers are (99 hours or 99 minutes raise nothing); a string of fewer
    than three characters raises, its minutes being the empty string. *)
Theorem hhmm_to_minutes_digits (h1 h2 m1 m2 : Z) (short : string) :
  0 <= h1 <= 9 -> 0 <= h2 <= 9 -> 0 <= m1 <= 9 -> 0 <= m2 <= 9 ->
  (String.length short <= 2)%nat ->
  _hhmm_to_minutes (hhmm_string h1 h2 m1 m2)
    = Some ((10 * h1 + h2) * 60 + (10 * m1 + m2))
  /\ _hhmm_to_minutes short = None.
Proof.
  intros H1 H2 H3 H4 Hshort. split.
  - unfold _hhmm_to_minutes, hhmm_string, Py.int.
    cbn [Py.take Py.drop Py.digits].
    rewrite !digit_digit_char by assumption. reflexivity.
  - unfold _hhmm_to_minutes. rewrite (drop_short short Hshort).
    now destruct (Py.int (Py.take 2 short)).
Qed.

Lemma hhmm_to_minutes_digits_witness :
  _hhmm_to_minutes (hhmm_string 2 5 9 9) = Some ((10 * 2 + 5) * 60 + (10 * 9 + 9))
  /\ _hhmm_to_minutes "07" = None.
Proof.
  apply (hhmm_to_minutes_digits 2 5 9 9 "07"); cbn; lia.
Defined.

(** The minute of its UTC day a timestamp falls in. *)
Definition minute_of_day (ts : Timestamp) : Z := (ts mod ns_per_day) / ns_per_minute.

Lemma hour_minute (ts : Timestamp) : hour ts * 60 + minute ts = minute_of_day ts.
Proof.
  unfold hour, minute, minute_of_day.
  set (x := ts mod ns_per_day).
  assert (E : ts mod ns_per_hour = x mod ns_per_hour).
  { unfold x. symmetry. apply Z.mod_mod_divide. now exists 24. }
  rewrite E.
  assert (Hx : x = x / ns_per_hour * 60 * ns_per_minute + x mod ns_per_hour).
  { rewrite (Z.div_mod x ns_per_hour) at 1 by discriminate.
    change ns_per_hour with (60 * ns_per_minute) at 1. ring. }
  rewrite Hx at 3. rewrite Z.div_add_l by discriminate. reflexivity.
Qed.

Lemma minute_of_day_range (ts : Timestamp) : 0 <= minute_of_day ts < 1440.
Proof.
  unfold minute_of_day.
  assert (H : 0 <= ts mod ns_per_day < ns_per_day)
    by (apply Z.mod_pos_bound; reflexivity).
  split.
  - apply Z.div_pos; [lia | reflexivity].
  - apply Z.div_lt_upper_bound; [reflexivity | ].
    change (ns_per_minute * 1440) with ns_per_day. lia.
Qed.

Lemma minute_of_day_shift (ts k : Z) :
  minute_of_day (ts + k * ns_per_day) = minute_of_day ts.
Proof.
  unfold minute_of_day. rewrite Z.mod_add by discriminate. reflexivity.
Qed.

Section Session.

Variable cfg : Config.

(** X2. With session times that parse to the minutes [a] and [b], a
    timestamp is in session exactly when the minute of its UTC day lies in
    [a, b], both ends included; that minute is between 0 and 1439; and the
    test, parsed or not, is the same for the same time on another day. *)
Theorem in_session_minute_window (a b : Z) (ts k : Z) :
  _hhmm_to_minutes (SESSION_START cfg) = Some a ->
  _hhmm_to_minutes (SESSION_END cfg) = Some b ->
  _in_session cfg ts = Some ((a <=? minute_of_day ts) && (minute_of_day ts <=? b))
  /\ 0 <= minute_of_day ts < 1440
  /\ _in_session cfg (ts + k * ns_per_day) = _in_session cfg ts.
Proof.
  intros Ha Hb. repeat split; try apply minute_of_day_range.
  - unfold _in_session. rewrite Ha, Hb, hour_minute.
    now destruct (a <=? minute_of_day ts).
  - unfold _in_session. now rewrite !hour_minute, minute_of_day_shift.
Qed.

(** A frame none of whose rows is in session gives no trade. *)
Lemma out_of_session_ledger (instrument : string) (df : DataFrame) :
  (forall ts, _in_session cfg ts = Some false) ->
  make_signals cfg instrument df = Some [].
Proof.
  intros Hout. unfold make_signals.
  assert (H : map_opt (_in_session cfg) (index df) = Some (map (fun _ => false) df)).
  { unfold index. induction df as [ | row df IH]; [reflexivity | ].
    cbn [map map_opt]. now rewrite Hout, IH. }
  rewrite H, bool_index_all_false; [reflexivity | ].
  apply Forall_forall. intros m Hm. apply in_map_iff in Hm. now destruct Hm as (_ & <- & _).
Qed.

(** X3. A session that ends before it starts (an overnight window such as
    2200 to 0600) contains no time of day at all: whatever the frame,
    [make_signals] returns the empty ledger. *)
Theorem inverted_session_no_trades (a b : Z) (instrument : string) (df : DataFrame) :
  _hhmm_to_minutes (SESSION_START cfg) = Some a ->
  _hhmm_to_minutes (SESSION_END cfg) = Some b ->
  b < a ->
  make_signals cfg instrument df = Some [].
Proof.
  intros Ha Hb Hlt. apply out_of_session_ledger. intros ts.
  unfold _in_session. rewrite Ha, Hb.
  destruct (Z.leb_spec a (hour ts * 60 + minute ts)); [ | reflexivity].
  f_equal. apply Z.leb_gt. lia.
Qed.

End Session.

End SessionFacts.

(** ** The first window *)

Module WindowFacts.

Import Pandas BaselineRules FrameFacts LedgerFacts.
Open Scope Z_scope.

Section Window.

Variable cfg : Config.

(** The first in-session row of a day, given the session test of each row. *)
Definition day_start (df : DataFrame) (sess : list bool) (day : Z) : option Timestamp :=
  hd_error (bool_index (index df)
              (and_mask (map (fun k => k =? day) (map _session_day_key (index df)))
                        sess)).

Lemma day_start_In (df : DataFrame) (sess : list bool) (day : Z) (start : Timestamp) :
  day_start df sess day = Some start -> In start (index df).
Proof.
  unfold day_start. intros H.
  apply (bool_index_incl (index df)
           (and_mask (map (fun k => k =? day) (map _session_day_key (index df))) sess)).
  destruct (bool_index (index df) _) as [ | t l]; [discriminate | ].
  injection H as ->. now left.
Qed.

(** [t] lies in the window of length [delta] opened at [start]. *)
Definition in_window (delta : Z) (start t : Timestamp) : bool :=
  (start <=? t) && (t <? start + delta).

(** [t] lies in the first window of one of the days. *)
Definition window_hit (df : DataFrame) (sess : list bool) (delta : Z) (days : list Z)
    (t : Timestamp) : bool :=
  existsb (fun day => match day_start df sess day with
                      | Some start => in_window delta start t
                      | None => false
                      end) days.

(** One turn of the loop of [_first_window_mask], when it does not raise. *)
Lemma first_window_day_hit df sess delta day first_mask first_mask' :
  map_opt (_in_session cfg) (index df) = Some sess ->
  Timedelta_minutes (FIRST_WINDOW_MIN cfg) = Some delta ->
  first_window_day cfg df (map _session_day_key (index df)) day first_mask
    = Some first_mask' ->
  first_mask' =
  map (fun p => (fst p, snd p || match day_start df sess day with
                                 | Some start => in_window delta start (fst p)
                                 | None => false
                                 end)) first_mask.
Proof.
  intros Hs Hd. unfold first_window_day, day_start. rewrite Hs.
  destruct (bool_index (index df) _) as [ | start day_times]; cbn [hd_error].
  - intros [= <-]. symmetry. erewrite map_ext; [apply map_id | ].
    intros [t b]. cbn. now rewrite orb_false_r.
  - rewrite Hd.
    destruct (Timestamp_add start delta) as [cutoff | ] eqn:Hc; [ | discriminate].
    apply Timestamp_add_Some in Hc. subst cutoff. now intros [= <-].
Qed.

(** The turn raises only when the cutoff of the day is no instant. *)
Lemma first_window_day_total df sess delta day first_mask :
  map_opt (_in_session cfg) (index df) = Some sess ->
  Timedelta_minutes (FIRST_WINDOW_MIN cfg) = Some delta ->
  (forall start, day_start df sess day = Some start ->
                 exists cutoff, Timestamp_add start delta = Some cutoff) ->
  exists first_mask',
    first_window_day cfg df (map _session_day_key (index df)) day first_mask
      = Some first_mask'.
Proof.
  intros Hs Hd Hadd. unfold first_window_day. unfold day_start in Hadd. rewrite Hs.
  destruct (bool_index (index df) _) as [ | start day_times]; [eauto | ].
  rewrite Hd. destruct (Hadd start eq_refl) as [cutoff ->]. eauto.
Qed.

Lemma first_window_mask_closed_form df sess delta first_mask :
  map_opt (_in_session cfg) (index df) = Some sess ->
  Timedelta_minutes (FIRST_WINDOW_MIN cfg) = Some delta ->
  _first_window_mask cfg df = Some first_mask ->
  first_mask =
  map (fun t => (t, window_hit df sess delta
                      (unique (map _session_day_key (index df))) t))
      (index df).
Proof.
  intros Hs Hd. unfold _first_window_mask.
  assert (H : forall days pre m,
    for_each (first_window_day cfg df (map _session_day_key (index df))) days
             (map (fun t => (t, window_hit df sess delta pre t)) (index df)) = Some m ->
    m = map (fun t => (t, window_hit df sess delta (pre ++ days) t)) (index df)).
  { induction days as [ | day days IH]; intros pre m; cbn [for_each].
    - intros [= <-]. now rewrite app_nil_r.
    - destruct (first_window_day cfg df _ day _) as [m1 | ] eqn:E; [ | discriminate].
      apply (first_window_day_hit df sess delta day _ _ Hs Hd) in E.
      rewrite map_map in E. cbn [fst snd] in E.
      intros Hrun. replace (pre ++ day :: days) with ((pre ++ [day]) ++ days)
        by (now rewrite <- app_assoc).
      apply IH. rewrite <- Hrun. f_equal. rewrite E. apply map_ext. intros t.
      unfold window_hit. rewrite existsb_app. cbn [existsb].
      now rewrite orb_false_r. }
  intros Hrun. exact (H _ [] _ Hrun).
Qed.

(** X4. Take a first window whose length is a time span [delta].
    [_first_window_mask] returns a mask whenever that span after the first
    in-session row of each day is still an instant.  Any mask it returns
    keeps the labels of the frame, and marks a label exactly when it lies
    in the window [start, start + delta) opened by the first in-session
    row [start] of some day of the frame; [delta] is FIRST_WINDOW_MIN
    minutes. *)
Theorem first_window_mask_marks (df : DataFrame) (sess : list bool) (delta : Z) :
  map_opt (_in_session cfg) (index df) = Some sess ->
  Timedelta_minutes (FIRST_WINDOW_MIN cfg) = Some delta ->
  delta = FIRST_WINDOW_MIN cfg * ns_per_minute
  /\ ((forall day start, day_start df sess day = Some start ->
                         exists cutoff, Timestamp_add start delta = Some cutoff) ->
      exists first_mask, _first_window_mask cfg df = Some first_mask)
  /\ forall first_mask,
       _first_window_mask cfg df = Some first_mask ->
       map fst first_mask = index df
       /\ forall t b, In (t, b) first_mask ->
            (b = true <->
             exists day start,
               In day (map _session_day_key (index df))
               /\ day_start df sess day = Some start
               /\ start <= t < start + delta).
Proof.
  intros Hs Hd. split; [now apply Timedelta_minutes_Some | ]. split.
  - intros Hadd. unfold _first_window_mask.
    destruct (for_each_total
                (first_window_day cfg df (map _session_day_key (index df)))
                (fun _ => True)
                (unique (map _session_day_key (index df))))
      with (s := map (fun t : Timestamp => (t, false)) (index df))
      as (m & Hm & _); [ | exact I | now exists m].
    intros day m _ _.
    destruct (first_window_day_total df sess delta day m Hs Hd (Hadd day))
      as [m' ->].
    now exists m'.
  - intros first_mask Hmask.
    rewrite (first_window_mask_closed_form df sess delta first_mask Hs Hd Hmask).
    split; [rewrite map_map; apply map_id | ].
    intros t b Hin. apply in_map_iff in Hin. destruct Hin as (t' & [= -> <-] & _).
    unfold window_hit. rewrite existsb_exists. split.
    + intros (day & Hday & H). apply (proj1 (unique_In _ _)) in Hday.
      destruct (day_start df sess day) as [start | ] eqn:Hstart; [ | discriminate].
      unfold in_window in H. apply andb_true_iff in H. destruct H as [H1 H2].
      apply Z.leb_le in H1. apply Z.ltb_lt in H2.
      exists day, start. repeat split; auto.
    + intros (day & start & Hday & Hstart & H1 & H2).
      exists day. split; [now apply (proj2 (unique_In _ _)) | ].
      rewrite Hstart. unfold in_window. apply andb_true_iff.
      split; [now apply Z.leb_le | now apply Z.ltb_lt].
Qed.

(** *** The first window inside [make_signals] *)

(** The rows [make_signals] keeps are the rows in session. *)
Lemma kept_rows_in_session (df : DataFrame) : forall in_sess,
  map_opt (_in_session cfg) (index df) = Some in_sess ->
  Forall (fun row => _in_session cfg (stamp row) = Some true) (bool_index df in_sess)
  /\ incl (bool_index df in_sess) df.
Proof.
  intros in_sess H. split; [ | apply bool_index_incl].
  apply map_opt_Forall2 in H. unfold index in H.
  revert in_sess H. induction df as [ | row df IH]; intros in_sess H.
  - inversion H. constructor.
  - inversion H as [ | ? b ? mask Hrow Hrest]; subst. cbn [bool_index].
    destruct b; [constructor; [exact Hrow | ] | ]; now apply IH.
Qed.

Lemma all_in_session (df : DataFrame) :
  Forall (fun row => _in_session cfg (stamp row) = Some true) df ->
  map_opt (_in_session cfg) (index df) = Some (map (fun _ => true) df).
Proof.
  unfold index. induction 1 as [ | row df Hrow _ IH]; [reflexivity | ].
  cbn [map map_opt]. now rewrite Hrow, IH.
Qed.

Lemma and_mask_true (mask : list bool) (df : DataFrame) :
  List.length mask = List.length df ->
  and_mask mask (map (fun _ => true) df) = mask.
Proof.
  unfold and_mask. revert df. induction mask as [ | m mask IH]; intros [ | row df] H;
    try discriminate H; [reflexivity | ].
  cbn [map combine fst snd]. rewrite andb_true_r. f_equal. apply IH.
  now injection H.
Qed.

Lemma bool_index_stamps (df : DataFrame) : forall mask,
  bool_index (index df) mask = index (bool_index df mask).
Proof.
  unfold index. induction df as [ | row df IH]; intros [ | m mask]; try reflexivity.
  cbn [map bool_index]. rewrite IH. now destruct m.
Qed.

(** In a frame of in-session rows a day starts at its first row. *)
Lemma day_start_first_row (df : DataFrame) (day : Z) :
  day_start df (map (fun _ => true) df) day =
  hd_error (index (day_rows df (map _session_day_key (index df)) day)).
Proof.
  unfold day_start, day_rows.
  rewrite and_mask_true by (unfold index; now rewrite !length_map).
  now rewrite bool_index_stamps.
Qed.

Lemma loc_closed_form {V : Type} (f : Timestamp -> V) (l : list Timestamp) (t : Timestamp) :
  In t l -> loc (map (fun t => (t, f t)) l) t = Some (f t).
Proof.
  induction l as [ | t0 l IH]; [intros [] | ]. cbn [map loc].
  intros H. destruct (Z.eqb_spec t0 t) as [-> | E]; [reflexivity | ].
  apply IH. now destruct H.
Qed.

Lemma loc_all_closed_form {V : Type} (f : Timestamp -> V) (l labels : list Timestamp) :
  incl labels l -> loc_all (map (fun t => (t, f t)) l) labels = Some (map f labels).
Proof.
  induction labels as [ | t labels IH]; intros Hincl; [reflexivity | ].
  cbn [loc_all map]. rewrite loc_closed_form by (apply Hincl; now left).
  rewrite IH; [reflexivity | ]. intros x Hx. apply Hincl. now right.
Qed.

Variable instrument : string.

(** The body of the day loop, on a frame of in-session rows and a mask of
    the form [_first_window_mask] computes for it: the first window of a
    day is made of the rows of the day that some first window of the
    frame contains. *)
Lemma on_day_closed_form (df : DataFrame) (delta : Z) (day : Z) (st : Locals) :
  let keys := map _session_day_key (index df) in
  let hit := window_hit df (map (fun _ => true) df) delta (unique keys) in
  let first_mask := map (fun t => (t, hit t)) (index df) in
  on_day cfg instrument df first_mask keys day st =
  match day_rows df keys day with
  | [] => Some st
  | _ :: _ =>
      match filter (fun row => hit (stamp row)) (day_rows df keys day) with
      | [] => Some st
      | w :: fw => run_day cfg instrument (w :: fw) (day_rows df keys day) st
      end
  end.
Proof.
  intros keys hit first_mask. unfold on_day.
  assert (Hincl : incl (index (day_rows df keys day)) (index df)).
  { unfold index. apply incl_map. unfold day_rows. apply bool_index_incl. }
  destruct (day_rows df keys day) as [ | row rows]; [reflexivity | ].
  unfold first_mask. rewrite (loc_all_closed_form hit _ _ Hincl).
  unfold index. rewrite map_map, bool_index_map.
  now destruct (filter (fun x => hit (stamp x)) (row :: rows)).
Qed.

(** With a window of no positive length a day marks nothing. *)
Lemma first_window_day_unmarked df keys day first_mask first_mask' :
  FIRST_WINDOW_MIN cfg <= 0 ->
  Forall (fun p => snd p = false) first_mask ->
  first_window_day cfg df keys day first_mask = Some first_mask' ->
  Forall (fun p : Timestamp * bool => snd p = false) first_mask'.
Proof.
  intros Hw Hall. unfold first_window_day.
  destruct (map_opt (_in_session cfg) (index df)) as [sess | ]; [ | discriminate].
  destruct (bool_index (index df) _) as [ | start day_times]; [now intros [= <-] | ].
  destruct (Timedelta_minutes (FIRST_WINDOW_MIN cfg)) as [delta | ] eqn:Hd;
    [ | discriminate].
  destruct (Timestamp_add start delta) as [cutoff | ] eqn:Hc; [ | discriminate].
  apply Timedelta_minutes_Some in Hd. apply Timestamp_add_Some in Hc.
  intros [= <-]. rewrite Forall_map. revert Hall. apply Forall_impl.
  intros [t b]. cbn [fst snd]. intros ->. cbn [orb]. apply andb_false_iff.
  destruct (Z.leb_spec start t) as [Hle | _]; [right | now left].
  apply Z.ltb_ge. assert (0 < ns_per_minute) by reflexivity. nia.
Qed.

Lemma first_window_mask_unmarked df first_mask :
  FIRST_WINDOW_MIN cfg <= 0 ->
  _first_window_mask cfg df = Some first_mask ->
  Forall (fun p : Timestamp * bool => snd p = false) first_mask.
Proof.
  intros Hw. unfold _first_window_mask.
  apply (for_each_invariant _ (fun _ m => Forall (fun p => snd p = false) m)).
  - intros pre day post m m' _ Hm Hstep.
    exact (first_window_day_unmarked df _ day m m' Hw Hm Hstep).
  - rewrite Forall_map. apply Forall_forall. now intros t _.
Qed.

(** X5. With a first window of no positive length no row falls in any
    first window, every day is skipped, and the ledger is empty. *)
Theorem empty_window_no_trades (df : DataFrame) (ledger : list Trade) :
  FIRST_WINDOW_MIN cfg <= 0 ->
  make_signals cfg instrument df = Some ledger ->
  ledger = [].
Proof.
  intros Hw. unfold make_signals.
  destruct (map_opt (_in_session cfg) (index df)) as [in_sess | ]; [ | discriminate].
  destruct (bool_index df in_sess) as [ | row rows]; [now intros [= <-] | ].
  set (df' := row :: rows) in *.
  destruct (_first_window_mask cfg df') as [first_mask | ] eqn:Hmask; [ | discriminate].
  destruct (for_each _ _ _) as [st | ] eqn:Hrun; [ | discriminate].
  intros [= <-].
  apply (for_each_invariant _ (fun _ s => trades s = [])) in Hrun;
    [exact Hrun | | reflexivity].
  intros pre day post s s' _ Hs' Hstep.
  destruct (on_day_cases cfg instrument df' first_mask day s s' Hmask Hstep)
    as [[_ ->] | [Hfw _]]; [exact Hs' | ].
  exfalso. apply Hfw. unfold first_window. rewrite Hmask.
  destruct (loc_all first_mask (index (day_of df' day))) as [fw_mask | ] eqn:Hloc;
    [ | reflexivity].
  apply bool_index_all_false. apply loc_all_In in Hloc.
  pose proof (first_window_mask_unmarked df' first_mask Hw Hmask) as Hall.
  rewrite Forall_forall in *. intros b Hb. destruct (Hloc b Hb) as (t & Ht).
  exact (Hall (t, b) Ht).
Qed.

(** A mask returned for a frame means the window of each of its days was
    computed: its length is a time span. *)
Lemma mask_time_span (df : DataFrame) (sess : list bool)
    (first_mask : list (Timestamp * bool)) (day : Z) (start : Timestamp) :
  map_opt (_in_session cfg) (index df) = Some sess ->
  _first_window_mask cfg df = Some first_mask ->
  In day (map _session_day_key (index df)) ->
  day_start df sess day = Some start ->
  exists delta, Timedelta_minutes (FIRST_WINDOW_MIN cfg) = Some delta.
Proof.
  intros Hs Hmask Hday Hstart. unfold _first_window_mask in Hmask.
  apply (for_each_invariant _
           (fun pre _ => In day pre ->
              exists delta, Timedelta_minutes (FIRST_WINDOW_MIN cfg) = Some delta))
    in Hmask.
  - exact Hmask.
  - intros pre d post m m' _ Hpre Hstep Hd.
    apply in_app_or in Hd. destruct Hd as [Hd | [-> | []]]; [now apply Hpre | ].
    revert Hstep. unfold first_window_day. unfold day_start in Hstart.
    rewrite Hs. destruct (bool_index (index df) _); [discriminate | ].
    destruct (Timedelta_minutes (FIRST_WINDOW_MIN cfg)) as [delta | ];
      [now exists delta | discriminate].
  - intros [].
  - now apply unique_In.
Qed.

(** X6. On a price series of in-session rows (their stamps distinct),
    with a first window of positive length and a mask that
    [_first_window_mask] has returned: every day of the frame has its
    first row in its first window.  The day is never skipped, and its
    range is taken over rows that begin with that first row. *)
Theorem first_window_starts_the_day (df : DataFrame)
    (first_mask : list (Timestamp * bool)) (day : Z) (st : Locals) :
  0 < FIRST_WINDOW_MIN cfg ->
  NoDup (index df) ->
  Forall (fun row => _in_session cfg (stamp row) = Some true) df ->
  In day (map _session_day_key (index df)) ->
  _first_window_mask cfg df = Some first_mask ->
  exists first_row rows fw,
    day_rows df (map _session_day_key (index df)) day = first_row :: rows
    /\ incl fw rows
    /\ on_day cfg instrument df first_mask (map _session_day_key (index df)) day st
       = run_day cfg instrument (first_row :: fw) (first_row :: rows) st.
Proof.
  intros Hw _ Hin Hday Hmask.
  pose proof (all_in_session df Hin) as Hs.
  pose proof (day_start_first_row df day) as Hstart.
  pose proof (day_rows_filter df day) as Hrows.
  destruct (day_rows df (map _session_day_key (index df)) day)
    as [ | first_row rows] eqn:Hd.
  { exfalso. unfold index in Hday. rewrite map_map in Hday.
    apply in_map_iff in Hday. destruct Hday as (row & Hkey & Hrow).
    assert (H : In row (filter (fun r => _session_day_key (stamp r) =? day) df))
      by (apply filter_In; split; [exact Hrow | now apply Z.eqb_eq]).
    rewrite <- Hrows in H. destruct H. }
  cbn [index map hd_error] in Hstart.
  destruct (mask_time_span df _ first_mask day _ Hs Hmask Hday Hstart) as [delta Hdelta].
  rewrite (first_window_mask_closed_form df _ delta first_mask Hs Hdelta Hmask).
  pose proof (on_day_closed_form df delta day st) as Hform. cbv zeta in Hform.
  rewrite Hd in Hform.
  assert (Hhit : window_hit df (map (fun _ => true) df) delta
                   (unique (map _session_day_key (index df))) (stamp first_row) = true).
  { unfold window_hit. apply existsb_exists. exists day.
    split; [now apply (proj2 (unique_In _ _)) | ].
    rewrite Hstart. unfold in_window. apply andb_true_iff.
    split; [apply Z.leb_refl | ]. apply Z.ltb_lt.
    apply Timedelta_minutes_Some in Hdelta.
    assert (0 < ns_per_minute) by reflexivity. nia. }
  cbn [filter] in Hform. rewrite Hhit in Hform.
  eexists first_row, rows, _. split; [reflexivity | split].
  - apply incl_filter.
  - exact Hform.
Qed.

End Window.

End WindowFacts.

(** ** What a ledger trade records *)

Module TradeFacts.

Import Pandas BaselineRules FrameFacts LedgerFacts WindowFacts.
Open Scope string_scope.
Open Scope list_scope.

Section Sound.

Variable cfg : Config.
Variable instrument : string.

(** The stop a trade is entered with, and the stop of the breakeven move. *)
Definition initial_sl (tr : Trade) : float :=
  if String.eqb (side tr) "long"
  then (entry tr - pips_to_price (SL_PIPS cfg) instrument)%float
  else (entry tr + pips_to_price (SL_PIPS cfg) instrument)%float.

Definition breakeven_sl (tr : Trade) : float :=
  if String.eqb (side tr) "long"
  then Py.max (initial_sl tr)
              (entry tr + pips_to_price (LOCK_PROFIT_PIPS cfg) instrument)%float
  else Py.min (initial_sl tr)
              (entry tr - pips_to_price (LOCK_PROFIT_PIPS cfg) instrument)%float.

(** The trade was entered on [row], a breakout over the two triggers. *)
Definition entered_at (long_trig short_trig : float) (row : Candle) (tr : Trade)
  : Prop :=
  time tr = stamp row /\ entry tr = close row
  /\ (((long_trig <? close row)%float = true /\ side tr = "long"
       /\ tp tr = (close row + pips_to_price (TP_PIPS cfg) instrument)%float)
      \/ ((long_trig <? close row)%float = false
          /\ (close row <? short_trig)%float = true /\ side tr = "short"
          /\ tp tr = (close row - pips_to_price (TP_PIPS cfg) instrument)%float)).

(** Two records of the same trade: only stop and exit may differ. *)
Definition same_trade (tr tr' : Trade) : Prop :=
  time tr' = time tr /\ side tr' = side tr /\ entry tr' = entry tr /\ tp tr' = tp tr.

Lemma same_trade_set_sl tr v : same_trade tr (set_sl tr v).
Proof. now repeat split. Qed.

Lemma same_trade_set_exit tr price t reason : same_trade tr (set_exit tr price t reason).
Proof. now repeat split. Qed.

Lemma entered_at_same lt sht row tr tr' :
  same_trade tr tr' -> entered_at lt sht row tr -> entered_at lt sht row tr'.
Proof.
  intros (H1 & H2 & H3 & H4). unfold entered_at. now rewrite H1, H2, H3, H4.
Qed.

Lemma initial_sl_same tr tr' : same_trade tr tr' -> initial_sl tr' = initial_sl tr.
Proof. intros (_ & H2 & H3 & _). unfold initial_sl. now rewrite H2, H3. Qed.

Lemma breakeven_sl_same tr tr' : same_trade tr tr' -> breakeven_sl tr' = breakeven_sl tr.
Proof.
  intros H. unfold breakeven_sl. rewrite (initial_sl_same _ _ H).
  destruct H as (_ & H2 & H3 & _). now rewrite H2, H3.
Qed.

(** The stop is the initial one until the breakeven move is marked done,
    and the initial or the breakeven one after. *)
Definition stop_known (mb : bool) (tr : Trade) : Prop :=
  (mb = false -> sl tr = initial_sl tr)
  /\ (sl tr = initial_sl tr \/ sl tr = breakeven_sl tr).

(** An open position of the day whose rows are [S]. *)
Definition open_position (lt sht : float) (S : DataFrame) (mb : bool) (tr : Trade)
  : Prop :=
  exit tr = None
  /\ (exists row, In row S /\ entered_at lt sht row tr)
  /\ stop_known mb tr.

(** How a trade of the day left, on a row of the day. *)
Definition left_on (S : DataFrame) (tr : Trade) : Prop :=
  exists xrow,
    In xrow S /\ exit_time tr = Some (stamp xrow)
    /\ ((exit_reason tr = Some "SL" /\ exit tr = Some (sl tr))
        \/ (exit_reason tr = Some "TP" /\ exit tr = Some (tp tr))
        \/ (exit_reason tr = Some "EOD" /\ exit tr = Some (close xrow)
            /\ last_row S = Some xrow)).

(** A trade of the ledger, against the rows of its day. *)
Definition settled (lt sht : float) (S : DataFrame) (tr : Trade) : Prop :=
  (exists row, In row S /\ entered_at lt sht row tr)
  /\ (sl tr = initial_sl tr \/ sl tr = breakeven_sl tr)
  /\ left_on S tr.

Definition waiting_flat (T : list Trade) (st : Locals) : Prop :=
  entered st = false /\ moved_be st = false /\ trades st = T.

Definition holding_open (lt sht : float) (T : list Trade) (S : DataFrame) (st : Locals)
  : Prop :=
  entered st = true /\ trades st = T
  /\ exists tr, trade st = Some tr /\ open_position lt sht S (moved_be st) tr.

Definition exited_settled (lt sht : float) (T : list Trade) (S : DataFrame)
    (st : Locals) : Prop :=
  entered st = true
  /\ exists tr, trade st = Some tr /\ trades st = T ++ [tr] /\ exit tr <> None
                /\ settled lt sht S tr.

Definition day_flow (lt sht : float) (T : list Trade) (S : DataFrame)
    (r : Locals * Flow) : Prop :=
  match snd r with
  | Next => waiting_flat T (fst r) \/ holding_open lt sht T S (fst r)
  | Break => exited_settled lt sht T S (fst r)
  end.

Lemma try_entry_flow lt sht row st T S :
  In row S -> waiting_flat T st ->
  day_flow lt sht T S (try_entry cfg instrument lt sht row st, Next).
Proof.
  intros Hrow (Hin & Hmb & HT). unfold day_flow, try_entry. cbn [fst snd].
  destruct (lt <? close row)%float eqn:Hl;
    [ | destruct (close row <? sht)%float eqn:Hs].
  - right. repeat split; [exact HT | ]. eexists. split; [reflexivity | ].
    repeat split.
    + exists row. split; [exact Hrow | ]. repeat split. left. now repeat split.
    + now left.
  - right. repeat split; [exact HT | ]. eexists. split; [reflexivity | ].
    repeat split.
    + exists row. split; [exact Hrow | ]. repeat split. right. now repeat split.
    + now left.
  - left. now repeat split.
Qed.

(** The breakeven step keeps the position open and its stop known. *)
Lemma ratchet_long_position lt sht S st row tr :
  String.eqb (side tr) "long" = true ->
  open_position lt sht S (moved_be st) tr ->
  open_position lt sht S
    (if be_fires_long cfg instrument st row tr then true else moved_be st)
    (ratchet_long cfg instrument st row tr).
Proof.
  intros Hside (Hopen & (r & Hr & Hat) & Hmb & Hsl). unfold ratchet_long.
  destruct (be_fires_long cfg instrument st row tr) eqn:Hf;
    [ | now repeat split; eauto].
  unfold be_fires_long in Hf. apply andb_true_iff in Hf. destruct Hf as [Hf _].
  apply negb_true_iff in Hf.
  pose proof (same_trade_set_sl tr
    (Py.max (sl tr) (entry tr + pips_to_price (LOCK_PROFIT_PIPS cfg) instrument)%float))
    as Hsame.
  repeat split.
  - exact Hopen.
  - exists r. split; [exact Hr | now apply (entered_at_same _ _ _ tr)].
  - discriminate.
  - right. rewrite (breakeven_sl_same _ _ Hsame). cbn [sl set_sl].
    unfold breakeven_sl. now rewrite Hside, (Hmb Hf).
Qed.

Lemma ratchet_short_position lt sht S st row tr :
  String.eqb (side tr) "long" = false ->
  open_position lt sht S (moved_be st) tr ->
  open_position lt sht S
    (if be_fires_short cfg instrument st row tr then true else moved_be st)
    (ratchet_short cfg instrument st row tr).
Proof.
  intros Hside (Hopen & (r & Hr & Hat) & Hmb & Hsl). unfold ratchet_short.
  destruct (be_fires_short cfg instrument st row tr) eqn:Hf;
    [ | now repeat split; eauto].
  unfold be_fires_short in Hf. apply andb_true_iff in Hf. destruct Hf as [Hf _].
  apply negb_true_iff in Hf.
  pose proof (same_trade_set_sl tr
    (Py.min (sl tr) (entry tr - pips_to_price (LOCK_PROFIT_PIPS cfg) instrument)%float))
    as Hsame.
  repeat split.
  - exact Hopen.
  - exists r. split; [exact Hr | now apply (entered_at_same _ _ _ tr)].
  - discriminate.
  - right. rewrite (breakeven_sl_same _ _ Hsame). cbn [sl set_sl].
    unfold breakeven_sl. now rewrite Hside, (Hmb Hf).
Qed.

(** Closing an open position on a row of the day settles it. *)
Lemma settle lt sht S mb tr xrow price reason :
  open_position lt sht S mb tr -> In xrow S ->
  (reason = "SL" /\ price = sl tr) \/ (reason = "TP" /\ price = tp tr)
  \/ (reason = "EOD" /\ price = close xrow /\ last_row S = Some xrow) ->
  settled lt sht S (set_exit tr price (stamp xrow) reason).
Proof.
  intros (_ & (r & Hr & Hat) & _ & Hsl) Hx Hreason.
  pose proof (same_trade_set_exit tr price (stamp xrow) reason) as Hsame.
  repeat split.
  - exists r. split; [exact Hr | now apply (entered_at_same _ _ _ tr)].
  - now rewrite (initial_sl_same _ _ Hsame), (breakeven_sl_same _ _ Hsame).
  - exists xrow. split; [exact Hx | ]. split; [reflexivity | ]. cbn [set_exit sl tp exit exit_reason].
    destruct Hreason as [[-> ->] | [[-> ->] | (-> & -> & Hlast)]]; auto.
Qed.

Lemma manage_long_flow lt sht row st tr T S :
  In row S -> entered st = true -> trades st = T ->
  String.eqb (side tr) "long" = true ->
  open_position lt sht S (moved_be st) tr ->
  day_flow lt sht T S (manage_long cfg instrument row st tr).
Proof.
  intros Hrow Hin HT Hside Hpos.
  pose proof (ratchet_long_position lt sht S st row tr Hside Hpos) as Hcur.
  unfold day_flow, manage_long.
  destruct (low row <=? sl (ratchet_long cfg instrument st row tr))%float;
    [ | destruct (tp (ratchet_long cfg instrument st row tr) <=? high row)%float];
    cbn [fst snd].
  - split; [exact Hin | ]. eexists. split; [reflexivity | ]. cbn [trades].
    rewrite HT. split; [reflexivity | ]. split; [discriminate | ].
    eapply settle; [exact Hcur | exact Hrow | auto].
  - split; [exact Hin | ]. eexists. split; [reflexivity | ]. cbn [trades].
    rewrite HT. split; [reflexivity | ]. split; [discriminate | ].
    eapply settle; [exact Hcur | exact Hrow | auto].
  - right. split; [exact Hin | ]. split; [exact HT | ].
    eexists. split; [reflexivity | exact Hcur].
Qed.

Lemma manage_short_flow lt sht row st tr T S :
  In row S -> entered st = true -> trades st = T ->
  String.eqb (side tr) "long" = false ->
  open_position lt sht S (moved_be st) tr ->
  day_flow lt sht T S (manage_short cfg instrument row st tr).
Proof.
  intros Hrow Hin HT Hside Hpos.
  pose proof (ratchet_short_position lt sht S st row tr Hside Hpos) as Hcur.
  unfold day_flow, manage_short.
  destruct (sl (ratchet_short cfg instrument st row tr) <=? high row)%float;
    [ | destruct (low row <=? tp (ratchet_short cfg instrument st row tr))%float];
    cbn [fst snd].
  - split; [exact Hin | ]. eexists. split; [reflexivity | ]. cbn [trades].
    rewrite HT. split; [reflexivity | ]. split; [discriminate | ].
    eapply settle; [exact Hcur | exact Hrow | auto].
  - split; [exact Hin | ]. eexists. split; [reflexivity | ]. cbn [trades].
    rewrite HT. split; [reflexivity | ]. split; [discriminate | ].
    eapply settle; [exact Hcur | exact Hrow | auto].
  - right. split; [exact Hin | ]. split; [exact HT | ].
    eexists. split; [reflexivity | exact Hcur].
Qed.

Lemma on_row_flow lt sht row st T S :
  In row S -> waiting_flat T st \/ holding_open lt sht T S st ->
  exists r, on_row cfg instrument lt sht row st = Some r /\ day_flow lt sht T S r.
Proof.
  intros Hrow [Hw | (Hin & HT & tr & Htr & Hpos)]; unfold on_row.
  - pose proof Hw as (Hin & _). rewrite Hin. cbn [negb].
    eexists. split; [reflexivity | ]. now apply try_entry_flow.
  - rewrite Hin, Htr. cbn [negb].
    destruct (String.eqb (side tr) "long") eqn:Hside;
      eexists; (split; [reflexivity | ]).
    + now apply manage_long_flow.
    + now apply manage_short_flow.
Qed.

Lemma for_rows_flow lt sht rows T S : forall st,
  incl rows S -> waiting_flat T st \/ holding_open lt sht T S st ->
  exists r, for_rows cfg instrument lt sht rows st = Some r /\ day_flow lt sht T S r.
Proof.
  induction rows as [ | row rows IH]; intros st Hincl Hst; cbn [for_rows].
  - exists (st, Next). split; [reflexivity | exact Hst].
  - destruct (on_row_flow lt sht row st T S) as ([st' flow] & -> & Hr);
      [apply Hincl; now left | exact Hst | ].
    cbn [fst snd]. destruct flow.
    + apply IH; [ | exact Hr]. intros x Hx. apply Hincl. now right.
    + exists (st', Break). split; [reflexivity | exact Hr].
Qed.

Lemma last_row_In (S : DataFrame) (row : Candle) :
  last_row S = Some row -> In row S.
Proof.
  unfold last_row. destruct (rev S) as [ | r rs] eqn:E; [discriminate | ].
  intros [= <-]. apply in_rev. rewrite E. now left.
Qed.

(** What the day leaves in the ledger: nothing, or one settled trade. *)
Definition day_settled (lt sht : float) (T : list Trade) (S : DataFrame) (st : Locals)
  : Prop :=
  trades st = T \/ exists tr, trades st = T ++ [tr] /\ settled lt sht S tr.

Lemma run_day_settled fw day_df st :
  exists st', run_day cfg instrument fw day_df st = Some st'
              /\ day_settled (fst (triggers cfg instrument fw))
                             (snd (triggers cfg instrument fw))
                             (trades st) day_df st'.
Proof.
  unfold run_day. destruct (triggers cfg instrument fw) as [lt sht]. cbn [fst snd].
  destruct (for_rows_flow lt sht day_df (trades st) day_df (new_day st))
    as ([st1 flow] & -> & Hr);
    [apply incl_refl | left; now repeat split | ].
  unfold day_flow in Hr. cbn [fst snd] in *. unfold eod_close.
  destruct flow.
  - destruct Hr as [(Hin & _ & HT) | (Hin & HT & tr & Htr & Hpos)].
    + rewrite Hin. exists st1. split; [reflexivity | now left].
    + rewrite Hin, Htr. pose proof Hpos as (Hopen & (row & Hrow & _) & _).
      rewrite Hopen.
      destruct (exists_last (l := day_df)) as (rows & last & E).
      { intros ->. destruct Hrow. }
      assert (Hlast : last_row day_df = Some last)
        by (rewrite E; apply last_row_app).
      rewrite Hlast. eexists. split; [reflexivity | ]. right.
      eexists. cbn [trades]. rewrite HT. split; [reflexivity | ].
      eapply settle; [exact Hpos | now apply last_row_In | auto].
  - destruct Hr as (Hin & tr & Htr & HT & Hexit & Hset). rewrite Hin, Htr.
    destruct (exit tr); [ | now elim Hexit].
    exists st1. split; [reflexivity | ]. right. now exists tr.
Qed.

(** *** In the ledger *)

(** A trade settled against the rows of the day it was entered on, and
    the triggers of that day. *)
Definition settled_in (df' : DataFrame) (tr : Trade) : Prop :=
  let day := _session_day_key (time tr) in
  settled (fst (day_triggers cfg instrument df' day))
          (snd (day_triggers cfg instrument df' day)) (day_of df' day) tr.

Lemma on_day_settled (df' : DataFrame) (first_mask : list (Timestamp * bool))
    (day : Z) (st st' : Locals) :
  _first_window_mask cfg df' = Some first_mask ->
  Forall (settled_in df') (trades st) ->
  on_day cfg instrument df' first_mask (map _session_day_key (index df')) day st
    = Some st' ->
  Forall (settled_in df') (trades st').
Proof.
  intros Hmask Hall Hstep.
  destruct (on_day_cases cfg instrument df' first_mask day st st' Hmask Hstep)
    as [[_ ->] | [_ Hrd]]; [exact Hall | ].
  destruct (run_day_settled (first_window cfg df' day) (day_of df' day) st)
    as (st1 & H1 & Hres).
  rewrite H1 in Hrd. injection Hrd as <-.
  destruct Hres as [-> | (tr & -> & Hset)]; [exact Hall | ].
  apply Forall_app. split; [exact Hall | ]. constructor; [ | constructor].
  assert (Hkey : _session_day_key (time tr) = day).
  { destruct Hset as ((row & Hrow & Ht & _) & _). rewrite Ht.
    now apply day_of_In in Hrow. }
  unfold settled_in, day_triggers. cbv zeta. now rewrite Hkey.
Qed.

Lemma make_signals_settled (df : DataFrame) (ledger : list Trade) :
  make_signals cfg instrument df = Some ledger ->
  exists df', session_rows cfg df = Some df' /\ Forall (settled_in df') ledger.
Proof.
  unfold make_signals, session_rows.
  destruct (map_opt (_in_session cfg) (index df)) as [in_sess | ]; [ | discriminate].
  exists (bool_index df in_sess). split; [reflexivity | ].
  destruct (bool_index df in_sess) as [ | row rows]; [injection H as <-; constructor | ].
  set (df' := row :: rows) in *.
  destruct (_first_window_mask cfg df') as [first_mask | ] eqn:Hmask; [ | discriminate].
  destruct (for_each _ _ _) as [st | ] eqn:Hrun; [ | discriminate].
  injection H as <-.
  apply (for_each_invariant _ (fun _ s => Forall (settled_in df') (trades s))) in Hrun;
    [exact Hrun | | constructor].
  intros pre day post s s' _ Hs' Hstep.
  now apply (on_day_settled df' first_mask day s s').
Qed.

Lemma session_rows_In (df df' : DataFrame) (row : Candle) :
  session_rows cfg df = Some df' -> In row df' ->
  In row df /\ _in_session cfg (stamp row) = Some true.
Proof.
  unfold session_rows.
  destruct (map_opt (_in_session cfg) (index df)) as [in_sess | ] eqn:Hs;
    [ | discriminate].
  intros [= <-] Hrow. destruct (kept_rows_in_session cfg df in_sess Hs) as [Hin Hincl].
  split; [now apply Hincl | ]. rewrite Forall_forall in Hin. now apply Hin.
Qed.

(** X7. On a price series (a frame whose stamps are distinct), every
    trade of the ledger was entered on an in-session row of the frame: at
    that row's stamp and close, long when the close is above the long
    trigger of the row's day, short when it is not and is below the short
    trigger, with the take-profit at its distance from the close; and its
    stop is the initial stop or the breakeven stop. *)
Theorem ledger_trade_entry (df : DataFrame) (ledger : list Trade) (tr : Trade) :
  NoDup (index df) ->
  make_signals cfg instrument df = Some ledger ->
  In tr ledger ->
  exists df' row,
    session_rows cfg df = Some df'
    /\ In row df /\ _in_session cfg (stamp row) = Some true
    /\ entered_at (fst (day_triggers cfg instrument df' (_session_day_key (stamp row))))
                  (snd (day_triggers cfg instrument df' (_session_day_key (stamp row))))
                  row tr
    /\ (sl tr = initial_sl tr \/ sl tr = breakeven_sl tr).
Proof.
  intros _ Hrun Htr.
  destruct (make_signals_settled df ledger Hrun) as (df' & Hdf & Hall).
  rewrite Forall_forall in Hall. destruct (Hall tr Htr) as ((row & Hrow & Hat) & Hsl & _).
  apply day_of_In in Hrow. destruct Hrow as [Hrow _].
  destruct (session_rows_In df df' row Hdf Hrow) as [H1 H2].
  exists df', row. split; [exact Hdf | ]. split; [exact H1 | ].
  split; [exact H2 | ]. split; [ | exact Hsl].
  pose proof Hat as (Ht & _). rewrite <- Ht. exact Hat.
Qed.

(** X8. On a price series (a frame whose stamps are distinct), every
    trade of the ledger left on an in-session row of its entry day: at its
    stop when the reason is SL, at its take-profit when it is TP, and at
    the close of the last in-session row of the day when it is EOD. *)
Theorem ledger_trade_exit (df : DataFrame) (ledger : list Trade) (tr : Trade) :
  NoDup (index df) ->
  make_signals cfg instrument df = Some ledger ->
  In tr ledger ->
  exists df' xrow,
    session_rows cfg df = Some df'
    /\ In xrow df /\ _in_session cfg (stamp xrow) = Some true
    /\ _session_day_key (stamp xrow) = _session_day_key (time tr)
    /\ exit_time tr = Some (stamp xrow)
    /\ ((exit_reason tr = Some "SL" /\ exit tr = Some (sl tr))
        \/ (exit_reason tr = Some "TP" /\ exit tr = Some (tp tr))
        \/ (exit_reason tr = Some "EOD" /\ exit tr = Some (close xrow)
            /\ last_row (day_of df' (_session_day_key (time tr))) = Some xrow)).
Proof.
  intros _ Hrun Htr.
  destruct (make_signals_settled df ledger Hrun) as (df' & Hdf & Hall).
  rewrite Forall_forall in Hall.
  destruct (Hall tr Htr) as (_ & _ & xrow & Hx & Htime & Hreason).
  apply day_of_In in Hx. destruct Hx as [Hx Hkey].
  destruct (session_rows_In df df' xrow Hdf Hx) as [H1 H2].
  exists df', xrow. auto 10.
Qed.

End Sound.

End TradeFacts.

(** ** The order of the ledger *)

Module OrderFacts.

Import Pandas BaselineRules FrameFacts LedgerFacts.
Open Scope Z_scope.

Lemma sorted_bool_index (df : DataFrame) : forall mask,
  StronglySorted Z.le (index df) ->
  StronglySorted Z.le (index (bool_index df mask)).
Proof.
  unfold index. induction df as [ | row df IH]; intros [ | m mask] H;
    cbn [bool_index map]; try constructor.
  apply StronglySorted_inv in H. destruct H as [H1 H2].
  destruct m; [ | now apply IH]. constructor; [now apply IH | ].
  rewrite Forall_forall in *. intros t Ht. apply H2.
  apply in_map_iff in Ht. destruct Ht as (r & <- & Hr).
  apply in_map. now apply (bool_index_incl df mask).
Qed.

Lemma day_key_mono (t1 t2 : Timestamp) :
  t1 <= t2 -> _session_day_key t1 <= _session_day_key t2.
Proof. intros H. apply Z.div_le_mono; [reflexivity | exact H]. Qed.

Lemma sorted_day_keys (l : list Timestamp) :
  StronglySorted Z.le l -> StronglySorted Z.le (map _session_day_key l).
Proof.
  induction 1 as [ | t l _ IH Hall]; cbn [map]; constructor; [exact IH | ].
  rewrite Forall_forall in *. intros k Hk. apply in_map_iff in Hk.
  destruct Hk as (t' & <- & Ht'). apply day_key_mono. now apply Hall.
Qed.

(** The distinct values of an ordered list, in order, strictly increase. *)
Lemma sorted_unique_from (l : list Z) : forall seen,
  StronglySorted Z.le l -> StronglySorted Z.lt (unique_from seen l).
Proof.
  induction l as [ | x l IH]; intros seen H; cbn [unique_from]; [constructor | ].
  apply StronglySorted_inv in H. destruct H as [H1 H2].
  destruct (existsb (Z.eqb x) seen); [now apply IH | ].
  constructor; [now apply IH | ].
  rewrite Forall_forall in *. intros y Hy.
  destruct (unique_from_spec l (x :: seen)) as [_ Hspec].
  destruct (Hspec y Hy) as [Hin Hnot]. specialize (H2 y Hin).
  assert (y <> x) by (intros ->; apply Hnot; now left). lia.
Qed.

Lemma sorted_snoc (l : list Z) (x : Z) :
  StronglySorted Z.lt l -> Forall (fun y => y < x) l -> StronglySorted Z.lt (l ++ [x]).
Proof.
  induction 1 as [ | y l Hl IH Hy]; intros Hall; cbn [app].
  - repeat constructor.
  - inversion Hall as [ | ? ? Hyx Hrest]; subst. constructor; [now apply IH | ].
    apply Forall_app. split; [exact Hy | now repeat constructor].
Qed.

Lemma sorted_split (pre post : list Z) (x : Z) :
  StronglySorted Z.lt (pre ++ x :: post) -> Forall (fun y => y < x) pre.
Proof.
  induction pre as [ | y pre IH]; cbn [app]; intros H; [constructor | ].
  apply StronglySorted_inv in H. destruct H as [H1 H2]. constructor; [ | now apply IH].
  rewrite Forall_forall in H2. apply H2. apply in_or_app. right. now left.
Qed.

Section Order.

Variable cfg : Config.
Variable instrument : string.

(** The entry days of the ledger, in ledger order. *)
Definition entry_days (ledger : list Trade) : list Z :=
  map (fun tr => _session_day_key (time tr)) ledger.

(** X9. On a price series in chronological order (a frame whose stamps
    are distinct and do not decrease) the ledger is in chronological
    order: the entry days strictly increase along it, and so do the entry
    times. *)
Theorem ledger_chronological (df : DataFrame) (ledger : list Trade) :
  NoDup (index df) ->
  StronglySorted Z.le (index df) ->
  make_signals cfg instrument df = Some ledger ->
  StronglySorted Z.lt (entry_days ledger)
  /\ StronglySorted Z.lt (map time ledger).
Proof.
  intros _ Hsorted Hrun.
  assert (Hdays : StronglySorted Z.lt (entry_days ledger)).
  { revert Hrun. unfold make_signals.
    destruct (map_opt (_in_session cfg) (index df)) as [in_sess | ]; [ | discriminate].
    pose proof (sorted_bool_index df in_sess Hsorted) as Hs.
    destruct (bool_index df in_sess) as [ | row rows]; [intros [= <-]; constructor | ].
    set (df' := row :: rows) in *.
    destruct (_first_window_mask cfg df') as [first_mask | ]; [ | discriminate].
    destruct (for_each _ _ _) as [st | ] eqn:Hrun; [ | discriminate].
    intros [= <-].
    pose proof (sorted_unique_from _ [] (sorted_day_keys _ Hs)) as Hu.
    fold (unique (map _session_day_key (index df'))) in Hu.
    apply (for_each_invariant _
             (fun pre s => StronglySorted Z.lt (entry_days (trades s))
                           /\ forall d, In d (entry_days (trades s)) -> In d pre))
      in Hrun; [apply Hrun | | split; [constructor | intros d []]].
    intros pre day post s s' Hl [Hord Hseen] Hstep.
    apply on_day_result in Hstep. rewrite day_rows_filter in Hstep.
    destruct Hstep as [-> | (tr & -> & _ & Htime)].
    - split; [exact Hord | ]. intros d Hd. apply in_or_app. left. now apply Hseen.
    - assert (Hday : _session_day_key (time tr) = day).
      { unfold index in Htime. apply in_map_iff in Htime.
        destruct Htime as (r & <- & Hr). apply filter_In in Hr. now apply Z.eqb_eq. }
      unfold entry_days. rewrite map_app. cbn [map]. rewrite Hday. split.
      + apply sorted_snoc; [exact Hord | ]. rewrite Hl in Hu.
        apply sorted_split in Hu. rewrite Forall_forall in *.
        intros d Hd. apply Hu. now apply Hseen.
      + intros d Hd. apply in_app_or in Hd. apply in_or_app.
        destruct Hd as [Hd | Hd]; [left; now apply Hseen | now right]. }
  split; [exact Hdays | ].
  clear Hrun. unfold entry_days in Hdays.
  induction ledger as [ | tr ledger IH]; cbn [map] in *; [constructor | ].
  apply StronglySorted_inv in Hdays. destruct Hdays as [H1 H2].
  constructor; [now apply IH | ].
  rewrite Forall_forall in *. intros t Ht. apply in_map_iff in Ht.
  destruct Ht as (tr' & <- & Htr').
  assert (Hlt : _session_day_key (time tr) < _session_day_key (time tr'))
    by (apply H2; now apply (in_map (fun x => _session_day_key (time x)))).
  destruct (Z.lt_ge_cases (time tr) (time tr')) as [H | H]; [exact H | ].
  apply day_key_mono in H. lia.
Qed.

End Order.

End OrderFacts.

(** * Further properties of backtest.py *)

Module BacktestFacts.

Import Pandas BaselineRules Backtest FrameFacts LedgerFacts TradeFacts MetricsFacts.
Open Scope string_scope.
Open Scope list_scope.

Section Rows.

Variable cfg : Config.
Variable c : Costs.
Variable inst : string.

(** The row of the trade table a closed trade gives: the trade's own
    fields, and a P&L in which both fills pay spread and slippage. *)
Definition row_of (tr : Trade) (r : TradeRow) : Prop :=
  let spread := pips_to_price (SPREAD_PIPS c) inst in
  let slip := pips_to_price (SLIPPAGE_PIPS c) inst in
  row_time r = time tr /\ row_exit_time r = exit_time tr
  /\ row_side r = side tr /\ row_entry r = entry tr
  /\ exit tr = Some (row_exit r) /\ row_exit_reason r = exit_reason tr
  /\ ((side tr = "long"
       /\ row_pnl r = ((row_exit r - spread - slip) - (entry tr + spread + slip))%float)
      \/ (side tr = "short"
          /\ row_pnl r = ((entry tr - spread - slip) - (row_exit r + spread + slip))%float)).

Lemma trade_row_of (tr : Trade) :
  closed tr -> side tr = "long" \/ side tr = "short" ->
  exists r, trade_row c inst tr = Some r /\ row_of tr r.
Proof.
  intros (price & t & reason & Hx & _) Hside. unfold trade_row. rewrite Hx.
  eexists. split; [reflexivity | ].
  unfold row_of. cbv zeta. cbn [row_time row_exit_time row_side row_entry row_exit
                                  row_exit_reason row_pnl].
  repeat (split; [reflexivity || assumption | ]).
  unfold apply_costs, costed.
  destruct Hside as [Hs | Hs].
  - left. split; [exact Hs | ]. now rewrite Hs.
  - right. split; [exact Hs | ]. now rewrite Hs.
Qed.

Lemma map_opt_rows (ledger : list Trade) :
  Forall (fun tr => closed tr /\ (side tr = "long" \/ side tr = "short")) ledger ->
  exists rows, map_opt (trade_row c inst) ledger = Some rows
               /\ Forall2 row_of ledger rows.
Proof.
  induction 1 as [ | tr ledger [Hc Hs] _ (rows & IH & Hrows)]; cbn [map_opt].
  - exists []. split; [reflexivity | constructor].
  - destruct (trade_row_of tr Hc Hs) as (r & -> & Hr). rewrite IH.
    exists (r :: rows). split; [reflexivity | now constructor].
Qed.

(** X10. Nothing fetched ends the backtest at once.  Otherwise, on a
    price series (a frame whose stamps are distinct), whenever
    [make_signals] returns a ledger, the trade table has one row per trade,
    in ledger order, and the costing never fails on a trade: the row
    repeats the trade and its P&L is (exit - costs) - (entry + costs) for
    a long and (entry - costs) - (exit + costs) for a short. *)
Theorem baseline_bt_rows (df : DataFrame) (ledger : list Trade) :
  df <> [] ->
  NoDup (index df) ->
  make_signals cfg inst df = Some ledger ->
  baseline_bt cfg c inst [] = None
  /\ exists rows, baseline_bt cfg c inst df = Some rows /\ Forall2 row_of ledger rows.
Proof.
  intros Hne _ Hrun. split; [reflexivity | ].
  unfold baseline_bt. destruct df as [ | row df]; [now elim Hne | ].
  rewrite Hrun. apply map_opt_rows.
  destruct (make_signals_ledger cfg inst _ ledger Hrun) as [_ Hclosed].
  destruct (make_signals_settled cfg inst _ ledger Hrun) as (df' & _ & Hset).
  rewrite Forall_forall in *. intros tr Htr. split; [now apply Hclosed | ].
  destruct (Hset tr Htr) as ((r & _ & _ & _ & Hside) & _).
  destruct Hside as [(_ & Hs & _) | (_ & _ & Hs & _)]; auto.
Qed.

End Rows.

(** X11. A ledger without a decisive trade (no P&L strictly positive or
    strictly negative) has hit rate [0.0], the denominator being floored at
    one, and profit factor positive infinity. *)
Theorem metrics_no_decisive_trade (df_tr : list TradeRow) :
  df_tr <> [] ->
  Forall (fun r => is_win (row_pnl r) = false /\ is_loss (row_pnl r) = false) df_tr ->
  m_hit (metrics df_tr) = 0%float
  /\ m_pf (metrics df_tr) = infinity
  /\ m_trades (metrics df_tr) = Z.of_nat (List.length df_tr).
Proof.
  intros Hne Hall.
  assert (Hw : count_where (fun x => (0 <? x)%float) (map row_pnl df_tr) = 0%Z
               /\ count_where (fun x => (x <? 0)%float) (map row_pnl df_tr) = 0%Z).
  { clear Hne. unfold count_where.
    induction Hall as [ | r l [H1 H2] _ [IH1 IH2]]; [now split | ].
    unfold is_win in H1. unfold is_loss in H2. cbn [map filter].
    now rewrite H1, H2. }
  destruct Hw as [Hw Hl].
  destruct df_tr as [ | r df_tr]; [now elim Hne | ].
  unfold metrics. cbn [m_hit m_pf m_trades]. rewrite Hw, Hl.
  repeat split.
Qed.

End BacktestFacts.

(** * Properties of data_feed.py *)

Module FeedFacts.

Import Pandas BaselineRules DataFeed.
Open Scope Z_scope.

(** ** Sorting and cutting *)

Lemma insert_row_perm (row : Candle) (df : DataFrame) :
  Permutation (insert_row row df) (row :: df).
Proof.
  induction df as [ | r df IH]; cbn [insert_row]; [reflexivity | ].
  destruct (stamp row <=? stamp r); [reflexivity | ].
  rewrite IH. apply perm_swap.
Qed.

Lemma sort_index_perm (df : DataFrame) : Permutation (sort_index df) df.
Proof.
  induction df as [ | row df IH]; cbn [sort_index]; [reflexivity | ].
  rewrite insert_row_perm. now constructor.
Qed.

Lemma insert_row_sorted (row : Candle) (df : DataFrame) :
  StronglySorted Z.le (index df) -> StronglySorted Z.le (index (insert_row row df)).
Proof.
  unfold index. induction df as [ | r df IH]; cbn [insert_row map]; intros H.
  - repeat constructor.
  - apply StronglySorted_inv in H. destruct H as [H1 H2].
    destruct (Z.leb_spec (stamp row) (stamp r)) as [Hle | Hgt]; cbn [map].
    + constructor; [now constructor | ]. constructor; [exact Hle | ].
      rewrite Forall_forall in *. intros t Ht. specialize (H2 t Ht). lia.
    + constructor; [now apply IH | ].
      assert (Hp : Permutation (map stamp (row :: df)) (map stamp (insert_row row df)))
        by (apply Permutation_map; symmetry; apply insert_row_perm).
      apply (Permutation_Forall Hp).
      cbn [map]. constructor; [lia | exact H2].
Qed.

Lemma sort_index_sorted (df : DataFrame) : StronglySorted Z.le (index (sort_index df)).
Proof.
  induction df as [ | row df IH]; cbn [sort_index]; [constructor | ].
  now apply insert_row_sorted.
Qed.

Lemma skipn_sorted (l : list Z) : forall k,
  StronglySorted Z.le l -> StronglySorted Z.le (skipn k l).
Proof.
  induction l as [ | x l IH]; intros [ | k] H; cbn [skipn]; try assumption.
  apply IH. now apply StronglySorted_inv in H.
Qed.

Lemma skipn_incl {A : Type} (l : list A) : forall k, incl (skipn k l) l.
Proof.
  induction l as [ | x l IH]; intros [ | k]; cbn [skipn]; try apply incl_refl.
  apply incl_tl, IH.
Qed.

(** A tail is a final part of the frame, of at most [n] rows for [n >= 0]. *)
Lemma tail_spec (n : Z) (df : DataFrame) :
  (exists k, tail n df = skipn k df)
  /\ (0 <= n -> len (tail n df) = Z.min n (len df)).
Proof.
  unfold tail, len. split.
  - destruct (0 <=? n); eauto.
  - intros Hn. rewrite (proj2 (Z.leb_le 0 n) Hn), length_skipn. lia.
Qed.

Section Feed.

Variable API_KEY : string.
Variable api_request : nat -> string -> string -> Z -> option (list ApiCandle).
Variable instrument granularity : string.

(** One request for [cnt] rows, as the loop makes it. *)
Definition fetched (batch : DataFrame) : Prop :=
  exists n cnt, 0 < cnt <= 500
    /\ fetch_candles API_KEY api_request n instrument cnt granularity = Some batch.

(** ** Candles *)

Definition row_of_candle (c : ApiCandle) : Candle :=
  mkCandle (c_time c) (mid_o c) (mid_h c) (mid_l c) (mid_c c).

(** The rows [fetch_candles] makes of an answer. *)
Definition kept (c : ApiCandle) : bool :=
  complete c && negb (has_nan (row_of_candle c)).

Lemma rows_of_answer (candles : list ApiCandle) :
  dropna (map (fun c => mkCandle (c_time c) (mid_o c) (mid_h c) (mid_l c) (mid_c c))
              (filter complete candles)) =
  map row_of_candle (filter kept candles).
Proof.
  unfold dropna, kept. induction candles as [ | c cs IH]; [reflexivity | ].
  cbn [filter map]. destruct (complete c); cbn [andb map filter]; [ | exact IH].
  fold (row_of_candle c). destruct (has_nan (row_of_candle c)); cbn [negb map];
    now rewrite IH.
Qed.

Lemma fetch_candles_answer (n : nat) (count : Z) (candles : list ApiCandle) :
  API_KEY <> ""%string ->
  api_request n instrument granularity (Z.min count 500) = Some candles ->
  fetch_candles API_KEY api_request n instrument count granularity =
  Some (map row_of_candle (filter kept candles)).
Proof.
  intros Hkey Hreq. unfold fetch_candles. apply String.eqb_neq in Hkey.
  now rewrite Hkey, Hreq, rows_of_answer.
Qed.

(** X12. Without a key [fetch_candles] raises before any request.  With
    one, it asks the broker for at most 500 candles, and returns, in the
    order of the answer, the candles that are complete and have no NaN
    price: never more rows than the answer holds. *)
Theorem fetch_candles_rows (n : nat) (count : Z) (candles : list ApiCandle) :
  API_KEY <> ""%string ->
  api_request n instrument granularity (Z.min count 500) = Some candles ->
  fetch_candles "" api_request n instrument count granularity = None
  /\ exists df,
       fetch_candles API_KEY api_request n instrument count granularity = Some df
       /\ df = map row_of_candle (filter kept candles)
       /\ len df <= Z.of_nat (List.length candles)
       /\ Forall (fun row => has_nan row = false) df.
Proof.
  intros Hkey Hreq. split; [reflexivity | ].
  eexists. split; [exact (fetch_candles_answer n count candles Hkey Hreq) | ].
  split; [reflexivity | ]. split.
  - unfold len. rewrite length_map. apply inj_le. apply filter_length_le.
  - apply Forall_forall. intros row Hrow. apply in_map_iff in Hrow.
    destruct Hrow as (c & <- & Hc). apply filter_In in Hc. destruct Hc as [_ Hc].
    unfold kept in Hc. apply andb_true_iff in Hc. destruct Hc as [_ Hc].
    now apply negb_true_iff.
Qed.

(** ** The batches *)

Definition loop := fetch_loop API_KEY api_request.
Definition fetch := fetch_candles API_KEY api_request.
Definition history := fetch_history API_KEY api_request.

(** The rows of all the batches. *)
Definition total (out : list DataFrame) : Z := len (List.concat out).

Lemma total_app (out : list DataFrame) (df : DataFrame) :
  total (out ++ [df]) = total out + len df.
Proof.
  unfold total, len. rewrite concat_app, length_app. cbn [List.concat].
  rewrite app_nil_r. lia.
Qed.

Lemma len_cons (row : Candle) (df : DataFrame) : len (row :: df) = 1 + len df.
Proof. unfold len. cbn [List.length]. lia. Qed.

Lemma len_nonneg (df : DataFrame) : 0 <= len df.
Proof. unfold len. lia. Qed.

(** The fuel is no part of the result once it covers the rows wanted. *)
Lemma fetch_loop_fuel (fuel1 : nat) : forall fuel2 n remaining out,
  remaining <= Z.of_nat fuel1 -> remaining <= Z.of_nat fuel2 ->
  loop fuel1 instrument granularity n remaining out =
  loop fuel2 instrument granularity n remaining out.
Proof.
  unfold loop.
  induction fuel1 as [ | fuel1 IH]; intros [ | fuel2] n remaining out H1 H2;
    cbn [fetch_loop]; try reflexivity.
  - now rewrite (proj2 (Z.ltb_ge 0 remaining)) by lia.
  - now rewrite (proj2 (Z.ltb_ge 0 remaining)) by lia.
  - destruct (0 <? remaining); [ | reflexivity].
    destruct (fetch_candles _ _ _ _ _ _) as [[ | row df] | ]; try reflexivity.
    destruct (len (row :: df) <? Z.min remaining 500); [reflexivity | ].
    rewrite len_cons in *. pose proof (len_nonneg df). apply IH; lia.
Qed.

(** The loop only adds batches, each of them fetched and not empty. *)
Lemma fetch_loop_batches (fuel : nat) : forall n remaining out out',
  loop fuel instrument granularity n remaining out = Some out' ->
  exists more, out' = out ++ more
               /\ Forall (fun b => fetched b /\ b <> []) more.
Proof.
  unfold loop.
  induction fuel as [ | fuel IH]; intros n remaining out out'; cbn [fetch_loop].
  - intros [= <-]. exists []. split; [now rewrite app_nil_r | constructor].
  - destruct (Z.ltb_spec 0 remaining) as [Hpos | _];
      [ | intros [= <-]; exists []; split; [now rewrite app_nil_r | constructor]].
    destruct (fetch_candles _ _ _ _ _ _) as [[ | row df] | ] eqn:Hf; [ | | discriminate].
    { intros [= <-]. exists []. split; [now rewrite app_nil_r | constructor]. }
    assert (Hb : fetched (row :: df) /\ row :: df <> []).
    { split; [ | discriminate]. exists n, (Z.min remaining 500). split; [lia | exact Hf]. }
    destruct (len (row :: df) <? Z.min remaining 500).
    + intros [= <-]. exists [row :: df]. split; [reflexivity | now constructor].
    + intros H. apply IH in H. destruct H as (more & -> & Hmore).
      exists ((row :: df) :: more). split; [now rewrite <- app_assoc | now constructor].
Qed.

(** X13. [fetch_history] with no positive [lookback] returns the empty
    frame without a request (and so without a key).  Any frame it returns
    is in the order of the stamps, has at most [lookback] rows, and holds
    only rows of batches it fetched. *)
Theorem fetch_history_frame (lookback : Z) :
  (lookback <= 0 -> history instrument lookback granularity = Some [])
  /\ forall df, history instrument lookback granularity = Some df ->
       StronglySorted Z.le (index df)
       /\ len df <= Z.max 0 lookback
       /\ forall row, In row df -> exists batch, fetched batch /\ In row batch.
Proof.
  unfold history, fetch_history. split.
  - intros Hle. replace (Z.to_nat lookback) with 0%nat by lia. reflexivity.
  - intros df. destruct (Z.le_gt_cases lookback 0) as [Hle | Hpos].
    { replace (Z.to_nat lookback) with 0%nat by lia. cbn [fetch_loop].
      intros [= <-]. repeat split; [constructor | cbn; lia | intros row []]. }
    fold loop.
    destruct (loop _ _ _ _ _ _) as [out | ] eqn:Hloop; [ | discriminate].
    apply fetch_loop_batches in Hloop. destruct Hloop as (more & -> & Hmore).
    cbn [app]. destruct more as [ | b more].
    { intros [= <-]. repeat split; [constructor | cbn; lia | intros row []]. }
    remember (b :: more) as batches eqn:Hb. intros [= <-].
    destruct (tail_spec lookback (sort_index (List.concat batches))) as [[k Hk] Hlen].
    repeat split.
    + rewrite Hk. unfold index. rewrite <- skipn_map.
      apply skipn_sorted. apply sort_index_sorted.
    + rewrite Hlen by lia. lia.
    + intros row Hrow. rewrite Hk in Hrow. apply skipn_incl in Hrow.
      apply (Permutation_in _ (sort_index_perm _)) in Hrow.
      apply in_concat in Hrow. destruct Hrow as (batch & Hbatch & Hrow).
      exists batch. split; [ | exact Hrow].
      rewrite Forall_forall in Hmore. now apply Hmore.
Qed.

(** ** A broker that keeps to the count *)

(** No answer is longer than the count asked for. *)
Definition honours_count : Prop :=
  forall n cnt batch, 0 < cnt <= 500 ->
    fetch n instrument cnt granularity = Some batch -> len batch <= cnt.

Lemma loop_total_le (Hcount : honours_count) (fuel : nat) :
  forall n remaining out out',
    0 <= remaining ->
    loop fuel instrument granularity n remaining out = Some out' ->
    total out' <= total out + remaining.
Proof.
  unfold loop.
  induction fuel as [ | fuel IH]; intros n remaining out out' Hrem; cbn [fetch_loop].
  - intros [= <-]. lia.
  - destruct (Z.ltb_spec 0 remaining) as [Hpos | _]; [ | intros [= <-]; lia].
    destruct (fetch_candles _ _ _ _ _ _) as [[ | row df] | ] eqn:Hf;
      [intros [= <-]; lia | | discriminate].
    assert (Hlen : len (row :: df) <= Z.min remaining 500)
      by (apply (Hcount n); [lia | exact Hf]).
    destruct (len (row :: df) <? Z.min remaining 500).
    + intros [= <-]. rewrite total_app. lia.
    + intros H. apply IH in H; [ | lia]. rewrite total_app in H. lia.
Qed.

Lemma tail_all (n : Z) (df : DataFrame) : len df <= n -> tail n df = df.
Proof.
  unfold tail, len. intros H. rewrite (proj2 (Z.leb_le 0 n)) by lia.
  replace (List.length df - Z.to_nat n)%nat with 0%nat by lia. reflexivity.
Qed.

Lemma len_sort_index (df : DataFrame) : len (sort_index df) = len df.
Proof. unfold len. now rewrite (Permutation_length (sort_index_perm df)). Qed.

(** X14. With a broker that never answers more rows than asked,
    [fetch_history] drops nothing: the frame it returns holds the rows of
    the batches of its loop, every fetched row once for each time it was
    fetched, in the order of the stamps. *)
Theorem fetch_history_keeps_all (lookback : Z) (df : DataFrame) :
  honours_count ->
  history instrument lookback granularity = Some df ->
  exists out,
    loop (Z.to_nat lookback) instrument granularity 0 lookback [] = Some out
    /\ Permutation df (List.concat out)
    /\ StronglySorted Z.le (index df).
Proof.
  intros Hcount. unfold history, fetch_history. fold loop.
  destruct (loop _ _ _ _ _ _) as [out | ] eqn:Hloop; [ | discriminate].
  intros Hdf. exists out. split; [reflexivity | ].
  assert (E : df = sort_index (List.concat out)).
  { destruct out as [ | b out]; [now injection Hdf as <- | ].
    injection Hdf as <-. apply tail_all. rewrite len_sort_index.
    destruct (Z.le_gt_cases lookback 0) as [Hle | Hpos].
    - replace (Z.to_nat lookback) with 0%nat in Hloop by lia. discriminate Hloop.
    - apply (loop_total_le Hcount) in Hloop; [ | lia].
      unfold total at 2 in Hloop. cbn in Hloop. exact Hloop. }
  rewrite E. split; [apply sort_index_perm | apply sort_index_sorted].
Qed.

(** ** A broker that always has the rows *)

(** Every request for up to 500 rows is answered in full. *)
Definition always_full : Prop :=
  forall n cnt, 0 < cnt <= 500 ->
    exists batch, fetch n instrument cnt granularity = Some batch /\ len batch = cnt.

Lemma loop_full (Hfull : always_full) (fuel : nat) :
  forall n remaining out,
    0 <= remaining <= Z.of_nat fuel ->
    exists out',
      loop fuel instrument granularity n remaining out = Some out'
      /\ total out' = total out + remaining
      /\ Z.of_nat (List.length out') = Z.of_nat (List.length out) + (remaining + 499) / 500.
Proof.
  unfold loop.
  induction fuel as [ | fuel IH]; intros n remaining out Hrem; cbn [fetch_loop].
  - exists out. replace remaining with 0 by lia.
    change ((0 + 499) / 500) with 0. repeat split; lia.
  - destruct (Z.ltb_spec 0 remaining) as [Hpos | Hz].
    2:{ exists out. replace remaining with 0 by lia.
        change ((0 + 499) / 500) with 0. repeat split; lia. }
    destruct (Hfull n (Z.min remaining 500)) as (batch & Hf & Hlen); [lia | ].
    unfold fetch in Hf. rewrite Hf.
    destruct batch as [ | row df]; [unfold len in Hlen; cbn in Hlen; lia | ].
    rewrite Hlen, Z.ltb_irrefl.
    destruct (IH (S n) (remaining - Z.min remaining 500) (out ++ [row :: df]))
      as (out' & Hrun & Htot & Hn); [lia | ].
    exists out'. split; [exact Hrun | ].
    rewrite total_app, Hlen in Htot. rewrite length_app in Hn. cbn [List.length] in Hn.
    split; [lia | ].
    destruct (Z.le_gt_cases 500 remaining) as [Hbig | Hsmall].
    + rewrite Z.min_r in Hn by lia.
      replace (remaining + 499) with (remaining - 500 + 499 + 1 * 500) by lia.
      rewrite Z.div_add by lia. lia.
    + rewrite Z.min_l in Hn by lia.
      replace (remaining - remaining + 499) with 499 in Hn by lia.
      change (499 / 500) with 0 in Hn.
      assert ((remaining + 499) / 500 = 1); [ | lia].
      symmetry. apply Z.div_unique with (r := remaining - 1); lia.
Qed.

(** X15. With a broker that answers every request in full,
    [fetch_history] makes one request per 500 rows wanted, rounded up, and
    returns exactly [lookback] rows. *)
Theorem fetch_history_full (lookback : Z) :
  always_full ->
  0 <= lookback ->
  exists out df,
    loop (Z.to_nat lookback) instrument granularity 0 lookback [] = Some out
    /\ Z.of_nat (List.length out) = (lookback + 499) / 500
    /\ history instrument lookback granularity = Some df
    /\ len df = lookback.
Proof.
  intros Hfull Hpos.
  destruct (loop_full Hfull (Z.to_nat lookback) 0 lookback [])
    as (out & Hrun & Htot & Hn); [lia | ].
  unfold history, fetch_history. fold loop. rewrite Hrun.
  cbn [List.length] in Hn. unfold total at 2 in Htot. cbn in Htot.
  destruct out as [ | b out].
  - exists [], []. unfold total in Htot. cbn in Htot.
    repeat split; try assumption; unfold len; cbn; lia.
  - eexists _, _. split; [reflexivity | ]. split; [exact Hn | ].
    split; [reflexivity | ].
    destruct (tail_spec lookback (sort_index (List.concat (b :: out)))) as [_ Hlen].
    rewrite Hlen by exact Hpos. rewrite len_sort_index. fold (total (b :: out)). lia.
Qed.

(** ** A broker that answers by count alone *)

Lemma concat_repeats (b1 b2 : DataFrame) (more : list DataFrame) (row : Candle) :
  In row b1 -> In row b2 -> ~ NoDup (List.concat (b1 :: b2 :: more)).
Proof.
  intros H1 H2 Hnd. cbn [List.concat] in Hnd.
  apply in_split in H1. destruct H1 as (l1 & l2 & ->).
  rewrite <- app_assoc in Hnd. cbn [app] in Hnd.
  apply NoDup_remove_2 in Hnd. apply Hnd.
  apply in_or_app. right. apply in_or_app. right. apply in_or_app. now left.
Qed.

(** X16. The loop asks for a count and never for a range of time.  So
    with a broker whose answer depends on the count alone (the most recent
    rows, those for a smaller count being among those for 500), asking for
    more than 500 rows brings the same rows again: the frame returned has
    a stamp twice. *)
Theorem fetch_history_repeats (recent : Z -> DataFrame) (lookback : Z) :
  (forall n cnt, 0 < cnt <= 500 ->
     fetch n instrument cnt granularity = Some (recent cnt)) ->
  (forall cnt, 0 < cnt <= 500 ->
     len (recent cnt) = cnt /\ incl (recent cnt) (recent 500)) ->
  500 < lookback ->
  exists df, history instrument lookback granularity = Some df
             /\ ~ NoDup (index df).
Proof.
  intros Hfetch Hrecent Hbig.
  assert (Hfull : always_full).
  { intros n cnt Hcnt. exists (recent cnt). split; [now apply Hfetch | now apply Hrecent]. }
  destruct (loop_full Hfull (Z.to_nat lookback) 0 lookback [])
    as (out & Hrun & Htot & _); [lia | ].
  change (total []) with 0 in Htot.
  (* the first two turns of the loop *)
  assert (Hfuel : exists fuel, Z.to_nat lookback = S (S fuel)).
  { exists (Z.to_nat lookback - 2)%nat. lia. }
  destruct Hfuel as (fuel & Hfuel).
  unfold history, fetch_history. fold loop. rewrite Hrun.
  rewrite Hfuel in Hrun. unfold loop in Hrun. cbn [fetch_loop] in Hrun.
  rewrite (proj2 (Z.ltb_lt 0 lookback)) in Hrun by lia.
  rewrite Z.min_r in Hrun by lia. fold fetch in Hrun.
  rewrite (Hfetch 0%nat 500) in Hrun by lia.
  destruct (Hrecent 500) as [Hlen500 _]; [lia | ].
  destruct (recent 500) as [ | r500 b500] eqn:E500;
    [unfold len in Hlen500; cbn in Hlen500; lia | ].
  rewrite Hlen500, Z.ltb_irrefl in Hrun.
  rewrite (proj2 (Z.ltb_lt 0 (lookback - 500))) in Hrun by lia.
  set (cnt := Z.min (lookback - 500) 500) in *.
  rewrite (Hfetch 1%nat cnt) in Hrun by lia.
  destruct (Hrecent cnt) as [Hlen Hincl]; [lia | ].
  destruct (recent cnt) as [ | r b] eqn:Ecnt;
    [unfold len in Hlen; cbn in Hlen; lia | ].
  rewrite Hlen, Z.ltb_irrefl in Hrun. fold loop in Hrun.
  apply fetch_loop_batches in Hrun. destruct Hrun as (more & -> & _).
  cbn [app] in *. eexists. split; [reflexivity | ].
  rewrite tail_all by (rewrite len_sort_index; unfold total in Htot; lia).
  intros Hnd. apply NoDup_map_inv in Hnd.
  apply (Permutation_NoDup (sort_index_perm _)) in Hnd. revert Hnd.
  apply (concat_repeats _ _ _ r); [ | now left].
  apply Hincl. now left.
Qed.

End Feed.

End FeedFacts.

(** ** Exits come after the entry *)

Module ExitFacts.

Import Pandas BaselineRules FrameFacts LedgerFacts.
Open Scope string_scope.
Open Scope list_scope.

Section Exit.

Variable cfg : Config.
Variable instrument : string.

(** The position is open, entered on one of the rows already run. *)
Definition entered_among (T : list Trade) (seen : list Candle) (st : Locals) : Prop :=
  entered st = true /\ trades st = T
  /\ exists tr pre erow mid,
       trade st = Some tr /\ exit tr = None
       /\ seen = pre ++ erow :: mid /\ time tr = stamp erow.

(** The position was closed by a stop or a target on a row after the row
    of its entry. *)
Definition closed_later (T : list Trade) (rows : list Candle) (st : Locals) : Prop :=
  exists tr pre erow mid xrow post,
    trades st = T ++ [tr]
    /\ rows = pre ++ erow :: mid ++ xrow :: post
    /\ time tr = stamp erow /\ exit_time tr = Some (stamp xrow)
    /\ (exit_reason tr = Some "SL" \/ exit_reason tr = Some "TP").

Lemma on_row_exit lt sht row st r T seen :
  (entered st = false /\ trades st = T) \/ entered_among T seen st ->
  on_row cfg instrument lt sht row st = Some r ->
  match snd r with
  | Next => (entered (fst r) = false /\ trades (fst r) = T)
            \/ entered_among T (seen ++ [row]) (fst r)
  | Break => exists tr pre erow mid,
               trades (fst r) = T ++ [tr]
               /\ seen = pre ++ erow :: mid
               /\ time tr = stamp erow /\ exit_time tr = Some (stamp row)
               /\ (exit_reason tr = Some "SL" \/ exit_reason tr = Some "TP")
  end.
Proof.
  unfold on_row.
  intros [[Hin HT] | (Hin & HT & tr & pre & erow & mid & Htr & Hopen & Hseen & Htime)];
    rewrite Hin; cbn [negb].
  - intros [= <-]. cbn [fst snd]. unfold try_entry.
    destruct (lt <? close row)%float; [ | destruct (close row <? sht)%float].
    + right. repeat split; [exact HT | ].
      eexists _, seen, row, []. now repeat split.
    + right. repeat split; [exact HT | ].
      eexists _, seen, row, []. now repeat split.
    + left. now split.
  - rewrite Htr.
    assert (Hnext : forall cur,
              exit cur = None -> time cur = time tr ->
              exists tr' pre' erow' mid',
                Some cur = Some tr' /\ exit tr' = None
                /\ seen ++ [row] = pre' ++ erow' :: mid' /\ time tr' = stamp erow').
    { intros cur H1 H2. exists cur, pre, erow, (mid ++ [row]).
      repeat split; [exact H1 | | congruence].
      rewrite Hseen, <- app_assoc. reflexivity. }
    destruct (String.eqb (side tr) "long"); intros [= <-].
    + destruct (ratchet_long_open cfg instrument st row tr) as [He Ht].
      unfold manage_long.
      destruct (low row <=? sl (ratchet_long cfg instrument st row tr))%float;
        [ | destruct (tp (ratchet_long cfg instrument st row tr) <=? high row)%float];
        cbn [fst snd trades entered trade].
      * eexists _, pre, erow, mid. rewrite HT. repeat split; auto.
        cbn [set_exit time]. congruence.
      * eexists _, pre, erow, mid. rewrite HT. repeat split; auto.
        cbn [set_exit time]. congruence.
      * right. repeat split; [exact Hin | exact HT | ]. apply Hnext; congruence.
    + destruct (ratchet_short_open cfg instrument st row tr) as [He Ht].
      unfold manage_short.
      destruct (sl (ratchet_short cfg instrument st row tr) <=? high row)%float;
        [ | destruct (low row <=? tp (ratchet_short cfg instrument st row tr))%float];
        cbn [fst snd trades entered trade].
      * eexists _, pre, erow, mid. rewrite HT. repeat split; auto.
        cbn [set_exit time]. congruence.
      * eexists _, pre, erow, mid. rewrite HT. repeat split; auto.
        cbn [set_exit time]. congruence.
      * right. repeat split; [exact Hin | exact HT | ]. apply Hnext; congruence.
Qed.

Lemma for_rows_exit lt sht rows T : forall seen st r,
  (entered st = false /\ trades st = T) \/ entered_among T seen st ->
  for_rows cfg instrument lt sht rows st = Some r ->
  match snd r with
  | Next => (entered (fst r) = false /\ trades (fst r) = T)
            \/ entered_among T (seen ++ rows) (fst r)
  | Break => closed_later T (seen ++ rows) (fst r)
  end.
Proof.
  induction rows as [ | row rows IH]; intros seen st r Hst; cbn [for_rows].
  - intros [= <-]. cbn [fst snd]. now rewrite app_nil_r.
  - destruct (on_row cfg instrument lt sht row st) as [[st1 flow] | ] eqn:Hrow;
      [ | discriminate].
    pose proof (on_row_exit lt sht row st _ T seen Hst Hrow) as H1.
    cbn [fst snd] in *. destruct flow.
    + intros Hrun. apply (IH (seen ++ [row])) in Hrun; [ | exact H1].
      now rewrite <- app_assoc in Hrun.
    + intros [= <-]. cbn [fst snd].
      destruct H1 as (tr & pre & erow & mid & HT & Hseen & Htime & Hx & Hreason).
      exists tr, pre, erow, mid, row, rows. repeat split; try assumption.
      rewrite Hseen, <- app_assoc. reflexivity.
Qed.

(** X17. A stop or a target is never taken on the row of the entry: when
    a day adds a trade whose reason is not EOD, the rows of the day hold
    the row of its entry and, further on, the row of its exit. *)
Theorem exit_after_entry (fw day_df : DataFrame) (st st' : Locals) (tr : Trade) :
  run_day cfg instrument fw day_df st = Some st' ->
  trades st' = trades st ++ [tr] ->
  exit_reason tr <> Some "EOD" ->
  exists pre erow mid xrow post,
    day_df = pre ++ erow :: mid ++ xrow :: post
    /\ time tr = stamp erow /\ exit_time tr = Some (stamp xrow)
    /\ (exit_reason tr = Some "SL" \/ exit_reason tr = Some "TP").
Proof.
  unfold run_day. destruct (triggers cfg instrument fw) as [lt sht].
  destruct (for_rows cfg instrument lt sht day_df (new_day st)) as [[st1 flow] | ] eqn:Hrun;
    [ | discriminate].
  apply (for_rows_exit lt sht day_df (trades st) []) in Hrun;
    [ | left; now split].
  cbn [fst snd app] in *. unfold eod_close. destruct flow.
  - destruct Hrun as [[Hin HT] | (Hin & HT & tr1 & _ & _ & _ & Htr & Hopen & _)];
      rewrite Hin.
    + intros [= <-] Happ. exfalso. rewrite HT in Happ.
      apply (f_equal (@List.length Trade)) in Happ. rewrite length_app in Happ.
      cbn in Happ. lia.
    + rewrite Htr, Hopen. destruct (last_row day_df) as [last | ]; [ | discriminate].
      intros [= <-] Happ Hreason. exfalso. cbn [trades] in Happ. rewrite HT in Happ.
      apply app_inv_head in Happ. injection Happ as <-. now apply Hreason.
  - destruct Hrun as (tr1 & pre & erow & mid & xrow & post & HT & Hsplit & Htime & Hx & Hr).
    intros Hend Happ _.
    assert (st' = st1).
    { destruct (entered st1); [ | now injection Hend].
      destruct (trade st1) as [t1 | ]; [ | discriminate].
      destruct (exit t1); [now injection Hend | ].
      destruct (last_row day_df); [ | discriminate].
      injection Hend as <-. cbn [trades] in Happ. rewrite HT in Happ.
      apply (f_equal (@List.length Trade)) in Happ. rewrite !length_app in Happ.
      cbn in Happ. lia. }
    subst st'. rewrite HT in Happ. apply app_inv_head in Happ. injection Happ as <-.
    exists pre, erow, mid, xrow, post. auto.
Qed.

End Exit.

End ExitFacts.

(** * Worked cases for the further properties *)

Module MoreScenarios.

Import Pandas BaselineRules Backtest DataFeed.
Import FrameFacts LedgerFacts Scenarios SessionFacts WindowFacts TradeFacts
       OrderFacts BacktestFacts MetricsFacts FeedFacts.
Open Scope string_scope.
Open Scope list_scope.
Open Scope Z_scope.

Lemma in_session_minute_window_witness :
  _in_session default_config (at_hm 20000 9 30)
    = Some ((420 <=? minute_of_day (at_hm 20000 9 30))
            && (minute_of_day (at_hm 20000 9 30) <=? 1020))
  /\ 0 <= minute_of_day (at_hm 20000 9 30) < 1440
  /\ _in_session default_config (at_hm 20000 9 30 + 3 * ns_per_day)
     = _in_session default_config (at_hm 20000 9 30).
Proof.
  exact (in_session_minute_window default_config 420 1020 (at_hm 20000 9 30) 3
           eq_refl eq_refl).
Defined.

(** A session from 22:00 to 06:00. *)
Definition overnight : Config :=
  mkConfig 1.0 8.0 12.0 "2200" "0600" 30 "EUR_USD" 6.0 0.0.

Lemma inverted_session_no_trades_witness :
  make_signals overnight "EUR_USD" two_days = Some [].
Proof.
  exact (inverted_session_no_trades overnight 1320 360 "EUR_USD" two_days
           eq_refl eq_refl eq_refl).
Defined.

Lemma quiet_day_cutoffs (day : Z) (start : Timestamp) :
  day_start quiet_day [true; true; true; true; true] day = Some start ->
  exists cutoff, Timestamp_add start (30 * ns_per_minute) = Some cutoff.
Proof.
  intros H. apply day_start_In in H. vm_compute in H.
  repeat (destruct H as [<- | H]; [eexists; vm_compute; reflexivity | ]).
  destruct H.
Qed.

Lemma first_window_mask_marks_witness :
  exists first_mask,
    _first_window_mask default_config quiet_day = Some first_mask
    /\ map fst first_mask = index quiet_day
    /\ forall t b, In (t, b) first_mask ->
         (b = true <->
          exists day start,
            In day (map _session_day_key (index quiet_day))
            /\ day_start quiet_day [true; true; true; true; true] day = Some start
            /\ start <= t < start + 30 * ns_per_minute).
Proof.
  destruct (first_window_mask_marks default_config quiet_day
              [true; true; true; true; true] (30 * ns_per_minute) eq_refl eq_refl)
    as (_ & Hex & Hall).
  destruct (Hex quiet_day_cutoffs) as [first_mask Hm].
  exists first_mask. split; [exact Hm | exact (Hall first_mask Hm)].
Defined.

(** The default parameters with a first window of no minute. *)
Definition no_window : Config :=
  mkConfig 1.0 8.0 12.0 "0700" "1700" 0 "EUR_USD" 6.0 0.0.

Definition no_window_trades : list Trade :=
  match make_signals no_window "EUR_USD" two_days with
  | Some ledger => ledger
  | None => []
  end.

Lemma empty_window_no_trades_witness : no_window_trades = [].
Proof.
  apply (empty_window_no_trades no_window "EUR_USD" two_days no_window_trades).
  - discriminate.
  - vm_compute. reflexivity.
Defined.

Definition two_days_mask : list (Timestamp * bool) :=
  match _first_window_mask default_config two_days with
  | Some first_mask => first_mask
  | None => []
  end.

Lemma first_window_starts_the_day_witness :
  exists first_row rows fw,
    day_rows two_days (map _session_day_key (index two_days)) 20001 = first_row :: rows
    /\ incl fw rows
    /\ on_day default_config "EUR_USD" two_days two_days_mask
              (map _session_day_key (index two_days)) 20001 fresh
       = run_day default_config "EUR_USD" (first_row :: fw) (first_row :: rows) fresh.
Proof.
  apply (first_window_starts_the_day default_config "EUR_USD" two_days two_days_mask
           20001 fresh).
  - reflexivity.
  - exact two_days_distinct.
  - repeat constructor.
  - vm_compute. tauto.
  - vm_compute. reflexivity.
Defined.

(** The short of the second day. *)
Definition second_trade : Trade :=
  nth 1 two_days_trades long_1062.

Lemma two_days_run :
  make_signals default_config "EUR_USD" two_days = Some two_days_trades.
Proof. vm_compute. reflexivity. Qed.

Lemma second_trade_In : In second_trade two_days_trades.
Proof. vm_compute. right. left. reflexivity. Qed.

Lemma ledger_trade_entry_witness :
  exists df' row,
    session_rows default_config two_days = Some df'
    /\ In row two_days /\ _in_session default_config (stamp row) = Some true
    /\ entered_at default_config "EUR_USD"
         (fst (day_triggers default_config "EUR_USD" df' (_session_day_key (stamp row))))
         (snd (day_triggers default_config "EUR_USD" df' (_session_day_key (stamp row))))
         row second_trade
    /\ (sl second_trade = initial_sl default_config "EUR_USD" second_trade
        \/ sl second_trade = breakeven_sl default_config "EUR_USD" second_trade).
Proof.
  exact (ledger_trade_entry default_config "EUR_USD" two_days two_days_trades
           second_trade two_days_distinct two_days_run second_trade_In).
Defined.

Lemma ledger_trade_exit_witness :
  exists df' xrow,
    session_rows default_config two_days = Some df'
    /\ In xrow two_days /\ _in_session default_config (stamp xrow) = Some true
    /\ _session_day_key (stamp xrow) = _session_day_key (time second_trade)
    /\ exit_time second_trade = Some (stamp xrow)
    /\ ((exit_reason second_trade = Some "SL"
         /\ exit second_trade = Some (sl second_trade))
        \/ (exit_reason second_trade = Some "TP"
            /\ exit second_trade = Some (tp second_trade))
        \/ (exit_reason second_trade = Some "EOD"
            /\ exit second_trade = Some (close xrow)
            /\ last_row (day_of df' (_session_day_key (time second_trade))) = Some xrow)).
Proof.
  exact (ledger_trade_exit default_config "EUR_USD" two_days two_days_trades
           second_trade two_days_distinct two_days_run second_trade_In).
Defined.

Lemma two_days_sorted : StronglySorted Z.le (index two_days).
Proof.
  repeat first [apply SSorted_nil | apply SSorted_cons
               | apply Forall_nil | apply Forall_cons
               | (vm_compute; discriminate)].
Qed.

Lemma ledger_chronological_witness :
  StronglySorted Z.lt (entry_days two_days_trades)
  /\ StronglySorted Z.lt (map time two_days_trades).
Proof.
  exact (ledger_chronological default_config "EUR_USD" two_days two_days_trades
           two_days_distinct two_days_sorted two_days_run).
Defined.

Lemma baseline_bt_rows_witness :
  baseline_bt default_config default_costs "EUR_USD" [] = None
  /\ exists rows,
       baseline_bt default_config default_costs "EUR_USD" two_days = Some rows
       /\ Forall2 (row_of default_costs "EUR_USD") two_days_trades rows.
Proof.
  apply (baseline_bt_rows default_config default_costs "EUR_USD" two_days
           two_days_trades);
    [discriminate | exact two_days_distinct | exact two_days_run].
Defined.

Lemma metrics_no_decisive_trade_witness :
  m_hit (metrics (ledger_of [0; 0]%float)) = 0%float
  /\ m_pf (metrics (ledger_of [0; 0]%float)) = infinity
  /\ m_trades (metrics (ledger_of [0; 0]%float))
     = Z.of_nat (List.length (ledger_of [0; 0]%float)).
Proof.
  apply (metrics_no_decisive_trade (ledger_of [0; 0]%float)); [discriminate | ].
  repeat constructor.
Defined.

(** The day of the first scenario: the row after the entry reaches the
    stop. *)
Definition stopped_day : DataFrame :=
  range_rows ++
  [candle (at_hm 20000 9 30) 1.1063 1.1040 1.1062;
   candle (at_hm 20000 9 35) 1.1065 1.1050 1.1060;
   candle (at_hm 20000 9 40) 1.1090 1.1050 1.1080].

Definition stopped_day_end : Locals :=
  match run_day default_config "EUR_USD" range_rows stopped_day fresh with
  | Some st => st
  | None => fresh
  end.

Definition stopped_trade : Trade := nth 0 (trades stopped_day_end) long_1062.

Lemma exit_after_entry_witness :
  exists pre erow mid xrow post,
    stopped_day = pre ++ erow :: mid ++ xrow :: post
    /\ time stopped_trade = stamp erow
    /\ exit_time stopped_trade = Some (stamp xrow)
    /\ (exit_reason stopped_trade = Some "SL" \/ exit_reason stopped_trade = Some "TP").
Proof.
  apply (ExitFacts.exit_after_entry default_config "EUR_USD" range_rows stopped_day
           fresh stopped_day_end stopped_trade).
  - vm_compute. reflexivity.
  - vm_compute. reflexivity.
  - vm_compute. discriminate.
Defined.

(** *** A broker with 500 five-minute candles *)

Definition candle_no (i : nat) : ApiCandle :=
  mkApiCandle true (Z.of_nat i * 5 * ns_per_minute) 1 1 1 1.

Definition tape : list ApiCandle := map candle_no (seq 0 500).

(** The most recent [cnt] candles, whatever else is asked. *)
Definition last_candles (cnt : Z) : list ApiCandle :=
  skipn (500 - Z.to_nat cnt) tape.

Definition broker (n : nat) (instrument granularity : string) (cnt : Z)
  : option (list ApiCandle) := Some (last_candles cnt).

Definition recent (cnt : Z) : DataFrame := map row_of_candle (last_candles cnt).

Lemma tape_kept (cnt : Z) : filter kept (last_candles cnt) = last_candles cnt.
Proof.
  apply forallb_filter_id. apply forallb_forall. intros c Hc.
  apply skipn_incl in Hc. unfold tape in Hc. apply in_map_iff in Hc.
  now destruct Hc as (i & <- & _).
Qed.

Lemma broker_recent (n : nat) (cnt : Z) :
  0 < cnt <= 500 ->
  fetch "key" broker n "EUR_USD" cnt "M5" = Some (recent cnt).
Proof.
  intros Hcnt. unfold fetch.
  rewrite (fetch_candles_answer "key" broker "EUR_USD" "M5" n cnt
             (last_candles (Z.min cnt 500))); [ | discriminate | reflexivity].
  rewrite tape_kept, Z.min_l by lia. reflexivity.
Qed.

Lemma recent_full (cnt : Z) :
  0 < cnt <= 500 -> len (recent cnt) = cnt /\ incl (recent cnt) (recent 500).
Proof.
  intros Hcnt. split.
  - unfold len, recent, last_candles, tape.
    rewrite length_map, length_skipn, length_map, length_seq. lia.
  - unfold recent. apply incl_map. unfold last_candles.
    change (500 - Z.to_nat 500)%nat with 0%nat. apply skipn_incl.
Qed.

Lemma fetch_candles_rows_witness :
  fetch_candles "" broker 0 "EUR_USD" 2 "M5" = None
  /\ exists df,
       fetch_candles "key" broker 0 "EUR_USD" 2 "M5" = Some df
       /\ df = map row_of_candle (filter kept (last_candles 2))
       /\ len df <= Z.of_nat (List.length (last_candles 2))
       /\ Forall (fun row => has_nan row = false) df.
Proof.
  apply (fetch_candles_rows "key" broker "EUR_USD" "M5" 0 2 (last_candles 2));
    [discriminate | reflexivity].
Defined.

Lemma broker_honours_count : honours_count "key" broker "EUR_USD" "M5".
Proof.
  intros n cnt batch Hcnt Hf. rewrite (broker_recent n cnt Hcnt) in Hf.
  injection Hf as <-. destruct (recent_full cnt Hcnt) as [-> _]. lia.
Qed.

Lemma broker_always_full : always_full "key" broker "EUR_USD" "M5".
Proof.
  intros n cnt Hcnt. exists (recent cnt).
  split; [exact (broker_recent n cnt Hcnt) | exact (proj1 (recent_full cnt Hcnt))].
Qed.

Definition fetched_700 : DataFrame :=
  match history "key" broker "EUR_USD" 700 "M5" with
  | Some df => df
  | None => []
  end.

Lemma fetched_700_run : history "key" broker "EUR_USD" 700 "M5" = Some fetched_700.
Proof.
  destruct (loop_full "key" broker "EUR_USD" "M5" broker_always_full
              (Z.to_nat 700) 0 700 []) as (out & Hrun & _); [lia | ].
  unfold fetched_700, history, fetch_history. fold (loop "key" broker).
  rewrite Hrun. now destruct out.
Qed.

Lemma fetch_history_keeps_all_witness :
  exists out,
    loop "key" broker (Z.to_nat 700) "EUR_USD" "M5" 0 700 [] = Some out
    /\ Permutation fetched_700 (List.concat out)
    /\ StronglySorted Z.le (index fetched_700).
Proof.
  exact (fetch_history_keeps_all "key" broker "EUR_USD" "M5" 700 fetched_700
           broker_honours_count fetched_700_run).
Defined.

Lemma fetch_history_full_witness :
  exists out df,
    loop "key" broker (Z.to_nat 1200) "EUR_USD" "M5" 0 1200 [] = Some out
    /\ Z.of_nat (List.length out) = (1200 + 499) / 500
    /\ history "key" broker "EUR_USD" 1200 "M5" = Some df
    /\ len df = 1200.
Proof.
  apply (fetch_history_full "key" broker "EUR_USD" "M5" 1200 broker_always_full).
  discriminate.
Defined.

Lemma fetch_history_repeats_witness :
  exists df, history "key" broker "EUR_USD" 1000 "M5" = Some df
             /\ ~ NoDup (index df).
Proof.
  apply (fetch_history_repeats "key" broker "EUR_USD" "M5" recent 1000).
  - intros n cnt Hcnt. now apply broker_recent.
  - exact recent_full.
  - reflexivity.
Defined.

End MoreScenarios.
